(** * minidump_dump: the dump orchestrator of src/processor/minidump_dump.cc

    A shallow embedding of [DumpRawStream], [PrintMinidumpDump], [Usage],
    [SetupOptions] and [main], with the container reader
    (google_breakpad::Minidump and its record classes) and the C library
    ([printf], [sprintf], [memchr], [getopt]) taken at their interface, and
    the logging macro of processor/logging.h as the entries handed to
    it. *)

From Stdlib Require Import List ZArith Lia Bool Ascii String.
From Equations Require Import Equations.
From Equations.Prop Require Import Logic.
Import ListNotations.

Local Open Scope Z_scope.

(** ** Text and bytes *)

(** A [char] buffer, a [std::string] and what is written on a stream are all
    sequences of bytes. *)
Definition text := list ascii.

Definition chars (s : string) : text := list_ascii_of_string s.

Definition NUL : ascii := Ascii.zero.
Definition LF : ascii := "010"%char.

Definition is_nul (c : ascii) : bool := Ascii.eqb c NUL.

(** The bytes a C string denotes: those before the first NUL. This is what
    [%s] prints of [s.c_str()] and of a literal. *)
Fixpoint c_string (s : text) : text :=
  match s with
  | [] => []
  | c :: s' => if is_nul c then [] else c :: c_string s'
  end.

Definition has_nul (s : text) : bool := existsb is_nul s.

(** [memchr(p, c, n)]: the offset from [p] of the first [c] among the [n]
    bytes at [p], where [s] holds the bytes from [p] to the end of its
    object. [None] is the NULL result. *)
Fixpoint memchr (s : text) (c : ascii) (n : nat) : option nat :=
  match n, s with
  | O, _ => None
  | _, [] => None
  | S n', x :: s' =>
      if Ascii.eqb x c then Some O else option_map S (memchr s' c n')
  end.

(** ** Machine integers *)

Definition UINT32_MODULUS : Z := 4294967296.
Definition UINT32_MAX : Z := 4294967295.
Definition INT_MAX : Z := 2147483647.

(** Conversion to [uint32_t]. *)
Definition to_uint32 (z : Z) : Z := z mod UINT32_MODULUS.

(** An [unsigned int] argument read by a callee as an [int], as [printf]
    does with the argument of a [*] precision. *)
Definition as_int (u : Z) : Z := if u <=? INT_MAX then u else u - UINT32_MODULUS.

(** [printf("%.*s", precision, p)], where [s] holds the bytes from [p] to
    the end of the object [p] points into. A negative precision counts as
    no precision. The result is what gets printed from inside the object,
    and whether [printf] had to go on reading behind the object's end (no
    NUL and no precision limit met inside it). *)
Definition printf_prec_s (precision : Z) (s : text) : text * bool :=
  if precision <? 0
  then (c_string s, negb (has_nul s))
  else
    let window := firstn (Z.to_nat precision) s in
    (c_string window,
     negb (has_nul window) && (Z.of_nat (List.length s) <? precision)).

(** ** The container reader, at the interface the tool consumes *)

(** The raw stream types the tool looks up; their numeric values are in
    minidump_format.h. *)
Inductive MDStreamType :=
| MD_LINUX_CMD_LINE
| MD_LINUX_ENVIRON
| MD_LINUX_LSB_RELEASE
| MD_LINUX_PROC_STATUS
| MD_LINUX_CPU_INFO
| MD_LINUX_MAPS.

(** Records of which the tool only calls [Print()]: the text [Print()]
    writes. *)
Record Printable := { Print_text : text }.

Definition MinidumpThreadList := Printable.
Definition MinidumpThreadNameList := Printable.
Definition MinidumpMemoryList := Printable.
Definition MinidumpException := Printable.
Definition MinidumpAssertion := Printable.
Definition MinidumpMiscInfo := Printable.
Definition MinidumpBreakpadInfo := Printable.
Definition MinidumpMemoryInfoList := Printable.
Definition MinidumpCrashpadInfo := Printable.

Record MinidumpModule := {
  code_file : text;
  code_identifier : text;
  debug_file : text;
  debug_identifier : text
}.

Record MinidumpModuleList := {
  module_count : nat;
  (** [None] is the null pointer. *)
  GetModuleAtIndex : nat -> option MinidumpModule;
  ModuleList_Print : text
}.

Record MDRawSystemInfo := {
  major_version : Z;
  minor_version : Z;
  build_number : Z
}.

Record MinidumpSystemInfo := {
  system_info : option MDRawSystemInfo;
  GetOS : text;
  GetCPU : text;
  SystemInfo_Print : text
}.

Record Minidump := {
  Minidump_Read : bool;
  Minidump_Print : text;
  GetThreadList : option MinidumpThreadList;
  GetThreadNameList : option MinidumpThreadNameList;
  (** [GetModuleList()] while the ceiling on the number of modules,
      [MinidumpModuleList::max_modules_], has the given value. *)
  GetModuleList : Z -> option MinidumpModuleList;
  GetMemoryList : option MinidumpMemoryList;
  GetException : option MinidumpException;
  GetAssertion : option MinidumpAssertion;
  GetSystemInfo : option MinidumpSystemInfo;
  GetMiscInfo : option MinidumpMiscInfo;
  GetBreakpadInfo : option MinidumpBreakpadInfo;
  GetMemoryInfoList : option MinidumpMemoryInfoList;
  GetCrashpadInfo : option MinidumpCrashpadInfo;
  (** [SeekToStreamType(type, &length)]: [Some length] when it returns
      true. *)
  SeekToStreamType : MDStreamType -> option Z;
  (** [ReadBytes(buffer, count)] after a seek to the stream of that type:
      [Some data] when it returns true, [data] being what it stored. *)
  ReadBytes : MDStreamType -> Z -> option text
}.

(** ** The world the program acts on *)

Inductive Severity := ERROR | INFO.

Inductive RecordKind :=
| ThreadList | ThreadNameList | ModuleList | MemoryList | Exception
| Assertion | SystemInfo | MiscInfo | BreakpadInfo | MemoryInfoList
| CrashpadInfo.

(** Operations on the container and scans of a buffer, as they happen. *)
Inductive Call :=
| CallRead
| CallPrint
| CallGet (k : RecordKind)
| CallSeekToStreamType (t : MDStreamType)
| CallReadBytes (count : Z) (ok : bool)
| CallMemchr (offset remaining : Z).

Record World := {
  stdout : text;
  (** what the code of this file ([fprintf(stderr, ...)]) and [getopt]
      write on the error stream; the entries of the log are kept apart,
      wherever the logging header sends them *)
  stderr : text;
  (** the entries handed to [BPLOG], oldest first *)
  log : list (Severity * text);
  (** the static [MinidumpModuleList::max_modules_] *)
  max_modules : Z;
  (** ghost: the trace of calls, oldest first *)
  calls : list Call;
  (** ghost: [printf] was made to read behind the end of a buffer. From
      there on the run of the source is not defined: a world with the flag
      set stands for such a run, and its other fields hold what was done
      up to there and what a run that finds a NUL right behind the buffer
      goes on to do. What is said of the source is said of worlds where
      the flag is not set, or is the setting of the flag itself. *)
  overread : bool
}.

(** The world at the start of the process; 2048 is the ceiling the reader
    starts with. *)
Definition initial_world : World :=
  {| stdout := []; stderr := []; log := []; max_modules := 2048;
     calls := []; overread := false |}.

(** How a computation ends. *)
Inductive Outcome (A : Type) :=
| Returned (a : A) (w : World)
| Exited (code : Z) (w : World)
| Undefined (w : World).
Arguments Returned {A} a w.
Arguments Exited {A} code w.
Arguments Undefined {A} w.

Definition Prog (A : Type) := World -> Outcome A.

Definition ret {A} (a : A) : Prog A := fun w => Returned a w.

Definition bind {A B} (m : Prog A) (k : A -> Prog B) : Prog B :=
  fun w =>
    match m w with
    | Returned a w' => k a w'
    | Exited code w' => Exited code w'
    | Undefined w' => Undefined w'
    end.

Declare Scope prog_scope.
Delimit Scope prog_scope with prog.
Notation "x <- m ;; k" := (bind m (fun x => k))
  (at level 61, m at next level, right associativity) : prog_scope.
Notation "m ;; k" := (bind m (fun _ => k))
  (at level 61, right associativity) : prog_scope.

Definition modify (f : World -> World) : Prog unit := fun w => Returned tt (f w).

Definition write_stdout (t : text) (w : World) : World :=
  {| stdout := stdout w ++ t; stderr := stderr w; log := log w;
     max_modules := max_modules w; calls := calls w;
     overread := overread w |}.
Definition write_stderr (t : text) (w : World) : World :=
  {| stdout := stdout w; stderr := stderr w ++ t; log := log w;
     max_modules := max_modules w; calls := calls w;
     overread := overread w |}.
Definition write_log (s : Severity) (t : text) (w : World) : World :=
  {| stdout := stdout w; stderr := stderr w; log := log w ++ [(s, t)];
     max_modules := max_modules w; calls := calls w;
     overread := overread w |}.
Definition record_call (c : Call) (w : World) : World :=
  {| stdout := stdout w; stderr := stderr w; log := log w;
     max_modules := max_modules w; calls := calls w ++ [c];
     overread := overread w |}.
Definition mark_overread (b : bool) (w : World) : World :=
  {| stdout := stdout w; stderr := stderr w; log := log w;
     max_modules := max_modules w; calls := calls w;
     overread := overread w || b |}.
Definition store_max_modules (n : Z) (w : World) : World :=
  {| stdout := stdout w; stderr := stderr w; log := log w;
     max_modules := n; calls := calls w; overread := overread w |}.

(** [printf] of an already formatted text. *)
Definition printf (t : text) : Prog unit := modify (write_stdout t).

(** Modelled from the spec: the macro [BPLOG] of processor/logging.h, which
    is not among the sources. The spec has an absence or a failure logged,
    as an error or for information only, and says no more of it: an entry
    is the severity and the message handed to the macro. The stream the
    entries end on is the header's matter and is not modelled. *)
Definition BPLOG (s : Severity) (msg : string) : Prog unit :=
  modify (write_log s (chars msg)).

Definition call (c : Call) : Prog unit := modify (record_call c).
Definition exit {A} (code : Z) : Prog A := fun w => Exited code w.
Definition undefined_behaviour {A} : Prog A := fun w => Undefined w.

(** [MinidumpModuleList::set_max_modules(n)]. *)
Definition set_max_modules (n : Z) : Prog unit := modify (store_max_modules n).

(** [minidump.GetModuleList()], under the ceiling in force. *)
Definition Minidump_GetModuleList (minidump : Minidump)
    : Prog (option MinidumpModuleList) :=
  fun w => Returned (GetModuleList minidump (max_modules w)) w.

(** ** DumpRawStream *)

(** [&contents[offset]]: the bytes of the vector from [offset] on. *)
Definition at_offset (contents : text) (offset : Z) : text :=
  skipn (Z.to_nat offset) contents.

(** [std::vector<char> contents(length)] after [ReadBytes] stored [data]
    into it: [length] bytes, zero where nothing was stored. *)
Definition vector_after_read (len : Z) (data : text) : text :=
  firstn (Z.to_nat len) (data ++ repeat NUL (Z.to_nat len)).

Definition terminator_marker : text := chars "\0" ++ [LF].

(** One [printf("%.*s", int_remaining, &contents[current_offset])]. That
    it was made to read behind the buffer is kept in the world; see
    [overread] there. *)
Definition print_span (int_remaining : Z) (p : text) (w : World) : World :=
  let '(span, behind) := printf_prec_s (as_int int_remaining) p in
  mark_overread behind (write_stdout span w).

(** The [while (current_offset < length)] loop. *)
Equations? DumpRawStream_loop (contents : text) (len current_offset : Z)
    (w : World) : World by wf (Z.to_nat (len - current_offset)) lt :=
  DumpRawStream_loop contents len current_offset w
    with Z_lt_dec current_offset len := {
    | right _ => w
    | left _ with memchr (at_offset contents current_offset) NUL
                    (Z.to_nat (len - current_offset)) := {
      | None =>
          record_call (CallMemchr current_offset (len - current_offset))
            (print_span (to_uint32 (len - current_offset))
               (at_offset contents current_offset) w)
      | Some k =>
          DumpRawStream_loop contents len (current_offset + Z.of_nat k + 1)
            (write_stdout terminator_marker
               (record_call (CallMemchr current_offset (len - current_offset))
                  (print_span (to_uint32 (len - current_offset))
                     (at_offset contents current_offset) w)))
      }
    }.
Proof. lia. Qed.

Definition stream_header (stream_name : text) : text :=
  chars "Stream " ++ c_string stream_name ++ chars ":" ++ [LF].

(** [errors] is the value of [*errors] on entry, the result its value on
    return. *)
Definition DumpRawStream (minidump : Minidump) (stream_type : MDStreamType)
    (stream_name : text) (errors : Z) : Prog Z :=
  (call (CallSeekToStreamType stream_type) ;;
   match SeekToStreamType minidump stream_type with
   | None => ret errors
   | Some l =>
       let len := to_uint32 l in
       printf (stream_header stream_name) ;;
       if len =? 0 then
         printf [LF] ;; ret errors
       else
         match ReadBytes minidump stream_type len with
         | None =>
             call (CallReadBytes len false) ;;
             BPLOG ERROR "minidump.ReadBytes failed" ;;
             ret (errors + 1)
         | Some data =>
             call (CallReadBytes len true) ;;
             modify (DumpRawStream_loop (vector_after_read len data) len 0) ;;
             printf [LF; LF] ;;
             ret errors
         end
   end)%prog.

(** ** Formatting numbers *)

Definition digit (d : Z) : ascii := ascii_of_nat (48 + Z.to_nat d).

(** The decimal digits of a natural number, most significant first. Each
    round drops a digit, so the number of binary digits decreases. *)
Equations? decimal (n : Z) : text by wf (Z.to_nat (Z.log2 n)) lt :=
  decimal n with Z_lt_dec n 10 := {
    | left _ => [digit n]
    | right _ => decimal (n / 10) ++ [digit (n mod 10)]
    }.
Proof.
  assert (Hle : n / 10 <= Z.shiftr n 1).
  { rewrite Z.shiftr_div_pow2 by lia. change (2 ^ 1) with 2.
    apply Z.div_le_compat_l; lia. }
  apply Z.log2_le_mono in Hle. rewrite Z.log2_shiftr in Hle by lia.
  assert (3 <= Z.log2 n) by (apply Z.log2_le_pow2; simpl; lia).
  lia.
Qed.

(** [%u] of an [unsigned int]. *)
Definition fmt_u (n : Z) : text := decimal (to_uint32 n).

(** The text ["%u.%u.%u"] makes of the three version fields. *)
Definition format_version (raw : MDRawSystemInfo) : text :=
  fmt_u (major_version raw) ++ chars "." ++
  fmt_u (minor_version raw) ++ chars "." ++
  fmt_u (build_number raw).

(** [sprintf(buffer, ...)] into a [char buffer[size]] holding [buffer]:
    stores the formatted text [t] and a NUL. Storing behind the end of the
    array is not defined. *)
Definition sprintf (buffer : text) (t : text) : Prog text :=
  if (Z.of_nat (List.length t) + 1 <=? Z.of_nat (List.length buffer))
  then ret (t ++ [NUL] ++ skipn (List.length t + 1) buffer)
  else undefined_behaviour.

(** ** Options *)

Record Options := {
  minidumpPath : text;
  hexdump : bool;
  hexdump_width : Z;
  modules_debug_info : bool;
  platform_info : bool
}.

(** The constructor [Options()]. *)
Definition Options_new : Options :=
  {| minidumpPath := []; hexdump := false; hexdump_width := 16;
     modules_debug_info := false; platform_info := false |}.

(** ** PrintMinidumpDump *)

(** [printf("%s;%s;%s;%s\n", ...)] of one module. *)
Definition module_line (module : MinidumpModule) : text :=
  c_string (code_file module) ++ chars ";" ++
  c_string (code_identifier module) ++ chars ";" ++
  c_string (debug_file module) ++ chars ";" ++
  c_string (debug_identifier module) ++ [LF].

(** [for (unsigned int i = 0; i < modules_n; ++i)], entered at [i] with
    [todo = modules_n - i] rounds to go. *)
Fixpoint modules_loop (modules : MinidumpModuleList) (todo i : nat)
    : Prog unit :=
  match todo with
  | O => ret tt
  | S todo' =>
      (match GetModuleAtIndex modules i with
       | Some module => printf (module_line module)
       | None => ret tt
       end ;;
       modules_loop modules todo' (S i))%prog
  end.

Definition SYS_VER_SIZE : nat := 32.

(** [printf("%s;%s;%s\n", ...)] of the platform line. *)
Definition platform_line (sys_info : MinidumpSystemInfo) (sys_ver : text)
    : text :=
  c_string (GetOS sys_info) ++ chars ";" ++ c_string sys_ver ++ chars ";" ++
  c_string (GetCPU sys_info) ++ [LF].

(** The fixed sequence after the two summary modes: from
    [minidump.Print()] to the last [DumpRawStream]. The result is the
    value of [errors] at the end. *)
Definition full_dump (minidump : Minidump) : Prog Z :=
  (call CallPrint ;;
   printf (Minidump_Print minidump) ;;
   let errors := 0 in
   call (CallGet ThreadList) ;;
   errors <- match GetThreadList minidump with
             | None =>
                 BPLOG ERROR "minidump.GetThreadList() failed" ;;
                 ret (errors + 1)
             | Some thread_list =>
                 printf (Print_text thread_list) ;; ret errors
             end ;;
   call (CallGet ThreadNameList) ;;
   match GetThreadNameList minidump with
   | Some thread_name_list => printf (Print_text thread_name_list)
   | None => ret tt
   end ;;
   set_max_modules UINT32_MAX ;;
   call (CallGet ModuleList) ;;
   module_list <- Minidump_GetModuleList minidump ;;
   errors <- match module_list with
             | None =>
                 BPLOG ERROR "minidump.GetModuleList() failed" ;;
                 ret (errors + 1)
             | Some module_list =>
                 printf (ModuleList_Print module_list) ;; ret errors
             end ;;
   call (CallGet MemoryList) ;;
   errors <- match GetMemoryList minidump with
             | None =>
                 BPLOG ERROR "minidump.GetMemoryList() failed" ;;
                 ret (errors + 1)
             | Some memory_list =>
                 printf (Print_text memory_list) ;; ret errors
             end ;;
   call (CallGet Exception) ;;
   match GetException minidump with
   | None => BPLOG INFO "minidump.GetException() failed"
   | Some exception => printf (Print_text exception)
   end ;;
   call (CallGet Assertion) ;;
   match GetAssertion minidump with
   | None => BPLOG INFO "minidump.GetAssertion() failed"
   | Some assertion => printf (Print_text assertion)
   end ;;
   call (CallGet SystemInfo) ;;
   errors <- match GetSystemInfo minidump with
             | None =>
                 BPLOG ERROR "minidump.GetSystemInfo() failed" ;;
                 ret (errors + 1)
             | Some system_info =>
                 printf (SystemInfo_Print system_info) ;; ret errors
             end ;;
   call (CallGet MiscInfo) ;;
   errors <- match GetMiscInfo minidump with
             | None =>
                 BPLOG ERROR "minidump.GetMiscInfo() failed" ;;
                 ret (errors + 1)
             | Some misc_info =>
                 printf (Print_text misc_info) ;; ret errors
             end ;;
   call (CallGet BreakpadInfo) ;;
   match GetBreakpadInfo minidump with
   | None => BPLOG INFO "minidump.GetBreakpadInfo() failed"
   | Some breakpad_info => printf (Print_text breakpad_info)
   end ;;
   call (CallGet MemoryInfoList) ;;
   errors <- match GetMemoryInfoList minidump with
             | None =>
                 BPLOG ERROR "minidump.GetMemoryInfoList() failed" ;;
                 ret (errors + 1)
             | Some memory_info_list =>
                 printf (Print_text memory_info_list) ;; ret errors
             end ;;
   call (CallGet CrashpadInfo) ;;
   match GetCrashpadInfo minidump with
   | Some crashpad_info => printf (Print_text crashpad_info)
   | None => ret tt
   end ;;
   errors <- DumpRawStream minidump MD_LINUX_CMD_LINE
               (chars "MD_LINUX_CMD_LINE") errors ;;
   errors <- DumpRawStream minidump MD_LINUX_ENVIRON
               (chars "MD_LINUX_ENVIRON") errors ;;
   errors <- DumpRawStream minidump MD_LINUX_LSB_RELEASE
               (chars "MD_LINUX_LSB_RELEASE") errors ;;
   errors <- DumpRawStream minidump MD_LINUX_PROC_STATUS
               (chars "MD_LINUX_PROC_STATUS") errors ;;
   errors <- DumpRawStream minidump MD_LINUX_CPU_INFO
               (chars "MD_LINUX_CPU_INFO") errors ;;
   errors <- DumpRawStream minidump MD_LINUX_MAPS
               (chars "MD_LINUX_MAPS") errors ;;
   ret errors)%prog.

(** The body of [if (options.modules_debug_info)]. *)
Definition module_summary (minidump : Minidump) : Prog bool :=
  (call (CallGet ModuleList) ;;
   modules <- Minidump_GetModuleList minidump ;;
   match modules with
   | Some modules =>
       let modules_n := module_count modules in
       modules_loop modules modules_n O ;;
       ret true
   | None => ret false
   end)%prog.

(** The body of [if (options.platform_info)]. *)
Definition platform_summary (minidump : Minidump) : Prog bool :=
  (call (CallGet SystemInfo) ;;
   match GetSystemInfo minidump with
   | Some sys_info =>
       let sys_info_raw := system_info sys_info in
       let sys_ver := repeat NUL SYS_VER_SIZE in
       sys_ver <- match sys_info_raw with
                  | Some raw => sprintf sys_ver (format_version raw)
                  | None => ret sys_ver
                  end ;;
       printf (platform_line sys_info sys_ver) ;;
       ret true
   | None => ret false
   end)%prog.

Section Tool.

(** The constructor [Minidump(path, hexdump)]: the container object a path
    stands for. *)
Variable Minidump_new : text -> bool -> Minidump.

(** [google_breakpad::BaseName] of common/path_helper.h. *)
Variable BaseName : text -> text.

Definition PrintMinidumpDump (options : Options) : Prog bool :=
  (let minidump := Minidump_new (minidumpPath options) (hexdump options) in
   call CallRead ;;
   if negb (Minidump_Read minidump) then
     BPLOG ERROR "minidump.Read() failed" ;; ret false
   else if modules_debug_info options then
     module_summary minidump
   else if platform_info options then
     platform_summary minidump
   else
     errors <- full_dump minidump ;;
     ret (errors =? 0))%prog.

(** ** The command line *)

Definition TAB : ascii := "009"%char.

Definition usage_text (program : text) : text :=
  chars "Usage: " ++ c_string program ++ chars " [options...] <minidump>" ++ [LF] ++
  chars "Dump data in a minidump." ++ [LF] ++
  [LF] ++
  chars "Options:" ++ [LF] ++
  chars "  <minidump> should be a minidump." ++ [LF] ++
  chars "  -x:" ++ [TAB] ++ chars " Display memory in a hexdump like format" ++ [LF] ++
  chars "  -M:" ++ [TAB] ++ chars " Display modules and debug information" ++ [LF] ++
  chars "  -P:" ++ [TAB] ++ chars " Display platform information" ++ [LF] ++
  chars "  -h:" ++ [TAB] ++ chars " Usage" ++ [LF].

(** [argv[i]]. *)
Definition arg (argv : list text) (i : nat) : text := nth i argv [].

Definition Usage (argv : list text) (error : bool) : Prog unit :=
  let t := usage_text (BaseName (arg argv 0)) in
  if error then modify (write_stderr t) else modify (write_stdout t).

(** The state [getopt] keeps between calls: [optind] and the rest of the
    option cluster it is in. *)
Record Getopt := {
  optind : nat;
  nextchar : text
}.

Definition Getopt_initial : Getopt := {| optind := 1; nextchar := [] |}.

Definition in_optstring (c : ascii) (optstring : text) : bool :=
  existsb (Ascii.eqb c) optstring.

(** What [getopt] writes on [stderr] for an option that is not in the option
    string. *)
Definition getopt_diagnostic (argv : list text) (c : ascii) : text :=
  c_string (arg argv 0) ++ chars ": invalid option -- '" ++ [c] ++ chars "'" ++ [LF].

(** [getopt] takes the option character [c], [cs] being the rest of the
    cluster. *)
Definition getopt_take (argv : list text) (optstring : text) (st : Getopt)
    (c : ascii) (cs : text) : option ascii * Getopt * text :=
  let st' := match cs with
             | [] => {| optind := S (optind st); nextchar := [] |}
             | _ => {| optind := optind st; nextchar := cs |}
             end in
  if in_optstring c optstring
  then (Some c, st', [])
  else (Some "?"%char, st', getopt_diagnostic argv c).

(** One call of [getopt(argc, argv, optstring)] of the C library, for an
    option string without arguments: the result ([None] for -1), the new
    state and what is written on [stderr]. The scan is the one POSIX
    specifies: it ends at the first argument that is not an option
    cluster, and after ["--"]. The GNU C library goes on to look for
    options behind such an argument; it scans in this way, and writes this
    diagnostic, on a command line whose options all come before the first
    other argument ([options_first] below). What is said of command lines
    is said of those. *)
Definition getopt (argv : list text) (optstring : text) (st : Getopt)
    : option ascii * Getopt * text :=
  match nextchar st with
  | c :: cs => getopt_take argv optstring st c cs
  | [] =>
      match nth_error argv (optind st) with
      | Some (dash :: c :: cs) =>
          if Ascii.eqb dash "-" then
            if Ascii.eqb c "-" && match cs with [] => true | _ => false end
            then (None, {| optind := S (optind st); nextchar := [] |}, [])
            else getopt_take argv optstring st c cs
          else (None, st, [])
      | _ => (None, st, [])
      end
  end.

Definition optstring_xMPh : text := chars "xMPh".

Definition set_hexdump (o : Options) : Options :=
  {| minidumpPath := minidumpPath o; hexdump := true;
     hexdump_width := hexdump_width o;
     modules_debug_info := modules_debug_info o;
     platform_info := platform_info o |}.
Definition set_modules_debug_info (o : Options) : Options :=
  {| minidumpPath := minidumpPath o; hexdump := hexdump o;
     hexdump_width := hexdump_width o;
     modules_debug_info := true;
     platform_info := platform_info o |}.
Definition set_platform_info (o : Options) : Options :=
  {| minidumpPath := minidumpPath o; hexdump := hexdump o;
     hexdump_width := hexdump_width o;
     modules_debug_info := modules_debug_info o;
     platform_info := true |}.
Definition set_minidumpPath (p : text) (o : Options) : Options :=
  {| minidumpPath := p; hexdump := hexdump o;
     hexdump_width := hexdump_width o;
     modules_debug_info := modules_debug_info o;
     platform_info := platform_info o |}.

(** The [switch (ch)] of [SetupOptions]. *)
Definition SetupOptions_switch (argv : list text) (ch : ascii)
    (options : Options) : Prog Options :=
  (if Ascii.eqb ch "x" then ret (set_hexdump options)
   else if Ascii.eqb ch "M" then ret (set_modules_debug_info options)
   else if Ascii.eqb ch "P" then ret (set_platform_info options)
   else if Ascii.eqb ch "h" then Usage argv false ;; exit 0
   else Usage argv true ;; exit 1)%prog.

(** What is left for [getopt] to scan. *)
Definition args_weight (l : list text) : nat :=
  fold_right (fun a n => (S (List.length a) + n)%nat) O l.

Definition getopt_measure (argv : list text) (st : Getopt) : nat :=
  match nextchar st with
  | [] => args_weight (skipn (optind st) argv)
  | _ :: cs => (S (List.length cs) + args_weight (skipn (S (optind st)) argv))%nat
  end.

Lemma skipn_nth_error {A} (l : list A) n a :
  nth_error l n = Some a -> skipn n l = a :: skipn (S n) l.
Proof.
  revert n; induction l as [|x l IH]; intros [|n] H; simpl in *;
    try discriminate.
  - congruence.
  - apply IH in H. rewrite H. destruct l; reflexivity.
Qed.

Lemma getopt_take_measure argv optstring st c cs r st' d :
  getopt_take argv optstring st c cs = (r, st', d) ->
  (getopt_measure argv st'
   <= List.length cs + args_weight (skipn (S (optind st)) argv))%nat.
Proof.
  unfold getopt_take, getopt_measure.
  destruct (in_optstring c optstring); intros H; inversion H; subst; clear H;
    destruct cs; cbn [nextchar optind List.length]; lia.
Qed.

Lemma getopt_measure_decreases argv optstring st c st' d :
  getopt argv optstring st = (Some c, st', d) ->
  (getopt_measure argv st' < getopt_measure argv st)%nat.
Proof.
  unfold getopt. destruct (nextchar st) as [|c0 cs0] eqn:En.
  - destruct (nth_error argv (optind st)) as [[|dash [|c1 cs1]]|] eqn:Ea;
      try discriminate.
    destruct (Ascii.eqb dash "-"); try discriminate.
    destruct (Ascii.eqb c1 "-" && _); try discriminate.
    intros H. apply getopt_take_measure in H.
    unfold getopt_measure at 2. rewrite En.
    rewrite (skipn_nth_error _ _ _ Ea).
    unfold args_weight in *. cbn [fold_right List.length]. lia.
  - intros H. apply getopt_take_measure in H.
    unfold getopt_measure at 2. rewrite En. lia.
Qed.

(** The [while ((ch = getopt(...)) != -1)] loop. The result is the options
    and the state [getopt] is left in. *)
Equations? SetupOptions_loop (argv : list text) (st : Getopt)
    (options : Options) (w : World) : Outcome (Options * Getopt)
    by wf (getopt_measure argv st) lt :=
  SetupOptions_loop argv st options w
    with inspect (getopt argv optstring_xMPh st) := {
    | exist _ (None, st', _) _ => Returned (options, st') w
    | exist _ (Some ch, st', diagnostic) E
        with SetupOptions_switch argv ch options
               (write_stderr diagnostic w) := {
      | Returned options' w' => SetupOptions_loop argv st' options' w'
      | Exited code w' => Exited code w'
      | Undefined w' => Undefined w'
      }
    }.
Proof. eapply getopt_measure_decreases; eassumption. Qed.

Definition SetupOptions (argv : list text) (options : Options)
    : Prog Options :=
  (let argc := Z.of_nat (List.length argv) in
   r <- SetupOptions_loop argv Getopt_initial options ;;
   let '(options, st) := r in
   if negb (argc - Z.of_nat (optind st) =? 1) then
     modify (write_stderr
               (c_string (arg argv 0) ++ chars ": Missing minidump file" ++ [LF])) ;;
     exit 1
   else
     ret (set_minidumpPath (arg argv (optind st)) options))%prog.

(** [BPLOG_INIT] does nothing unless the embedder of the logging header
    defines it. The result is the status [main] returns. *)
Definition main (argv : list text) : Prog Z :=
  (let options := Options_new in
   options <- SetupOptions argv options ;;
   ok <- PrintMinidumpDump options ;;
   ret (if (ok : bool) then 0 else 1))%prog.

End Tool.


Definition final_world {A} (o : Outcome A) : World :=
  match o with
  | Returned _ w => w
  | Exited _ w => w
  | Undefined w => w
  end.

(** * The vocabulary of the properties *)

(** ** The rendering of a buffer *)

(** What the loop of [DumpRawStream] is to print of a buffer: every byte
    as it is, except that a NUL becomes the terminator marker. *)
Fixpoint render (b : text) : text :=
  match b with
  | [] => []
  | c :: b' =>
      if is_nul c then terminator_marker ++ render b' else c :: render b'
  end.

(** The pieces of a text between the occurrences of [sep]. *)
Fixpoint split_on (sep : ascii) (t : text) : list text :=
  match t with
  | [] => [[]]
  | c :: t' =>
      if Ascii.eqb c sep then [] :: split_on sep t'
      else match split_on sep t' with
           | [] => [[c]]
           | piece :: pieces => (c :: piece) :: pieces
           end
  end.

Definition free_of (sep : ascii) (t : text) : bool :=
  forallb (fun c => negb (Ascii.eqb c sep)) t.

(** ** Worlds and traces *)

(** Two worlds that differ at most in what was written, logged and
    called since the first. *)
Record extends (w w' : World) (out err : text) (lg : list (Severity * text))
    (cs : list Call) : Prop := {
  ext_stdout : stdout w' = stdout w ++ out;
  ext_stderr : stderr w' = stderr w ++ err;
  ext_log : log w' = log w ++ lg;
  ext_calls : calls w' = calls w ++ cs
}.

Definition is_memchr_call (c : Call) : bool :=
  match c with CallMemchr _ _ => true | _ => false end.

(** The calls made since [w]. *)
Definition new_calls (w w' : World) : list Call :=
  skipn (List.length (calls w)) (calls w').

Definition failed_read (c : Call) : bool :=
  match c with CallReadBytes _ false => true | _ => false end.

(** The calls of the thirteen steps: the retrievals and look-ups. *)
Definition step_call (c : Call) : bool :=
  match c with
  | CallPrint | CallGet _ | CallSeekToStreamType _ => true
  | _ => false
  end.

Definition steps (w : World) : list Call := filter step_call (calls w).

Definition retrieves_system_info (c : Call) : bool :=
  match c with CallGet SystemInfo => true | _ => false end.

(** ** The steps of the full dump *)

Definition missing {A} (r : option A) : Z :=
  match r with Some _ => 0 | None => 1 end.

(** What a step does to the world: the record is printed, or its absence
    is logged. *)
Definition printed_or_logged {A} (s : Severity) (r : option A)
    (f : A -> text) (msg : string) (w : World) : World :=
  match r with
  | None => write_log s (chars msg) w
  | Some x => write_stdout (f x) w
  end.

Definition printed_if_present {A} (r : option A) (f : A -> text)
    (w : World) : World :=
  match r with
  | Some x => write_stdout (f x) w
  | None => w
  end.

(** The read of a located stream fails. *)
Definition read_fails (md : Minidump) (ty : MDStreamType) : bool :=
  match SeekToStreamType md ty with
  | Some l =>
      negb (to_uint32 l =? 0) &&
      match ReadBytes md ty (to_uint32 l) with
      | None => true
      | Some _ => false
      end
  | None => false
  end.

Definition raw_failure (md : Minidump) (ty : MDStreamType) : Z :=
  if read_fails md ty then 1 else 0.

(** The world [DumpRawStream] leaves. *)
Definition DumpRawStream_world (md : Minidump) (ty : MDStreamType)
    (name : text) (w : World) : World :=
  final_world (DumpRawStream md ty name 0 w).

(** The world the full dump leaves, step by step. *)
Definition full_dump_world (md : Minidump) (w : World) : World :=
  let w := write_stdout (Minidump_Print md) (record_call CallPrint w) in
  let w := printed_or_logged ERROR (GetThreadList md) Print_text
             "minidump.GetThreadList() failed"
             (record_call (CallGet ThreadList) w) in
  let w := printed_if_present (GetThreadNameList md) Print_text
             (record_call (CallGet ThreadNameList) w) in
  let w := store_max_modules UINT32_MAX w in
  let w := printed_or_logged ERROR (GetModuleList md UINT32_MAX)
             ModuleList_Print
             "minidump.GetModuleList() failed"
             (record_call (CallGet ModuleList) w) in
  let w := printed_or_logged ERROR (GetMemoryList md) Print_text
             "minidump.GetMemoryList() failed"
             (record_call (CallGet MemoryList) w) in
  let w := printed_or_logged INFO (GetException md) Print_text
             "minidump.GetException() failed"
             (record_call (CallGet Exception) w) in
  let w := printed_or_logged INFO (GetAssertion md) Print_text
             "minidump.GetAssertion() failed"
             (record_call (CallGet Assertion) w) in
  let w := printed_or_logged ERROR (GetSystemInfo md) SystemInfo_Print
             "minidump.GetSystemInfo() failed"
             (record_call (CallGet SystemInfo) w) in
  let w := printed_or_logged ERROR (GetMiscInfo md) Print_text
             "minidump.GetMiscInfo() failed"
             (record_call (CallGet MiscInfo) w) in
  let w := printed_or_logged INFO (GetBreakpadInfo md) Print_text
             "minidump.GetBreakpadInfo() failed"
             (record_call (CallGet BreakpadInfo) w) in
  let w := printed_or_logged ERROR (GetMemoryInfoList md) Print_text
             "minidump.GetMemoryInfoList() failed"
             (record_call (CallGet MemoryInfoList) w) in
  let w := printed_if_present (GetCrashpadInfo md) Print_text
             (record_call (CallGet CrashpadInfo) w) in
  let w := DumpRawStream_world md MD_LINUX_CMD_LINE
             (chars "MD_LINUX_CMD_LINE") w in
  let w := DumpRawStream_world md MD_LINUX_ENVIRON
             (chars "MD_LINUX_ENVIRON") w in
  let w := DumpRawStream_world md MD_LINUX_LSB_RELEASE
             (chars "MD_LINUX_LSB_RELEASE") w in
  let w := DumpRawStream_world md MD_LINUX_PROC_STATUS
             (chars "MD_LINUX_PROC_STATUS") w in
  let w := DumpRawStream_world md MD_LINUX_CPU_INFO
             (chars "MD_LINUX_CPU_INFO") w in
  DumpRawStream_world md MD_LINUX_MAPS (chars "MD_LINUX_MAPS") w.

(** The required records that are absent. *)
Definition required_missing (md : Minidump) : Z :=
  missing (GetThreadList md) + missing (GetModuleList md UINT32_MAX) +
  missing (GetMemoryList md) + missing (GetSystemInfo md) +
  missing (GetMiscInfo md) + missing (GetMemoryInfoList md).

(** The raw streams of the catalogue whose read fails. *)
Definition raw_failures (md : Minidump) : Z :=
  raw_failure md MD_LINUX_CMD_LINE + raw_failure md MD_LINUX_ENVIRON +
  raw_failure md MD_LINUX_LSB_RELEASE + raw_failure md MD_LINUX_PROC_STATUS +
  raw_failure md MD_LINUX_CPU_INFO + raw_failure md MD_LINUX_MAPS.

Definition full_dump_steps : list Call :=
  [CallPrint; CallGet ThreadList; CallGet ThreadNameList; CallGet ModuleList;
   CallGet MemoryList; CallGet Exception; CallGet Assertion;
   CallGet SystemInfo; CallGet MiscInfo; CallGet BreakpadInfo;
   CallGet MemoryInfoList; CallGet CrashpadInfo;
   CallSeekToStreamType MD_LINUX_CMD_LINE;
   CallSeekToStreamType MD_LINUX_ENVIRON;
   CallSeekToStreamType MD_LINUX_LSB_RELEASE;
   CallSeekToStreamType MD_LINUX_PROC_STATUS;
   CallSeekToStreamType MD_LINUX_CPU_INFO;
   CallSeekToStreamType MD_LINUX_MAPS].

(** ** The modules of a list *)

(** The modules the list gives at the indices [i], ..., [i + todo - 1]. *)
Definition modules_from (modules : MinidumpModuleList) (todo i : nat)
    : list MinidumpModule :=
  flat_map (fun j => match GetModuleAtIndex modules j with
                     | Some module => [module]
                     | None => []
                     end)
           (seq i todo).

(** The modules of a list, in the order of their indices. *)
Definition modules_in (modules : MinidumpModuleList) : list MinidumpModule :=
  modules_from modules (module_count modules) O.

(** ** Decimal numbers *)

Definition is_digit (c : ascii) : bool :=
  (48 <=? nat_of_ascii c)%nat && (nat_of_ascii c <=? 57)%nat.

(** The number a decimal text stands for. *)
Definition decimal_value (t : text) : Z :=
  fold_left (fun acc c => 10 * acc + (Z.of_nat (nat_of_ascii c) - 48)) t 0.

(** ** Flags on the command line *)

(** The options that select something: [-x], [-M] and [-P]. *)
Definition is_flag (c : ascii) : bool :=
  Ascii.eqb c "x" || Ascii.eqb c "M" || Ascii.eqb c "P".

Definition apply_flag (c : ascii) (o : Options) : Options :=
  if Ascii.eqb c "x" then set_hexdump o
  else if Ascii.eqb c "M" then set_modules_debug_info o
  else if Ascii.eqb c "P" then set_platform_info o
  else o.

Definition apply_flags (cs : text) (o : Options) : Options :=
  fold_left (fun o c => apply_flag c o) cs o.

(** An argument that is a dash and one or more of these options. *)
Definition is_flag_cluster (a : text) : bool :=
  match a with
  | dash :: c :: cs => Ascii.eqb dash "-" && forallb is_flag (c :: cs)
  | _ => false
  end.

Definition apply_clusters (flags : list text) (o : Options) : Options :=
  fold_left (fun o a => apply_flags (tl a) o) flags o.

(** ** The modes *)

Inductive Mode := ModuleSummary | PlatformSummary | FullDump.

(** The mode the flags select: the module summary flag is looked at
    first. *)
Definition active_mode (o : Options) : Mode :=
  if modules_debug_info o then ModuleSummary
  else if platform_info o then PlatformSummary
  else FullDump.

Definition run_mode (m : Mode) (md : Minidump) : Prog bool :=
  match m with
  | ModuleSummary => module_summary md
  | PlatformSummary => platform_summary md
  | FullDump => (errors <- full_dump md ;; ret (errors =? 0))%prog
  end.

Definition clear_platform_info (o : Options) : Options :=
  {| minidumpPath := minidumpPath o; hexdump := hexdump o;
     hexdump_width := hexdump_width o;
     modules_debug_info := modules_debug_info o;
     platform_info := false |}.

(** ** Containers and command lines to try *)

(** A buffer of 2147483649 bytes: a NUL and 2147483648 times the letter
    a; and a container with a command line stream that holds it. *)
Definition huge_tail : text := repeat "a"%char (Z.to_nat 2147483648).
Definition huge_buffer : text := NUL :: huge_tail.

Definition huge_stream_minidump : Minidump :=
  {| Minidump_Read := true; Minidump_Print := [];
     GetThreadList := None; GetThreadNameList := None;
     GetModuleList := fun _ => None; GetMemoryList := None; GetException := None;
     GetAssertion := None; GetSystemInfo := None; GetMiscInfo := None;
     GetBreakpadInfo := None; GetMemoryInfoList := None;
     GetCrashpadInfo := None;
     SeekToStreamType :=
       fun t => match t with
                | MD_LINUX_CMD_LINE => Some 2147483649
                | _ => None
                end;
     ReadBytes := fun _ _ => Some huge_buffer |}.

(** The largest version there is, and a container with it. *)
Definition max_version : MDRawSystemInfo :=
  {| major_version := 4294967295; minor_version := 4294967295;
     build_number := 4294967295 |}.

Definition max_version_minidump : Minidump :=
  {| Minidump_Read := true; Minidump_Print := [];
     GetThreadList := None; GetThreadNameList := None;
     GetModuleList := fun _ => None; GetMemoryList := None; GetException := None;
     GetAssertion := None;
     GetSystemInfo :=
       Some {| system_info := Some max_version; GetOS := chars "Linux";
               GetCPU := chars "amd64"; SystemInfo_Print := [] |};
     GetMiscInfo := None; GetBreakpadInfo := None;
     GetMemoryInfoList := None; GetCrashpadInfo := None;
     SeekToStreamType := fun _ => None;
     ReadBytes := fun _ _ => None |}.

(** The command line [minidump_dump -M -P crash.dmp]. *)
Definition both_flags_argv : list text :=
  map chars ["minidump_dump"; "-M"; "-P"; "crash.dmp"]%string.

Definition module_flag_argv : list text :=
  map chars ["minidump_dump"; "-M"; "crash.dmp"]%string.

Definition both_flags_options : Options :=
  {| minidumpPath := chars "crash.dmp"; hexdump := false;
     hexdump_width := 16; modules_debug_info := true;
     platform_info := true |}.

Definition sample_modules : MinidumpModuleList :=
  {| module_count := 2;
     GetModuleAtIndex :=
       fun i =>
         match i with
         | O => Some {| code_file := chars "/usr/bin/app";
                        code_identifier := chars "5f3c";
                        debug_file := chars "app";
                        debug_identifier := chars "A1B2C3D40" |}
         | S O => Some {| code_file := chars "/lib/libc.so.6";
                          code_identifier := chars "77aa";
                          debug_file := chars "libc.so.6";
                          debug_identifier := chars "0F0E0D0C0" |}
         | _ => None
         end;
     ModuleList_Print := chars "MinidumpModuleList" ++ [LF] |}.

Definition sample_system_info : MinidumpSystemInfo :=
  {| system_info :=
       Some {| major_version := 5; minor_version := 15;
               build_number := 0 |};
     GetOS := chars "linux"; GetCPU := chars "amd64";
     SystemInfo_Print := chars "MDRawSystemInfo" ++ [LF] |}.

(** All required records, no optional one; an empty command line stream
    and an environment stream of two entries. *)
Definition sample_minidump : Minidump :=
  {| Minidump_Read := true;
     Minidump_Print := chars "MDRawHeader" ++ [LF];
     GetThreadList := Some {| Print_text := chars "MinidumpThreadList" ++ [LF] |};
     GetThreadNameList := None;
     GetModuleList :=
       fun ceiling => if 2 <=? ceiling then Some sample_modules else None;
     GetMemoryList := Some {| Print_text := chars "MinidumpMemoryList" ++ [LF] |};
     GetException := None;
     GetAssertion := None;
     GetSystemInfo := Some sample_system_info;
     GetMiscInfo := Some {| Print_text := chars "MDRawMiscInfo" ++ [LF] |};
     GetBreakpadInfo := None;
     GetMemoryInfoList :=
       Some {| Print_text := chars "MinidumpMemoryInfoList" ++ [LF] |};
     GetCrashpadInfo := None;
     SeekToStreamType :=
       fun t => match t with
                | MD_LINUX_CMD_LINE => Some 0
                | MD_LINUX_ENVIRON => Some 8
                | _ => None
                end;
     ReadBytes :=
       fun t _ => match t with
                  | MD_LINUX_ENVIRON =>
                      Some (chars "A=1" ++ [NUL] ++ chars "B=2" ++ [NUL])
                  | _ => None
                  end |}.

(** The same with a status stream of 40 bytes that cannot be read. *)
Definition unreadable_status_minidump : Minidump :=
  {| Minidump_Read := true;
     Minidump_Print := Minidump_Print sample_minidump;
     GetThreadList := GetThreadList sample_minidump;
     GetThreadNameList := None;
     GetModuleList := GetModuleList sample_minidump;
     GetMemoryList := GetMemoryList sample_minidump;
     GetException := None;
     GetAssertion := None;
     GetSystemInfo := GetSystemInfo sample_minidump;
     GetMiscInfo := GetMiscInfo sample_minidump;
     GetBreakpadInfo := None;
     GetMemoryInfoList := GetMemoryInfoList sample_minidump;
     GetCrashpadInfo := None;
     SeekToStreamType :=
       fun t => match t with
                | MD_LINUX_PROC_STATUS => Some 40
                | _ => None
                end;
     ReadBytes := fun _ _ => None |}.

(** ** Raw streams, further *)

(** The bytes of a buffer after its last NUL: the span the loop prints
    last. *)
Definition last_span (b : text) : text := rev (c_string (rev b)).

(** A container whose command line stream holds [b], and no other
    stream. *)
Definition stream_minidump (b : text) : Minidump :=
  {| Minidump_Read := true; Minidump_Print := [];
     GetThreadList := None; GetThreadNameList := None;
     GetModuleList := fun _ => None; GetMemoryList := None;
     GetException := None; GetAssertion := None; GetSystemInfo := None;
     GetMiscInfo := None; GetBreakpadInfo := None;
     GetMemoryInfoList := None; GetCrashpadInfo := None;
     SeekToStreamType :=
       fun t => match t with
                | MD_LINUX_CMD_LINE => Some (Z.of_nat (List.length b))
                | _ => None
                end;
     ReadBytes :=
       fun t _ => match t with
                  | MD_LINUX_CMD_LINE => Some b
                  | _ => None
                  end |}.

(** ** The version text and the room in [sys_ver] *)

(** The smallest number [%u] writes with ten digits. *)
Definition TEN_DIGITS : Z := 1000000000.

(** The three version fields, as [%u] takes them. *)
Definition version_fields (raw : MDRawSystemInfo) : list Z :=
  [to_uint32 (major_version raw); to_uint32 (minor_version raw);
   to_uint32 (build_number raw)].

Definition all_ten_digits (raw : MDRawSystemInfo) : bool :=
  forallb (fun n => TEN_DIGITS <=? n) (version_fields raw).

(** The version field of the platform line. *)
Definition version_text (sys_info : MinidumpSystemInfo) : text :=
  match system_info sys_info with
  | Some raw => format_version raw
  | None => []
  end.

(** A record whose version does not fill [sys_ver]. *)
Definition version_fits (sys_info : MinidumpSystemInfo) : bool :=
  match system_info sys_info with
  | Some raw => negb (all_ten_digits raw)
  | None => true
  end.

(** ** What the full dump prints and logs *)

(** What a step prints of a record. *)
Definition shown {A} (r : option A) (f : A -> text) : text :=
  match r with
  | Some x => f x
  | None => []
  end.

(** What a step logs of a record. *)
Definition logged {A} (s : Severity) (r : option A) (msg : string)
    : list (Severity * text) :=
  match r with
  | Some _ => []
  | None => [(s, chars msg)]
  end.

(** What [DumpRawStream] prints of a stream. *)
Definition raw_output (md : Minidump) (ty : MDStreamType) (name : text)
    : text :=
  match SeekToStreamType md ty with
  | None => []
  | Some l =>
      stream_header name ++
      if to_uint32 l =? 0 then [LF]
      else match ReadBytes md ty (to_uint32 l) with
           | None => []
           | Some data =>
               render (vector_after_read (to_uint32 l) data) ++ [LF; LF]
           end
  end.

Definition raw_logged (md : Minidump) (ty : MDStreamType)
    : list (Severity * text) :=
  if read_fails md ty then [(ERROR, chars "minidump.ReadBytes failed")]
  else [].

Definition full_dump_output (md : Minidump) : text :=
  Minidump_Print md ++
  shown (GetThreadList md) Print_text ++
  shown (GetThreadNameList md) Print_text ++
  shown (GetModuleList md UINT32_MAX) ModuleList_Print ++
  shown (GetMemoryList md) Print_text ++
  shown (GetException md) Print_text ++
  shown (GetAssertion md) Print_text ++
  shown (GetSystemInfo md) SystemInfo_Print ++
  shown (GetMiscInfo md) Print_text ++
  shown (GetBreakpadInfo md) Print_text ++
  shown (GetMemoryInfoList md) Print_text ++
  shown (GetCrashpadInfo md) Print_text ++
  raw_output md MD_LINUX_CMD_LINE (chars "MD_LINUX_CMD_LINE") ++
  raw_output md MD_LINUX_ENVIRON (chars "MD_LINUX_ENVIRON") ++
  raw_output md MD_LINUX_LSB_RELEASE (chars "MD_LINUX_LSB_RELEASE") ++
  raw_output md MD_LINUX_PROC_STATUS (chars "MD_LINUX_PROC_STATUS") ++
  raw_output md MD_LINUX_CPU_INFO (chars "MD_LINUX_CPU_INFO") ++
  raw_output md MD_LINUX_MAPS (chars "MD_LINUX_MAPS").

Definition full_dump_log (md : Minidump) : list (Severity * text) :=
  logged ERROR (GetThreadList md) "minidump.GetThreadList() failed" ++
  logged ERROR (GetModuleList md UINT32_MAX)
    "minidump.GetModuleList() failed" ++
  logged ERROR (GetMemoryList md) "minidump.GetMemoryList() failed" ++
  logged INFO (GetException md) "minidump.GetException() failed" ++
  logged INFO (GetAssertion md) "minidump.GetAssertion() failed" ++
  logged ERROR (GetSystemInfo md) "minidump.GetSystemInfo() failed" ++
  logged ERROR (GetMiscInfo md) "minidump.GetMiscInfo() failed" ++
  logged INFO (GetBreakpadInfo md) "minidump.GetBreakpadInfo() failed" ++
  logged ERROR (GetMemoryInfoList md)
    "minidump.GetMemoryInfoList() failed" ++
  raw_logged md MD_LINUX_CMD_LINE ++ raw_logged md MD_LINUX_ENVIRON ++
  raw_logged md MD_LINUX_LSB_RELEASE ++ raw_logged md MD_LINUX_PROC_STATUS ++
  raw_logged md MD_LINUX_CPU_INFO ++ raw_logged md MD_LINUX_MAPS.

Definition is_error (entry : Severity * text) : bool :=
  match fst entry with
  | ERROR => true
  | INFO => false
  end.

(** The number of entries of severity ERROR. *)
Definition error_entries (lg : list (Severity * text)) : Z :=
  Z.of_nat (List.length (filter is_error lg)).

(** ** The fields of a module line *)

Definition module_fields (module : MinidumpModule) : list text :=
  [c_string (code_file module); c_string (code_identifier module);
   c_string (debug_file module); c_string (debug_identifier module)].

(** No field has a semicolon or a line break in it. *)
Definition plain_fields (module : MinidumpModule) : bool :=
  forallb (free_of ";") (module_fields module) &&
  forallb (free_of LF) (module_fields module).

(** ** The getter of a summary mode *)

Definition summary_calls (m : Mode) : list Call :=
  match m with
  | ModuleSummary => [CallRead; CallGet ModuleList]
  | PlatformSummary => [CallRead; CallGet SystemInfo]
  | FullDump => []
  end.

(** A container that cannot be read. *)
Definition unreadable_minidump : Minidump :=
  {| Minidump_Read := false; Minidump_Print := [];
     GetThreadList := None; GetThreadNameList := None;
     GetModuleList := fun _ => None; GetMemoryList := None;
     GetException := None; GetAssertion := None; GetSystemInfo := None;
     GetMiscInfo := None; GetBreakpadInfo := None;
     GetMemoryInfoList := None; GetCrashpadInfo := None;
     SeekToStreamType := fun _ => None;
     ReadBytes := fun _ _ => None |}.

(** ** Arguments that are not options *)

(** An argument [getopt] does not take for a cluster of options: one that
    does not begin with a dash, or the dash alone. *)
Definition is_operand (a : text) : bool :=
  match a with
  | dash :: _ :: _ => negb (Ascii.eqb dash "-")
  | _ => true
  end.

(** The option character [c] occurs in one of the clusters. *)
Definition mentions (c : ascii) (flags : list text) : bool :=
  existsb (fun a => existsb (Ascii.eqb c) (tl a)) flags.

(** The options a run of flag clusters and a file give. *)
Definition options_of (flags : list text) (file : text) : Options :=
  {| minidumpPath := file; hexdump := mentions "x" flags;
     hexdump_width := 16; modules_debug_info := mentions "M" flags;
     platform_info := mentions "P" flags |}.

Definition missing_file_message (argv0 : text) : text :=
  c_string argv0 ++ chars ": Missing minidump file" ++ [LF].

(** ** The usage text and the option string *)

Fixpoint starts_with (p t : text) : bool :=
  match p, t with
  | [], _ => true
  | _ :: _, [] => false
  | a :: p', b :: t' => Ascii.eqb a b && starts_with p' t'
  end.

(** The usage text has a line for the option [c]: one that begins with
    two blanks, a dash, [c] and a colon. *)
Definition documents (program : text) (c : ascii) : bool :=
  existsb (starts_with (chars "  -" ++ [c] ++ chars ":"))
          (split_on LF (usage_text program)).

(** ** The scans of a buffer *)

(** The call is a [memchr] over [remaining] bytes from [offset] that stays
    inside a buffer of [len] bytes, and ends at its end. *)
Definition scan_in_buffer (len : Z) (c : Call) : bool :=
  match c with
  | CallMemchr offset remaining =>
      (0 <=? offset) && (0 <? remaining) && (offset + remaining =? len)
  | _ => false
  end.

(** ** A container with more modules than the ceiling at the start *)

(** As [sample_minidump], with a module list that is only given under a
    ceiling of 4096 or more. *)
Definition crowded_minidump : Minidump :=
  {| Minidump_Read := true;
     Minidump_Print := Minidump_Print sample_minidump;
     GetThreadList := GetThreadList sample_minidump;
     GetThreadNameList := None;
     GetModuleList :=
       fun ceiling => if 4096 <=? ceiling then Some sample_modules else None;
     GetMemoryList := GetMemoryList sample_minidump;
     GetException := None;
     GetAssertion := None;
     GetSystemInfo := Some sample_system_info;
     GetMiscInfo := GetMiscInfo sample_minidump;
     GetBreakpadInfo := None;
     GetMemoryInfoList := GetMemoryInfoList sample_minidump;
     GetCrashpadInfo := None;
     SeekToStreamType := fun _ => None;
     ReadBytes := fun _ _ => None |}.

(** ** Raw streams and the precision of [printf] *)

(** The raw streams of the catalogue, in its order. *)
Definition catalogue : list MDStreamType :=
  [MD_LINUX_CMD_LINE; MD_LINUX_ENVIRON; MD_LINUX_LSB_RELEASE;
   MD_LINUX_PROC_STATUS; MD_LINUX_CPU_INFO; MD_LINUX_MAPS].

(** The stream, if there, is no longer than [INT_MAX]: every length that
    [DumpRawStream] passes to [printf] for it is one an [int] holds. *)
Definition stream_within_INT_MAX (md : Minidump) (ty : MDStreamType) : bool :=
  match SeekToStreamType md ty with
  | Some l => to_uint32 l <=? INT_MAX
  | None => true
  end.

Definition streams_within_INT_MAX (md : Minidump) : bool :=
  forallb (stream_within_INT_MAX md) catalogue.

(** [DumpRawStream] of the stream makes [printf] read behind the buffer:
    the stream is read, and the bytes after the last NUL of the vector are
    more than [INT_MAX]. *)
Definition reads_behind (md : Minidump) (ty : MDStreamType) : bool :=
  match SeekToStreamType md ty with
  | Some l =>
      negb (to_uint32 l =? 0) &&
      match ReadBytes md ty (to_uint32 l) with
      | Some data =>
          INT_MAX <?
          Z.of_nat (List.length
                      (last_span (vector_after_read (to_uint32 l) data)))
      | None => false
      end
  | None => false
  end.

(** ** Command lines whose options come first *)

Definition is_double_dash (a : text) : bool :=
  match a with
  | [d1; d2] => Ascii.eqb d1 "-" && Ascii.eqb d2 "-"
  | _ => false
  end.

(** The arguments after the program name are option clusters and then
    either nothing, or the double dash and whatever follows it, or
    arguments none of which is an option cluster or the double dash. On
    such a command line a scan that stops at the first argument that is
    no option and a scan that goes on behind it find the same options. *)
Fixpoint options_first (args : list text) : bool :=
  match args with
  | [] => true
  | a :: rest =>
      if is_operand a then forallb is_operand rest
      else if is_double_dash a then true
      else options_first rest
  end.

(** ** A module with a semicolon and a line break in its file name *)

Definition semicolon_modules : MinidumpModuleList :=
  {| module_count := 1;
     GetModuleAtIndex :=
       fun i =>
         match i with
         | O => Some {| code_file :=
                          chars "/opt/my;app" ++ [LF] ++ chars "v2/bin/app";
                        code_identifier := chars "5f3c";
                        debug_file := chars "app";
                        debug_identifier := chars "A1B2C3D40" |}
         | _ => None
         end;
     ModuleList_Print := [] |}.

Definition semicolon_minidump : Minidump :=
  {| Minidump_Read := true; Minidump_Print := [];
     GetThreadList := None; GetThreadNameList := None;
     GetModuleList := fun _ => Some semicolon_modules;
     GetMemoryList := None; GetException := None; GetAssertion := None;
     GetSystemInfo := None; GetMiscInfo := None; GetBreakpadInfo := None;
     GetMemoryInfoList := None; GetCrashpadInfo := None;
     SeekToStreamType := fun _ => None;
     ReadBytes := fun _ _ => None |}.

(** * Properties *)

(** ** Texts *)

Lemma c_string_no_nul s : has_nul s = false -> c_string s = s.
Proof.
  induction s as [|c s IH]; simpl; [reflexivity|].
  destruct (is_nul c); simpl; [discriminate|].
  intros H. now rewrite IH.
Qed.

Lemma has_nul_app p q : has_nul (p ++ q) = has_nul p || has_nul q.
Proof. apply existsb_app. Qed.

Lemma c_string_app_nul p q :
  has_nul p = false -> c_string (p ++ NUL :: q) = p.
Proof.
  induction p as [|c p IH]; simpl; [reflexivity|].
  destruct (is_nul c); simpl; [discriminate|].
  intros H. now rewrite IH.
Qed.

Lemma c_string_has_no_nul s : has_nul (c_string s) = false.
Proof.
  induction s as [|c s IH]; simpl; [reflexivity|].
  destruct (is_nul c) eqn:E; simpl; [reflexivity|]. now rewrite E.
Qed.

Lemma is_nul_true c : is_nul c = true -> c = NUL.
Proof. apply Ascii.eqb_eq. Qed.

Lemma memchr_none s n :
  memchr s NUL n = None -> (List.length s <= n)%nat -> has_nul s = false.
Proof.
  revert n; induction s as [|c s IH]; intros n; [reflexivity|].
  destruct n as [|n]; simpl; [lia|].
  fold (is_nul c). destruct (is_nul c); [discriminate|].
  destruct (memchr s NUL n) eqn:E; [discriminate|].
  intros _ Hn. simpl. apply (IH n); [assumption | lia].
Qed.

Lemma memchr_some s n k :
  memchr s NUL n = Some k ->
  (k < n)%nat /\ s = firstn k s ++ NUL :: skipn (S k) s /\
  has_nul (firstn k s) = false.
Proof.
  revert n k; induction s as [|c s IH]; intros [|n] k; simpl;
    try discriminate.
  fold (is_nul c). destruct (is_nul c) eqn:Ec.
  - intros H; inversion H; subst. apply is_nul_true in Ec. subst c.
    split; [lia | split; reflexivity].
  - destruct (memchr s NUL n) as [k'|] eqn:E; [|discriminate].
    intros H; inversion H; subst. destruct (IH _ _ E) as (Hk & Hs & Hp).
    split; [lia | split].
    + cbn [firstn skipn app]. f_equal. exact Hs.
    + cbn [firstn has_nul existsb]. rewrite Ec. exact Hp.
Qed.

Lemma memchr_no_nul s n : has_nul s = false -> memchr s NUL n = None.
Proof.
  revert n; induction s as [|c s IH]; intros [|n]; simpl; try reflexivity.
  fold (is_nul c). destruct (is_nul c); [discriminate|].
  intros H. now rewrite IH.
Qed.

(** ** The rendering of a raw stream, byte by byte *)

Lemma render_no_nul p : has_nul p = false -> render p = p.
Proof.
  induction p as [|c p IH]; simpl; [reflexivity|].
  destruct (is_nul c); simpl; [discriminate|].
  intros H. now rewrite IH.
Qed.

Lemma render_app p q : render (p ++ q) = render p ++ render q.
Proof.
  induction p as [|c p IH]; cbn [render app]; [reflexivity|].
  destruct (is_nul c); rewrite IH; [apply app_assoc | reflexivity].
Qed.

Lemma render_nul q : render (NUL :: q) = terminator_marker ++ render q.
Proof. reflexivity. Qed.

Lemma render_nuls k q :
  render (repeat NUL k ++ q) =
  List.concat (repeat terminator_marker k) ++ render q.
Proof.
  induction k as [|k IH]; [reflexivity|].
  cbn [repeat app List.concat]. rewrite render_nul, IH. now rewrite app_assoc.
Qed.

(** ** Worlds *)

Lemma extends_refl w : extends w w [] [] [] [].
Proof. split; now rewrite app_nil_r. Qed.

Lemma extends_trans w1 w2 w3 o1 e1 l1 c1 o2 e2 l2 c2 :
  extends w1 w2 o1 e1 l1 c1 -> extends w2 w3 o2 e2 l2 c2 ->
  extends w1 w3 (o1 ++ o2) (e1 ++ e2) (l1 ++ l2) (c1 ++ c2).
Proof.
  intros [A1 A2 A3 A4] [B1 B2 B3 B4].
  split; rewrite app_assoc; congruence.
Qed.

Lemma World_eq w w' :
  stdout w = stdout w' -> stderr w = stderr w' -> log w = log w' ->
  max_modules w = max_modules w' ->
  calls w = calls w' -> overread w = overread w' -> w = w'.
Proof. destruct w, w'; simpl; intros; subst; reflexivity. Qed.

Lemma write_stderr_nil w : write_stderr [] w = w.
Proof. apply World_eq; simpl; try reflexivity. apply app_nil_r. Qed.

(** ** The loop of DumpRawStream *)

Lemma at_offset_length contents off :
  0 <= off <= Z.of_nat (List.length contents) ->
  Z.of_nat (List.length (at_offset contents off)) =
  Z.of_nat (List.length contents) - off.
Proof. intros H. unfold at_offset. rewrite length_skipn. lia. Qed.

Lemma at_offset_next contents off k :
  0 <= off ->
  at_offset contents (off + Z.of_nat k + 1) =
  skipn (S k) (at_offset contents off).
Proof.
  intros H. unfold at_offset. rewrite skipn_skipn. f_equal. lia.
Qed.

Lemma as_int_small u : 0 <= u <= INT_MAX -> as_int u = u.
Proof. unfold as_int. intros H. destruct (Z.leb_spec u INT_MAX); lia. Qed.

Lemma as_int_large u :
  INT_MAX < u < UINT32_MODULUS -> as_int u < 0.
Proof.
  unfold as_int, INT_MAX, UINT32_MODULUS. intros H.
  destruct (Z.leb_spec u 2147483647); lia.
Qed.

Lemma to_uint32_small z : 0 <= z < UINT32_MODULUS -> to_uint32 z = z.
Proof. apply Z.mod_small. Qed.

Lemma to_uint32_range z : 0 <= to_uint32 z < UINT32_MODULUS.
Proof. apply Z.mod_pos_bound. reflexivity. Qed.

(** One [printf("%.*s", ...)] of the rest of the buffer prints that rest up
    to its first NUL; it reads behind the buffer exactly when the rest has
    no NUL and is longer than [INT_MAX]. *)
Lemma print_span_spec s remaining w :
  Z.of_nat (List.length s) = remaining -> remaining < UINT32_MODULUS ->
  print_span (to_uint32 remaining) s w =
  mark_overread (negb (has_nul s) && (INT_MAX <? remaining))
    (write_stdout (c_string s) w).
Proof.
  intros Hlen Hr. unfold print_span.
  rewrite to_uint32_small by lia. unfold printf_prec_s.
  destruct (Z.ltb_spec INT_MAX remaining) as [Hbig|Hsmall].
  - pose proof (as_int_large remaining ltac:(lia)) as Hneg.
    destruct (Z.ltb_spec (as_int remaining) 0); [|lia].
    now rewrite andb_true_r.
  - rewrite as_int_small by lia.
    destruct (Z.ltb_spec remaining 0); [lia|].
    rewrite firstn_all2 by lia.
    replace (Z.of_nat (List.length s) <? remaining) with false
      by (symmetry; apply Z.ltb_ge; lia).
    now rewrite andb_false_r.
Qed.

Lemma render_split s n k :
  memchr s NUL n = Some k ->
  render s = c_string s ++ terminator_marker ++ render (skipn (S k) s).
Proof.
  intros H. destruct (memchr_some _ _ _ H) as (_ & Hs & Hp).
  rewrite Hs at 1 2. rewrite c_string_app_nul by assumption.
  rewrite render_app, render_nul, render_no_nul by assumption.
  reflexivity.
Qed.

Lemma render_last s n :
  memchr s NUL n = None -> (List.length s <= n)%nat ->
  render s = c_string s.
Proof.
  intros H Hn. pose proof (memchr_none _ _ H Hn) as Hs.
  now rewrite render_no_nul, c_string_no_nul.
Qed.

Lemma DumpRawStream_loop_spec contents len off w :
  Z.of_nat (List.length contents) = len -> len < UINT32_MODULUS ->
  0 <= off <= len ->
  exists scans,
    extends w (DumpRawStream_loop contents len off w)
      (render (at_offset contents off)) [] [] scans /\
    forallb is_memchr_call scans = true.
Proof.
  funelim (DumpRawStream_loop contents len off w); intros Hlen Hmax Hoff.
  - exists []. split; [|reflexivity].
    unfold at_offset. rewrite skipn_all2 by lia. apply extends_refl.
  - pose proof (at_offset_length contents current_offset ltac:(lia)) as Hs.
    destruct (memchr_some _ _ _ Heq) as (Hk & _ & _).
    destruct H as (scans & Hext & Hscans); [assumption | assumption | lia |].
    rewrite print_span_spec in * by lia.
    exists (CallMemchr current_offset (len - current_offset) :: scans).
    split; [|exact Hscans].
    rewrite (render_split _ _ _ Heq).
    rewrite at_offset_next in Hext by lia.
    destruct Hext as [A1 A2 A3 A4].
    cbn [stdout stderr log calls write_stdout record_call mark_overread]
      in A1, A2, A3, A4.
    split; rewrite ?A1, ?A2, ?A3, ?A4, <- ?app_assoc; reflexivity.
  - pose proof (at_offset_length contents current_offset ltac:(lia)) as Hs.
    rewrite print_span_spec by lia.
    exists [CallMemchr current_offset (len - current_offset)].
    split; [|reflexivity].
    rewrite (render_last _ _ Heq) by lia.
    split;
      cbn [stdout stderr log calls write_stdout record_call mark_overread];
      rewrite ?app_nil_r; reflexivity.
Qed.

Lemma DumpRawStream_loop_in_bounds contents len off w :
  Z.of_nat (List.length contents) = len -> len <= INT_MAX ->
  0 <= off <= len ->
  overread (DumpRawStream_loop contents len off w) = overread w.
Proof.
  funelim (DumpRawStream_loop contents len off w); intros Hlen Hmax Hoff.
  - reflexivity.
  - pose proof (at_offset_length contents current_offset ltac:(lia)) as Hs.
    destruct (memchr_some _ _ _ Heq) as (Hk & _ & _).
    rewrite H by (assumption || lia).
    unfold INT_MAX, UINT32_MODULUS in *.
    rewrite print_span_spec by (unfold UINT32_MODULUS; lia). simpl.
    replace (INT_MAX <? len - current_offset) with false
      by (symmetry; apply Z.ltb_ge; unfold INT_MAX; lia).
    now rewrite andb_false_r, orb_false_r.
  - pose proof (at_offset_length contents current_offset ltac:(lia)) as Hs.
    unfold INT_MAX, UINT32_MODULUS in *.
    rewrite print_span_spec by (unfold UINT32_MODULUS; lia). simpl.
    replace (INT_MAX <? len - current_offset) with false
      by (symmetry; apply Z.ltb_ge; unfold INT_MAX; lia).
    now rewrite andb_false_r, orb_false_r.
Qed.

(** A rest of the buffer without NUL and longer than [INT_MAX] makes
    [printf] read behind the buffer. *)
Lemma DumpRawStream_loop_reads_behind contents len off w :
  Z.of_nat (List.length contents) = len -> len < UINT32_MODULUS ->
  0 <= off -> INT_MAX < len - off ->
  has_nul (at_offset contents off) = false ->
  overread (DumpRawStream_loop contents len off w) = true.
Proof.
  intros Hlen Hmax Hoff Hbig Hnul.
  pose proof (at_offset_length contents off ltac:(unfold INT_MAX in *; lia)) as Hs.
  rewrite DumpRawStream_loop_equation_1.
  destruct (Z_lt_dec off len) as [Hlt|Hge];
    [|unfold INT_MAX in *; lia].
  cbn. rewrite (memchr_no_nul _ _ Hnul). cbn.
  rewrite print_span_spec by lia. simpl.
  rewrite Hnul. replace (INT_MAX <? len - off) with true
    by (symmetry; apply Z.ltb_lt; lia).
  apply orb_true_r.
Qed.

(** ** DumpRawStream, case by case *)

Lemma vector_after_read_exact len data :
  Z.of_nat (List.length data) = len -> vector_after_read len data = data.
Proof.
  intros H. unfold vector_after_read.
  replace (Z.to_nat len) with (List.length data) by lia.
  rewrite firstn_app, firstn_all, Nat.sub_diag. apply app_nil_r.
Qed.

Lemma vector_after_read_length len data :
  0 <= len -> Z.of_nat (List.length (vector_after_read len data)) = len.
Proof.
  intros H. unfold vector_after_read.
  rewrite length_firstn, length_app, repeat_length. lia.
Qed.

Lemma DumpRawStream_absent md ty name errors w :
  SeekToStreamType md ty = None ->
  DumpRawStream md ty name errors w =
  Returned errors (record_call (CallSeekToStreamType ty) w).
Proof. intros H. unfold DumpRawStream, bind, call, modify. now rewrite H. Qed.

Lemma DumpRawStream_empty md ty name errors w l :
  SeekToStreamType md ty = Some l -> to_uint32 l = 0 ->
  DumpRawStream md ty name errors w =
  Returned errors
    (write_stdout [LF]
       (write_stdout (stream_header name)
          (record_call (CallSeekToStreamType ty) w))).
Proof.
  intros H H0. unfold DumpRawStream, bind, call, printf, modify.
  now rewrite H, H0.
Qed.

Lemma DumpRawStream_read_failure md ty name errors w l :
  SeekToStreamType md ty = Some l -> to_uint32 l <> 0 ->
  ReadBytes md ty (to_uint32 l) = None ->
  DumpRawStream md ty name errors w =
  Returned (errors + 1)
    (write_log ERROR (chars "minidump.ReadBytes failed")
       (record_call (CallReadBytes (to_uint32 l) false)
          (write_stdout (stream_header name)
             (record_call (CallSeekToStreamType ty) w)))).
Proof.
  intros H H0 H1. unfold DumpRawStream, bind, call, printf, BPLOG, modify.
  rewrite H. cbv zeta. apply Z.eqb_neq in H0. now rewrite H0, H1.
Qed.

Lemma DumpRawStream_read md ty name errors w l data :
  SeekToStreamType md ty = Some l -> to_uint32 l <> 0 ->
  ReadBytes md ty (to_uint32 l) = Some data ->
  DumpRawStream md ty name errors w =
  Returned errors
    (write_stdout [LF; LF]
       (DumpRawStream_loop (vector_after_read (to_uint32 l) data)
          (to_uint32 l) 0
          (record_call (CallReadBytes (to_uint32 l) true)
             (write_stdout (stream_header name)
                (record_call (CallSeekToStreamType ty) w))))).
Proof.
  intros H H0 H1. unfold DumpRawStream, bind, call, printf, modify.
  rewrite H. cbv zeta. apply Z.eqb_neq in H0. now rewrite H0, H1.
Qed.

(** A stream that is read gets printed as [render] says, between its
    header and two line breaks; nothing behind the buffer is read when the
    stream is no longer than [INT_MAX]. *)
Lemma DumpRawStream_rendered md ty name errors w l data :
  SeekToStreamType md ty = Some l -> to_uint32 l <> 0 ->
  ReadBytes md ty (to_uint32 l) = Some data ->
  exists w' scans,
    DumpRawStream md ty name errors w = Returned errors w' /\
    extends w w'
      (stream_header name ++
       render (vector_after_read (to_uint32 l) data) ++ [LF; LF])
      [] []
      (CallSeekToStreamType ty :: CallReadBytes (to_uint32 l) true :: scans) /\
    forallb is_memchr_call scans = true /\
    (to_uint32 l <= INT_MAX -> overread w' = overread w).
Proof.
  intros H H0 H1. rewrite (DumpRawStream_read _ _ _ _ _ _ _ H H0 H1).
  pose proof (to_uint32_range l) as Hr.
  pose proof (vector_after_read_length (to_uint32 l) data ltac:(lia)) as Hv.
  set (w1 := record_call _ (write_stdout _ (record_call _ w))).
  destruct (DumpRawStream_loop_spec _ _ 0 w1 Hv ltac:(lia) ltac:(lia))
    as (scans & [A1 A2 A3 A4] & Hscans).
  eexists _, scans. split; [reflexivity|]. split; [|split].
  - unfold at_offset in A1. cbn [Z.to_nat skipn] in A1.
    split;
      cbn [stdout stderr log calls write_stdout record_call mark_overread];
      rewrite ?A1, ?A2, ?A3, ?A4; subst w1;
      cbn [stdout stderr log calls write_stdout record_call mark_overread];
      rewrite <- ?app_assoc; reflexivity.
  - exact Hscans.
  - intros Hmax. cbn [overread write_stdout].
    rewrite (DumpRawStream_loop_in_bounds _ _ 0 w1 Hv Hmax ltac:(lia)).
    reflexivity.
Qed.

Lemma c_string_app_nul_any p q : c_string (p ++ NUL :: q) = c_string p.
Proof.
  induction p as [|c p IH]; cbn [app c_string]; [reflexivity|].
  destruct (is_nul c); [reflexivity | now rewrite IH].
Qed.

Lemma last_span_after_nul p q : last_span (p ++ NUL :: q) = last_span q.
Proof.
  unfold last_span. rewrite rev_app_distr. cbn [rev].
  rewrite <- app_assoc. cbn [app]. now rewrite c_string_app_nul_any.
Qed.

Lemma has_nul_rev s : has_nul (rev s) = has_nul s.
Proof.
  unfold has_nul. induction s as [|c s IH]; [reflexivity|].
  cbn [rev existsb]. rewrite existsb_app, IH. cbn [existsb].
  rewrite orb_false_r. apply orb_comm.
Qed.

Lemma last_span_no_nul s : has_nul s = false -> last_span s = s.
Proof.
  intros H. unfold last_span.
  rewrite c_string_no_nul by now rewrite has_nul_rev.
  apply rev_involutive.
Qed.

Lemma print_span_max_modules r p w :
  max_modules (print_span r p w) = max_modules w.
Proof. unfold print_span. now destruct (printf_prec_s (as_int r) p). Qed.

Lemma DumpRawStream_loop_max_modules contents len off w :
  max_modules (DumpRawStream_loop contents len off w) = max_modules w.
Proof.
  funelim (DumpRawStream_loop contents len off w).
  - reflexivity.
  - rewrite H. cbn [max_modules write_stdout record_call].
    apply print_span_max_modules.
  - cbn [max_modules record_call]. apply print_span_max_modules.
Qed.

(** The loop reads behind the buffer exactly when the bytes after the last
    NUL of what is left are more than [INT_MAX]. *)
Lemma DumpRawStream_loop_overread contents len off w :
  Z.of_nat (List.length contents) = len -> len < UINT32_MODULUS ->
  0 <= off <= len ->
  overread (DumpRawStream_loop contents len off w) =
  overread w ||
  (INT_MAX <? Z.of_nat (List.length (last_span (at_offset contents off)))).
Proof.
  funelim (DumpRawStream_loop contents len off w); intros Hlen Hmax Hoff.
  - unfold at_offset. rewrite skipn_all2 by lia. cbn. now rewrite orb_false_r.
  - pose proof (at_offset_length contents current_offset ltac:(lia)) as Hs.
    destruct (memchr_some _ _ _ Heq) as (Hk & Hsplit & Hp).
    rewrite H by (assumption || lia).
    rewrite print_span_spec by lia.
    cbn [overread write_stdout record_call mark_overread].
    rewrite at_offset_next by lia.
    rewrite Hsplit at 1 3.
    rewrite has_nul_app, last_span_after_nul. cbn [has_nul existsb].
    replace (is_nul NUL) with true by reflexivity.
    rewrite orb_true_r. cbn [negb andb]. now rewrite orb_false_r.
  - pose proof (at_offset_length contents current_offset ltac:(lia)) as Hs.
    pose proof (memchr_none _ _ Heq ltac:(lia)) as Hnul.
    rewrite print_span_spec by lia.
    cbn [overread write_stdout record_call mark_overread].
    rewrite Hnul, (last_span_no_nul _ Hnul). cbn [negb andb].
    do 2 f_equal. lia.
Qed.

Lemma c_string_length s : (List.length (c_string s) <= List.length s)%nat.
Proof.
  induction s as [|c s IH]; [reflexivity|]. cbn [c_string].
  destruct (is_nul c); cbn [List.length]; lia.
Qed.

Lemma last_span_length b : (List.length (last_span b) <= List.length b)%nat.
Proof.
  unfold last_span. rewrite length_rev.
  pose proof (c_string_length (rev b)) as H. now rewrite length_rev in H.
Qed.

(** *** Buffers with one NUL, and runs of NULs *)

Lemma has_nul_nth s :
  has_nul s = true -> exists j, nth_error s j = Some NUL.
Proof.
  induction s as [|c s IH]; simpl; [discriminate|].
  destruct (is_nul c) eqn:E; simpl.
  - intros _. exists O. apply is_nul_true in E. now subst.
  - intros H. destruct (IH H) as [j Hj]. now exists (S j).
Qed.

Lemma has_nul_false_iff s :
  has_nul s = false <-> forall j, nth_error s j <> Some NUL.
Proof.
  split.
  - intros H j Hj. apply nth_error_In in Hj.
    assert (has_nul s = true); [|congruence].
    apply existsb_exists. exists NUL. split; [assumption | reflexivity].
  - intros H. destruct (has_nul s) eqn:E; [|reflexivity].
    destruct (has_nul_nth _ E) as [j Hj]. now apply H in Hj.
Qed.

(** A buffer whose only NUL is at [i] is a NUL-free part, the NUL, and a
    NUL-free part. *)
Lemma one_nul_split (b : text) (i : nat) :
  nth_error b i = Some NUL ->
  (forall j, nth_error b j = Some NUL -> j = i) ->
  b = firstn i b ++ NUL :: skipn (S i) b /\
  has_nul (firstn i b) = false /\ has_nul (skipn (S i) b) = false.
Proof.
  intros Hi Huniq. split; [|split].
  - rewrite <- (skipn_nth_error _ _ _ Hi). symmetry. apply firstn_skipn.
  - apply has_nul_false_iff. intros j Hj.
    assert (j < i)%nat.
    { assert (Hn : nth_error (firstn i b) j <> None) by congruence.
      apply nth_error_Some in Hn. rewrite length_firstn in Hn. lia. }
    rewrite nth_error_firstn in Hj.
    destruct (Nat.ltb_spec j i); [|lia].
    apply Huniq in Hj. lia.
  - apply has_nul_false_iff. intros j Hj.
    rewrite nth_error_skipn in Hj. apply Huniq in Hj. lia.
Qed.

Lemma render_one_nul (b : text) (i : nat) :
  nth_error b i = Some NUL ->
  (forall j, nth_error b j = Some NUL -> j = i) ->
  render b = firstn i b ++ terminator_marker ++ skipn (S i) b.
Proof.
  intros Hi Huniq. destruct (one_nul_split b i Hi Huniq) as (Hb & Hp & Hq).
  rewrite Hb at 1.
  now rewrite render_app, render_nul, !render_no_nul.
Qed.

(** For a buffer of at most [INT_MAX] bytes whose only NUL is at [i], the
    stream is printed as its header, the bytes before the NUL, the
    terminator marker, the bytes after the NUL and two line breaks. *)
Lemma DumpRawStream_one_nul md ty name errors w l (b : text) (i : nat) :
  SeekToStreamType md ty = Some l ->
  ReadBytes md ty (to_uint32 l) = Some b ->
  Z.of_nat (List.length b) = to_uint32 l ->
  to_uint32 l <= INT_MAX ->
  nth_error b i = Some NUL ->
  (forall j, nth_error b j = Some NUL -> j = i) ->
  exists w',
    DumpRawStream md ty name errors w = Returned errors w' /\
    stdout w' =
      stdout w ++ stream_header name ++
      firstn i b ++ terminator_marker ++ skipn (S i) b ++ [LF; LF] /\
    overread w' = overread w.
Proof.
  intros Hseek Hread Hlen Hmax Hi Huniq.
  assert (Hne : to_uint32 l <> 0).
  { destruct b; [destruct i; discriminate | simpl in Hlen; lia]. }
  destruct (DumpRawStream_rendered md ty name errors w l b Hseek Hne Hread)
    as (w' & scans & E & [A1 _ _ _] & _ & Hin).
  exists w'. split; [exact E|]. split; [|auto].
  rewrite A1, (vector_after_read_exact _ _ Hlen).
  rewrite (render_one_nul b i Hi Huniq), <- !app_assoc. reflexivity.
Qed.

(** A run of [k] NULs is printed as [k] terminator markers, one for each
    NUL, with nothing between them. *)
Lemma DumpRawStream_nul_run md ty name errors w l (p q : text) (k : nat) :
  SeekToStreamType md ty = Some l ->
  ReadBytes md ty (to_uint32 l) = Some (p ++ repeat NUL k ++ q) ->
  Z.of_nat (List.length (p ++ repeat NUL k ++ q)) = to_uint32 l ->
  to_uint32 l <> 0 ->
  exists w',
    DumpRawStream md ty name errors w = Returned errors w' /\
    stdout w' =
      stdout w ++ stream_header name ++
      render p ++ List.concat (repeat terminator_marker k) ++ render q ++
      [LF; LF] /\
    (to_uint32 l <= INT_MAX -> overread w' = overread w).
Proof.
  intros Hseek Hread Hlen Hne.
  destruct (DumpRawStream_rendered md ty name errors w l _ Hseek Hne Hread)
    as (w' & scans & E & [A1 _ _ _] & _ & Hin).
  exists w'. split; [exact E|]. split; [|exact Hin].
  rewrite A1, (vector_after_read_exact _ _ Hlen).
  rewrite render_app, render_nuls, <- !app_assoc. reflexivity.
Qed.

Lemma memchr_head t n : (0 < n)%nat -> memchr (NUL :: t) NUL n = Some O.
Proof. destruct n; [lia | reflexivity]. Qed.

Lemma DumpRawStream_loop_step contents len off w :
  off < len ->
  DumpRawStream_loop contents len off w =
  let w1 := record_call (CallMemchr off (len - off))
              (print_span (to_uint32 (len - off)) (at_offset contents off) w) in
  match memchr (at_offset contents off) NUL (Z.to_nat (len - off)) with
  | None => w1
  | Some k =>
      DumpRawStream_loop contents len (off + Z.of_nat k + 1)
        (write_stdout terminator_marker w1)
  end.
Proof.
  intros H. rewrite DumpRawStream_loop_equation_1.
  destruct (Z_lt_dec off len) as [Hlt|Hge]; [|lia]. cbn.
  destruct (memchr (at_offset contents off) NUL (Z.to_nat (len - off)));
    reflexivity.
Qed.

(** A buffer that starts with its only NUL and goes on for more than
    [INT_MAX] bytes: the span after the NUL is printed without a limit. *)
Lemma DumpRawStream_loop_reads_behind_after_nul (t : text) len w :
  Z.of_nat (List.length t) + 1 = len -> len < UINT32_MODULUS ->
  INT_MAX < len - 1 -> has_nul t = false ->
  overread (DumpRawStream_loop (NUL :: t) len 0 w) = true.
Proof.
  intros Hlen Hmax Hbig Hnul.
  rewrite DumpRawStream_loop_step by (unfold INT_MAX in *; lia).
  cbv zeta. replace (at_offset (NUL :: t) 0) with (NUL :: t) by reflexivity.
  rewrite memchr_head by (unfold INT_MAX in *; lia).
  change (0 + Z.of_nat 0 + 1) with 1.
  apply DumpRawStream_loop_reads_behind; try lia.
  - cbn [List.length]. lia.
  - exact Hnul.
Qed.

(** The same for the whole of [DumpRawStream]. *)
Lemma DumpRawStream_reads_behind md ty name errors w l (t : text) :
  SeekToStreamType md ty = Some l ->
  ReadBytes md ty (to_uint32 l) = Some (NUL :: t) ->
  Z.of_nat (List.length t) + 1 = to_uint32 l ->
  INT_MAX < to_uint32 l - 1 -> has_nul t = false ->
  exists w',
    DumpRawStream md ty name errors w = Returned errors w' /\
    overread w' = true.
Proof.
  intros Hseek Hread Hlen Hbig Hnul.
  pose proof (to_uint32_range l) as Hr.
  assert (Hne : to_uint32 l <> 0) by (unfold INT_MAX in *; lia).
  rewrite (DumpRawStream_read _ _ _ _ _ _ _ Hseek Hne Hread).
  eexists. split; [reflexivity|].
  cbn [overread write_stdout].
  rewrite vector_after_read_exact by (cbn [List.length]; lia).
  now apply DumpRawStream_loop_reads_behind_after_nul.
Qed.

Lemma has_nul_repeat c n : is_nul c = false -> has_nul (repeat c n) = false.
Proof.
  intros H. induction n as [|n IH]; [reflexivity|].
  cbn [repeat has_nul existsb]. now rewrite H.
Qed.

(** *** A stream of 2 GiB and one byte *)

Lemma huge_tail_length : Z.of_nat (List.length huge_tail) = 2147483648.
Proof. unfold huge_tail. rewrite repeat_length. apply Z2Nat.id. discriminate. Qed.

Lemma huge_tail_no_nul : has_nul huge_tail = false.
Proof. apply has_nul_repeat. reflexivity. Qed.

Lemma huge_buffer_length : Z.of_nat (List.length huge_buffer) = 2147483649.
Proof.
  unfold huge_buffer. rewrite length_cons. pose proof huge_tail_length. lia.
Qed.

(** C3, at a buffer of 2147483649 bytes whose only NUL is the first byte:
    the second span has 2147483648 bytes, which as the [int] precision of
    [%.*s] is negative, so [printf] prints it as a C string and reads on
    behind the end of the buffer, where the span is to end with the
    buffer. *)
Theorem C3_span_over_INT_MAX_is_read_behind_the_buffer :
  Z.of_nat (List.length huge_buffer) = 2147483649 /\
  has_nul huge_tail = false /\
  exists w',
    DumpRawStream huge_stream_minidump MD_LINUX_CMD_LINE
      (chars "MD_LINUX_CMD_LINE") 0 initial_world = Returned 0 w' /\
    overread w' = true.
Proof.
  split; [exact huge_buffer_length|]. split; [exact huge_tail_no_nul|].
  apply (DumpRawStream_reads_behind huge_stream_minidump MD_LINUX_CMD_LINE
           (chars "MD_LINUX_CMD_LINE") 0 initial_world 2147483649 huge_tail).
  - reflexivity.
  - reflexivity.
  - rewrite huge_tail_length. reflexivity.
  - reflexivity.
  - exact huge_tail_no_nul.
Qed.

(** *** Absent, empty and unreadable streams *)

Lemma new_calls_app w w' cs : calls w' = calls w ++ cs -> new_calls w w' = cs.
Proof.
  intros H. unfold new_calls. rewrite H, skipn_app, skipn_all, Nat.sub_diag.
  reflexivity.
Qed.

Lemma memchr_calls_no_failed_read scans :
  forallb is_memchr_call scans = true -> existsb failed_read scans = false.
Proof.
  induction scans as [|c scans IH]; [reflexivity|].
  cbn [forallb existsb]. intros H. apply andb_prop in H as [Hc Hs].
  rewrite (IH Hs). destruct c; try discriminate. reflexivity.
Qed.

(** C7: a raw stream that is located with length zero gets its header and
    one empty line; the only call is the one that locates it (no read, no
    scan of bytes), and the error count is as before. *)
Theorem C7_zero_length_stream_prints_header_and_blank_line
    md ty name errors w :
  SeekToStreamType md ty = Some 0 ->
  exists w',
    DumpRawStream md ty name errors w = Returned errors w' /\
    stdout w' = stdout w ++ stream_header name ++ [LF] /\
    calls w' = calls w ++ [CallSeekToStreamType ty] /\
    stderr w' = stderr w /\ log w' = log w /\ overread w' = overread w.
Proof.
  intros H. rewrite (DumpRawStream_empty _ _ _ _ _ 0 H eq_refl).
  eexists. split; [reflexivity|].
  cbn [stdout stderr log calls overread write_stdout record_call].
  rewrite <- app_assoc. repeat split; reflexivity.
Qed.

(** C4: [DumpRawStream] always returns. When the stream is absent, nothing
    is printed or logged and the error count is as before. When a
    [ReadBytes] call fails (which is after the stream was located), the
    error count is one more and the error is logged; without a failed
    [ReadBytes] call the count is as before. A located stream of non-zero
    length whose [ReadBytes] fails is such a failed call. *)
Theorem C4_raw_stream_absence_is_silent_read_failure_counts
    md ty name errors w :
  exists errors' w',
    DumpRawStream md ty name errors w = Returned errors' w' /\
    (SeekToStreamType md ty = None ->
       errors' = errors /\ stdout w' = stdout w /\ stderr w' = stderr w /\
       log w' = log w) /\
    (existsb failed_read (new_calls w w') = true ->
       SeekToStreamType md ty <> None /\ errors' = errors + 1 /\
       log w' = log w ++ [(ERROR, chars "minidump.ReadBytes failed")]) /\
    (existsb failed_read (new_calls w w') = false -> errors' = errors) /\
    (forall l, SeekToStreamType md ty = Some l -> to_uint32 l <> 0 ->
       ReadBytes md ty (to_uint32 l) = None ->
       existsb failed_read (new_calls w w') = true).
Proof.
  destruct (SeekToStreamType md ty) as [l|] eqn:Hseek.
  - destruct (Z.eq_dec (to_uint32 l) 0) as [H0|H0].
    + rewrite (DumpRawStream_empty _ _ _ _ _ l Hseek H0).
      eexists _, _. split; [reflexivity|].
      rewrite (new_calls_app _ _ [CallSeekToStreamType ty]) by reflexivity.
      cbn [existsb failed_read orb].
      repeat split; try discriminate; try reflexivity.
      intros l' E. inversion E; subst. contradiction.
    + destruct (ReadBytes md ty (to_uint32 l)) as [data|] eqn:Hread.
      * destruct (DumpRawStream_rendered md ty name errors w l data
                    Hseek H0 Hread)
          as (w' & scans & E & [_ _ _ A4] & Hscans & _).
        exists errors, w'. split; [exact E|].
        rewrite (new_calls_app _ _ _ A4).
        cbn [existsb failed_read orb].
        rewrite (memchr_calls_no_failed_read _ Hscans).
        repeat split; try discriminate; try reflexivity.
        intros l' E'. inversion E'; subst. congruence.
      * rewrite (DumpRawStream_read_failure _ _ _ _ _ l Hseek H0 Hread).
        eexists _, _. split; [reflexivity|].
        rewrite (new_calls_app _ _
                   [CallSeekToStreamType ty;
                    CallReadBytes (to_uint32 l) false])
          by (cbn [calls write_log record_call write_stdout];
              now rewrite <- app_assoc).
        cbn [existsb failed_read orb].
        repeat split; try discriminate; try reflexivity.
  - rewrite (DumpRawStream_absent _ _ _ _ _ Hseek).
    eexists _, _. split; [reflexivity|].
    rewrite (new_calls_app _ _ [CallSeekToStreamType ty]) by reflexivity.
    cbn [existsb failed_read orb].
    repeat split; try discriminate; try reflexivity.
Qed.

(** ** Running a sequence of steps *)

Lemma bind_Returned {A B} (m : Prog A) (k : A -> Prog B) w a w' :
  m w = Returned a w' -> bind m k w = k a w'.
Proof. intros H. unfold bind. now rewrite H. Qed.

(** A step for a record that has to be there. *)
Lemma required_step {A} (r : option A) (f : A -> text) msg errors w :
  (match r with
   | None => BPLOG ERROR msg ;; ret (errors + 1)
   | Some x => printf (f x) ;; ret errors
   end)%prog w =
  Returned (errors + missing r) (printed_or_logged ERROR r f msg w).
Proof. destruct r; cbn; [now rewrite Z.add_0_r | reflexivity]. Qed.

(** A step for a record whose absence is logged for information. *)
Lemma optional_step {A} (r : option A) (f : A -> text) msg w :
  (match r with
   | None => BPLOG INFO msg
   | Some x => printf (f x)
   end) w =
  Returned tt (printed_or_logged INFO r f msg w).
Proof. destruct r; reflexivity. Qed.

(** A step for a record whose absence goes unnoticed. *)
Lemma silent_step {A} (r : option A) (f : A -> text) w :
  (match r with
   | Some x => printf (f x)
   | None => ret tt
   end) w =
  Returned tt (printed_if_present r f w).
Proof. destruct r; reflexivity. Qed.

Lemma call_step c w : call c w = Returned tt (record_call c w).
Proof. reflexivity. Qed.

Lemma printf_step t w : printf t w = Returned tt (write_stdout t w).
Proof. reflexivity. Qed.

Lemma set_max_modules_step n w :
  set_max_modules n w = Returned tt (store_max_modules n w).
Proof. reflexivity. Qed.

Lemma GetModuleList_step md w :
  Minidump_GetModuleList md w =
  Returned (GetModuleList md (max_modules w)) w.
Proof. reflexivity. Qed.

Lemma DumpRawStream_step md ty name errors w :
  DumpRawStream md ty name errors w =
  Returned (errors + raw_failure md ty) (DumpRawStream_world md ty name w).
Proof.
  unfold DumpRawStream_world, raw_failure, read_fails.
  destruct (SeekToStreamType md ty) as [l|] eqn:Hseek.
  - destruct (Z.eq_dec (to_uint32 l) 0) as [H0|H0].
    + rewrite !(DumpRawStream_empty _ _ _ _ _ l Hseek H0), H0.
      cbn. now rewrite Z.add_0_r.
    + replace (to_uint32 l =? 0) with false
        by (symmetry; now apply Z.eqb_neq).
      destruct (ReadBytes md ty (to_uint32 l)) as [data|] eqn:Hread.
      * rewrite !(DumpRawStream_read _ _ _ _ _ l data Hseek H0 Hread).
        cbn. now rewrite Z.add_0_r.
      * rewrite !(DumpRawStream_read_failure _ _ _ _ _ l Hseek H0 Hread).
        reflexivity.
  - rewrite !(DumpRawStream_absent _ _ _ _ _ Hseek). cbn.
    now rewrite Z.add_0_r.
Qed.

Lemma steps_record_call c w :
  steps (record_call c w) = steps w ++ (if step_call c then [c] else []).
Proof.
  unfold steps. cbn [calls record_call]. rewrite filter_app.
  cbn [filter]. now destruct (step_call c).
Qed.

Lemma steps_write_stdout t w : steps (write_stdout t w) = steps w.
Proof. reflexivity. Qed.

Lemma steps_store_max_modules n w : steps (store_max_modules n w) = steps w.
Proof. reflexivity. Qed.

Lemma steps_printed_or_logged {A} s (r : option A) f msg w :
  steps (printed_or_logged s r f msg w) = steps w.
Proof. now destruct r. Qed.

Lemma steps_printed_if_present {A} (r : option A) f w :
  steps (printed_if_present r f w) = steps w.
Proof. now destruct r. Qed.

Lemma memchr_calls_no_step scans :
  forallb is_memchr_call scans = true -> filter step_call scans = [].
Proof.
  induction scans as [|c scans IH]; [reflexivity|].
  cbn [forallb filter]. intros H. apply andb_prop in H as [Hc Hs].
  rewrite (IH Hs). destruct c; try discriminate. reflexivity.
Qed.

Lemma steps_DumpRawStream_world md ty name w :
  steps (DumpRawStream_world md ty name w) =
  steps w ++ [CallSeekToStreamType ty].
Proof.
  unfold DumpRawStream_world.
  destruct (SeekToStreamType md ty) as [l|] eqn:Hseek.
  - destruct (Z.eq_dec (to_uint32 l) 0) as [H0|H0].
    + rewrite (DumpRawStream_empty _ _ _ _ _ l Hseek H0). cbn [final_world].
      now rewrite !steps_write_stdout, steps_record_call.
    + destruct (ReadBytes md ty (to_uint32 l)) as [data|] eqn:Hread.
      * destruct (DumpRawStream_rendered md ty name 0 w l data
                    Hseek H0 Hread)
          as (w' & scans & E & [_ _ _ A4] & Hscans & _).
        rewrite E. cbn [final_world]. unfold steps. rewrite A4.
        rewrite filter_app. cbn [filter step_call].
        now rewrite (memchr_calls_no_step _ Hscans).
      * rewrite (DumpRawStream_read_failure _ _ _ _ _ l Hseek H0 Hread).
        cbn [final_world]. unfold steps.
        cbn [calls write_log record_call write_stdout].
        rewrite !filter_app. cbn [filter step_call].
        now rewrite app_nil_r.
  - rewrite (DumpRawStream_absent _ _ _ _ _ Hseek). cbn [final_world].
    now rewrite steps_record_call.
Qed.

Lemma printed_or_logged_fields {A} s (r : option A) f msg w :
  stdout (printed_or_logged s r f msg w) = stdout w ++ shown r f /\
  log (printed_or_logged s r f msg w) = log w ++ logged s r msg /\
  stderr (printed_or_logged s r f msg w) = stderr w /\
  max_modules (printed_or_logged s r f msg w) = max_modules w /\
  overread (printed_or_logged s r f msg w) = overread w.
Proof.
  destruct r; cbn [printed_or_logged shown logged stdout log stderr
                   max_modules overread write_stdout write_log];
    rewrite ?app_nil_r; repeat split; reflexivity.
Qed.

Lemma printed_if_present_fields {A} (r : option A) f w :
  stdout (printed_if_present r f w) = stdout w ++ shown r f /\
  log (printed_if_present r f w) = log w /\
  stderr (printed_if_present r f w) = stderr w /\
  max_modules (printed_if_present r f w) = max_modules w /\
  overread (printed_if_present r f w) = overread w.
Proof.
  destruct r; cbn [printed_if_present shown stdout log stderr
                   max_modules overread write_stdout];
    rewrite ?app_nil_r; repeat split; reflexivity.
Qed.

Lemma DumpRawStream_world_fields md ty name w :
  stdout (DumpRawStream_world md ty name w) =
    stdout w ++ raw_output md ty name /\
  log (DumpRawStream_world md ty name w) = log w ++ raw_logged md ty /\
  stderr (DumpRawStream_world md ty name w) = stderr w /\
  max_modules (DumpRawStream_world md ty name w) = max_modules w.
Proof.
  unfold DumpRawStream_world, raw_output, raw_logged, read_fails.
  destruct (SeekToStreamType md ty) as [l|] eqn:Hseek.
  - destruct (Z.eq_dec (to_uint32 l) 0) as [H0|H0].
    + rewrite (DumpRawStream_empty _ _ _ _ _ l Hseek H0), H0.
      cbn [final_world stdout log stderr max_modules write_stdout
           record_call Z.eqb negb andb].
      rewrite <- app_assoc, app_nil_r. repeat split; reflexivity.
    + replace (to_uint32 l =? 0) with false
        by (symmetry; now apply Z.eqb_neq).
      cbn [negb andb].
      destruct (ReadBytes md ty (to_uint32 l)) as [data|] eqn:Hread.
      * destruct (DumpRawStream_rendered md ty name 0 w l data
                    Hseek H0 Hread)
          as (w' & scans & E & [A1 A2 A3 A4] & _).
        pose proof E as E'.
        rewrite (DumpRawStream_read _ _ _ _ _ _ _ Hseek H0 Hread) in E'.
        rewrite E. cbn [final_world].
        rewrite A1, A2, A3, !app_nil_r. repeat split; try reflexivity.
        inversion E' as [Hw]. cbn [max_modules write_stdout].
        now rewrite DumpRawStream_loop_max_modules.
      * rewrite (DumpRawStream_read_failure _ _ _ _ _ l Hseek H0 Hread).
        cbn [final_world stdout log stderr max_modules write_stdout
             write_log record_call].
        rewrite app_nil_r. repeat split; reflexivity.
  - rewrite (DumpRawStream_absent _ _ _ _ _ Hseek).
    cbn [final_world stdout log stderr max_modules record_call].
    rewrite !app_nil_r. repeat split; reflexivity.
Qed.

Lemma DumpRawStream_world_overread md ty name w :
  (forall l, SeekToStreamType md ty = Some l -> to_uint32 l <= INT_MAX) ->
  overread (DumpRawStream_world md ty name w) = overread w.
Proof.
  intros Hmax. unfold DumpRawStream_world.
  destruct (SeekToStreamType md ty) as [l|] eqn:Hseek.
  - destruct (Z.eq_dec (to_uint32 l) 0) as [H0|H0].
    + now rewrite (DumpRawStream_empty _ _ _ _ _ l Hseek H0).
    + destruct (ReadBytes md ty (to_uint32 l)) as [data|] eqn:Hread.
      * destruct (DumpRawStream_rendered md ty name 0 w l data
                    Hseek H0 Hread)
          as (w' & scans & E & _ & _ & Hover).
        rewrite E. cbn [final_world]. apply Hover, Hmax. reflexivity.
      * now rewrite (DumpRawStream_read_failure _ _ _ _ _ l Hseek H0 Hread).
  - now rewrite (DumpRawStream_absent _ _ _ _ _ Hseek).
Qed.

(** [DumpRawStream] sets the flag exactly for a stream that
    [reads_behind] tells, and never clears it. *)
Lemma DumpRawStream_world_reads_behind md ty name w :
  overread (DumpRawStream_world md ty name w) =
  overread w || reads_behind md ty.
Proof.
  unfold DumpRawStream_world, reads_behind.
  destruct (SeekToStreamType md ty) as [l|] eqn:Hseek.
  - destruct (Z.eq_dec (to_uint32 l) 0) as [H0|H0].
    + rewrite (DumpRawStream_empty _ _ _ _ _ l Hseek H0), H0.
      cbn [final_world overread write_stdout record_call Z.eqb negb andb].
      now rewrite orb_false_r.
    + replace (to_uint32 l =? 0) with false
        by (symmetry; now apply Z.eqb_neq).
      cbn [negb andb].
      destruct (ReadBytes md ty (to_uint32 l)) as [data|] eqn:Hread.
      * rewrite (DumpRawStream_read _ _ _ _ _ _ _ Hseek H0 Hread).
        cbn [final_world overread write_stdout].
        pose proof (to_uint32_range l) as Hr.
        rewrite (DumpRawStream_loop_overread _ (to_uint32 l) 0);
          [ | apply vector_after_read_length; lia | lia | lia ].
        reflexivity.
      * rewrite (DumpRawStream_read_failure _ _ _ _ _ l Hseek H0 Hread).
        cbn [final_world overread write_log write_stdout record_call].
        now rewrite orb_false_r.
  - rewrite (DumpRawStream_absent _ _ _ _ _ Hseek).
    cbn [final_world overread record_call]. now rewrite orb_false_r.
Qed.

Lemma stream_within_INT_MAX_reads_behind md ty :
  stream_within_INT_MAX md ty = true -> reads_behind md ty = false.
Proof.
  unfold stream_within_INT_MAX, reads_behind.
  destruct (SeekToStreamType md ty) as [l|]; [|reflexivity].
  intros H. apply Z.leb_le in H.
  destruct (negb (to_uint32 l =? 0)); [|reflexivity]. cbn [andb].
  destruct (ReadBytes md ty (to_uint32 l)) as [data|]; [|reflexivity].
  apply Z.ltb_ge.
  pose proof (last_span_length (vector_after_read (to_uint32 l) data)) as Hs.
  pose proof (to_uint32_range l) as Hr.
  pose proof (vector_after_read_length (to_uint32 l) data ltac:(lia)) as Hv.
  lia.
Qed.

Lemma streams_within_INT_MAX_spec md :
  streams_within_INT_MAX md = true ->
  forall ty l, SeekToStreamType md ty = Some l -> to_uint32 l <= INT_MAX.
Proof.
  unfold streams_within_INT_MAX, catalogue. cbn [forallb]. intros H ty l E.
  repeat match type of H with
         | _ && _ = true => apply andb_prop in H as [? H]
         end.
  destruct ty;
    match goal with
    | Hty : stream_within_INT_MAX md ?t = true, E : SeekToStreamType md ?t = _
      |- _ => unfold stream_within_INT_MAX in Hty; rewrite E in Hty;
              now apply Z.leb_le in Hty
    end.
Qed.

(** A stream that starts with its only NUL and goes on for more than
    [INT_MAX] bytes is one that [reads_behind] tells. *)
Lemma reads_behind_after_nul md ty l (t : text) :
  SeekToStreamType md ty = Some l ->
  ReadBytes md ty (to_uint32 l) = Some (NUL :: t) ->
  Z.of_nat (List.length t) + 1 = to_uint32 l ->
  INT_MAX < to_uint32 l - 1 -> has_nul t = false ->
  reads_behind md ty = true.
Proof.
  intros Hseek Hread Hlen Hbig Hnul. unfold reads_behind.
  rewrite Hseek, Hread.
  rewrite vector_after_read_exact by (rewrite length_cons; lia).
  change (NUL :: t) with ([] ++ NUL :: t).
  rewrite (last_span_after_nul [] t), (last_span_no_nul _ Hnul).
  apply andb_true_intro. split.
  - apply negb_true_iff, Z.eqb_neq. unfold INT_MAX in *. lia.
  - apply Z.ltb_lt. lia.
Qed.

(** ** The full dump *)

Ltac run_step :=
  first
    [ rewrite (bind_Returned _ _ _ _ _ (call_step _ _))
    | rewrite (bind_Returned _ _ _ _ _ (printf_step _ _))
    | rewrite (bind_Returned _ _ _ _ _ (set_max_modules_step _ _))
    | rewrite (bind_Returned _ _ _ _ _ (GetModuleList_step _ _))
    | erewrite bind_Returned by apply required_step
    | erewrite bind_Returned by apply optional_step
    | erewrite bind_Returned by apply silent_step
    | erewrite bind_Returned by apply DumpRawStream_step ].

Lemma full_dump_runs md w :
  full_dump md w =
  Returned (required_missing md + raw_failures md) (full_dump_world md w).
Proof.
  unfold full_dump. cbv zeta. repeat run_step.
  cbn [max_modules record_call store_max_modules].
  unfold ret, full_dump_world, required_missing, raw_failures. cbv zeta.
  f_equal. lia.
Qed.

Lemma steps_full_dump_world md w :
  steps (full_dump_world md w) = steps w ++ full_dump_steps.
Proof.
  unfold full_dump_world. cbv zeta.
  repeat first
    [ rewrite steps_DumpRawStream_world
    | rewrite steps_printed_or_logged
    | rewrite steps_printed_if_present
    | rewrite steps_write_stdout
    | rewrite steps_store_max_modules
    | rewrite steps_record_call ].
  cbn [step_call]. rewrite <- !app_assoc. reflexivity.
Qed.

Lemma missing_range {A} (r : option A) : 0 <= missing r <= 1.
Proof. destruct r; simpl; lia. Qed.

Lemma missing_None {A} (r : option A) : r = None -> missing r = 1.
Proof. now intros ->. Qed.

Lemma missing_Some {A} (r : option A) : r <> None -> missing r = 0.
Proof. destruct r; [reflexivity | congruence]. Qed.

Lemma raw_failure_range md ty : 0 <= raw_failure md ty <= 1.
Proof. unfold raw_failure. destruct (read_fails md ty); lia. Qed.

Lemma required_missing_range md : 0 <= required_missing md.
Proof.
  unfold required_missing.
  pose proof (missing_range (GetThreadList md)).
  pose proof (missing_range (GetModuleList md UINT32_MAX)).
  pose proof (missing_range (GetMemoryList md)).
  pose proof (missing_range (GetSystemInfo md)).
  pose proof (missing_range (GetMiscInfo md)).
  pose proof (missing_range (GetMemoryInfoList md)).
  lia.
Qed.

Lemma raw_failures_range md : 0 <= raw_failures md.
Proof.
  unfold raw_failures.
  pose proof (raw_failure_range md MD_LINUX_CMD_LINE).
  pose proof (raw_failure_range md MD_LINUX_ENVIRON).
  pose proof (raw_failure_range md MD_LINUX_LSB_RELEASE).
  pose proof (raw_failure_range md MD_LINUX_PROC_STATUS).
  pose proof (raw_failure_range md MD_LINUX_CPU_INFO).
  pose proof (raw_failure_range md MD_LINUX_MAPS).
  lia.
Qed.

Lemma required_missing_positive md :
  GetThreadList md = None \/ GetModuleList md UINT32_MAX = None \/
  GetMemoryList md = None \/ GetSystemInfo md = None \/
  GetMiscInfo md = None \/ GetMemoryInfoList md = None ->
  1 <= required_missing md.
Proof.
  intros H. unfold required_missing.
  pose proof (missing_range (GetThreadList md)).
  pose proof (missing_range (GetModuleList md UINT32_MAX)).
  pose proof (missing_range (GetMemoryList md)).
  pose proof (missing_range (GetSystemInfo md)).
  pose proof (missing_range (GetMiscInfo md)).
  pose proof (missing_range (GetMemoryInfoList md)).
  destruct H as [H|[H|[H|[H|[H|H]]]]]; apply missing_None in H; lia.
Qed.

Lemma PrintMinidumpDump_full_dump Minidump_new options w :
  modules_debug_info options = false -> platform_info options = false ->
  Minidump_Read (Minidump_new (minidumpPath options) (hexdump options)) = true ->
  PrintMinidumpDump Minidump_new options w =
  (errors <- full_dump
               (Minidump_new (minidumpPath options) (hexdump options)) ;;
   ret (errors =? 0))%prog (record_call CallRead w).
Proof.
  intros HM HP HR. unfold PrintMinidumpDump. cbv zeta.
  rewrite (bind_Returned _ _ _ _ _ (call_step _ _)).
  now rewrite HR, HM, HP.
Qed.

Ltac world_fields field :=
  unfold full_dump_world; cbv zeta;
  repeat first
    [ rewrite (proj1 (DumpRawStream_world_fields _ _ _ _))
    | rewrite (proj1 (proj2 (DumpRawStream_world_fields _ _ _ _)))
    | rewrite (proj1 (proj2 (proj2 (DumpRawStream_world_fields _ _ _ _))))
    | rewrite (proj2 (proj2 (proj2 (DumpRawStream_world_fields _ _ _ _))))
    | rewrite (proj1 (printed_or_logged_fields _ _ _ _ _))
    | rewrite (proj1 (proj2 (printed_or_logged_fields _ _ _ _ _)))
    | rewrite (proj1 (proj2 (proj2 (printed_or_logged_fields _ _ _ _ _))))
    | rewrite (proj1 (proj2 (proj2 (proj2
                 (printed_or_logged_fields _ _ _ _ _)))))
    | rewrite (proj2 (proj2 (proj2 (proj2
                 (printed_or_logged_fields _ _ _ _ _)))))
    | rewrite (proj1 (printed_if_present_fields _ _ _))
    | rewrite (proj1 (proj2 (printed_if_present_fields _ _ _)))
    | rewrite (proj1 (proj2 (proj2 (printed_if_present_fields _ _ _))))
    | rewrite (proj1 (proj2 (proj2 (proj2
                 (printed_if_present_fields _ _ _)))))
    | rewrite (proj2 (proj2 (proj2 (proj2
                 (printed_if_present_fields _ _ _)))))
    | progress cbn [field record_call store_max_modules write_stdout] ].

Lemma full_dump_world_stdout md w :
  stdout (full_dump_world md w) = stdout w ++ full_dump_output md.
Proof.
  world_fields stdout. unfold full_dump_output.
  rewrite <- !app_assoc. reflexivity.
Qed.

Lemma full_dump_world_log md w :
  log (full_dump_world md w) = log w ++ full_dump_log md.
Proof.
  world_fields log. unfold full_dump_log.
  rewrite <- !app_assoc. reflexivity.
Qed.

Lemma full_dump_world_max_modules md w :
  max_modules (full_dump_world md w) = UINT32_MAX.
Proof. world_fields max_modules. reflexivity. Qed.

Lemma full_dump_world_overread md w :
  (forall ty l, SeekToStreamType md ty = Some l -> to_uint32 l <= INT_MAX) ->
  overread (full_dump_world md w) = overread w.
Proof.
  intros Hmax. unfold full_dump_world. cbv zeta.
  rewrite !DumpRawStream_world_overread by apply Hmax.
  world_fields overread. reflexivity.
Qed.

Lemma error_entries_app l1 l2 :
  error_entries (l1 ++ l2) = error_entries l1 + error_entries l2.
Proof.
  unfold error_entries. rewrite filter_app, length_app. lia.
Qed.

Lemma error_entries_logged_ERROR {A} (r : option A) msg :
  error_entries (logged ERROR r msg) = missing r.
Proof. now destruct r. Qed.

Lemma error_entries_logged_INFO {A} (r : option A) msg :
  error_entries (logged INFO r msg) = 0.
Proof. now destruct r. Qed.

Lemma error_entries_raw_logged md ty :
  error_entries (raw_logged md ty) = raw_failure md ty.
Proof.
  unfold raw_logged, raw_failure. now destruct (read_fails md ty).
Qed.

Lemma error_entries_full_dump_log md :
  error_entries (full_dump_log md) = required_missing md + raw_failures md.
Proof.
  unfold full_dump_log.
  rewrite !error_entries_app, !error_entries_logged_ERROR,
    !error_entries_logged_INFO, !error_entries_raw_logged.
  unfold required_missing, raw_failures. lia.
Qed.

Lemma error_entries_zero lg :
  (error_entries lg =? 0) = negb (existsb is_error lg).
Proof.
  induction lg as [|e lg IH]; [reflexivity|].
  unfold error_entries in *. cbn [filter existsb].
  destruct (is_error e); cbn [List.length orb negb]; [|exact IH].
  apply Z.eqb_neq. lia.
Qed.

Lemma required_missing_upper md : required_missing md <= 6.
Proof.
  unfold required_missing.
  pose proof (missing_range (GetThreadList md)).
  pose proof (missing_range (GetModuleList md UINT32_MAX)).
  pose proof (missing_range (GetMemoryList md)).
  pose proof (missing_range (GetSystemInfo md)).
  pose proof (missing_range (GetMiscInfo md)).
  pose proof (missing_range (GetMemoryInfoList md)).
  lia.
Qed.

Lemma raw_failures_upper md : raw_failures md <= 6.
Proof.
  unfold raw_failures.
  pose proof (raw_failure_range md MD_LINUX_CMD_LINE).
  pose proof (raw_failure_range md MD_LINUX_ENVIRON).
  pose proof (raw_failure_range md MD_LINUX_LSB_RELEASE).
  pose proof (raw_failure_range md MD_LINUX_PROC_STATUS).
  pose proof (raw_failure_range md MD_LINUX_CPU_INFO).
  pose proof (raw_failure_range md MD_LINUX_MAPS).
  lia.
Qed.

Lemma PrintMinidumpDump_unreadable Minidump_new options w :
  Minidump_Read (Minidump_new (minidumpPath options) (hexdump options)) =
    false ->
  PrintMinidumpDump Minidump_new options w =
  Returned false
    (write_log ERROR (chars "minidump.Read() failed")
       (record_call CallRead w)).
Proof.
  intros HR. unfold PrintMinidumpDump. cbv zeta.
  rewrite (bind_Returned _ _ _ _ _ (call_step _ _)), HR. reflexivity.
Qed.

Lemma full_dump_world_reads_behind md w :
  overread (full_dump_world md w) =
  overread w || existsb (reads_behind md) catalogue.
Proof.
  unfold full_dump_world. cbv zeta.
  rewrite !DumpRawStream_world_reads_behind.
  world_fields overread.
  unfold catalogue. cbn [existsb]. rewrite orb_false_r, !orb_assoc.
  reflexivity.
Qed.

(** The full dump of a container whose command line stream starts with
    its only NUL and goes on for more than [INT_MAX] bytes. *)
Lemma full_dump_reads_behind Minidump_new options w l (t : text) :
  modules_debug_info options = false -> platform_info options = false ->
  let md := Minidump_new (minidumpPath options) (hexdump options) in
  Minidump_Read md = true ->
  SeekToStreamType md MD_LINUX_CMD_LINE = Some l ->
  ReadBytes md MD_LINUX_CMD_LINE (to_uint32 l) = Some (NUL :: t) ->
  Z.of_nat (List.length t) + 1 = to_uint32 l ->
  INT_MAX < to_uint32 l - 1 -> has_nul t = false ->
  exists ok w',
    PrintMinidumpDump Minidump_new options w = Returned ok w' /\
    overread w' = true.
Proof.
  intros HM HP md HR Hseek Hread Hlen Hbig Hnul.
  rewrite (PrintMinidumpDump_full_dump _ _ _ HM HP HR). fold md.
  rewrite (bind_Returned _ _ _ _ _ (full_dump_runs _ _)).
  eexists _, _. split; [reflexivity|].
  rewrite full_dump_world_reads_behind. unfold catalogue. cbn [existsb].
  rewrite (reads_behind_after_nul md MD_LINUX_CMD_LINE l t)
    by assumption.
  now rewrite orb_true_r.
Qed.

(** C1, at the container whose command line stream is the buffer of C3:
    the full dump comes to the raw stream pass and there makes [printf]
    read behind the end of the buffer, with the first of the six streams.
    From there on the run of the source is not defined, where the claim
    has every container get all thirteen steps and a result that follows
    from the count. *)
Theorem C1_full_dump_reads_behind_the_buffer_of_a_long_stream :
  modules_debug_info Options_new = false /\
  platform_info Options_new = false /\
  Minidump_Read huge_stream_minidump = true /\
  exists ok w',
    PrintMinidumpDump (fun _ _ => huge_stream_minidump) Options_new
      initial_world = Returned ok w' /\
    overread initial_world = false /\
    overread w' = true.
Proof.
  split; [reflexivity|]. split; [reflexivity|]. split; [reflexivity|].
  destruct (full_dump_reads_behind (fun _ _ => huge_stream_minidump)
              Options_new initial_world 2147483649 huge_tail)
    as (ok & w' & E & H).
  - reflexivity.
  - reflexivity.
  - reflexivity.
  - reflexivity.
  - reflexivity.
  - rewrite huge_tail_length. reflexivity.
  - reflexivity.
  - exact huge_tail_no_nul.
  - exists ok, w'. split; [exact E|]. split; [reflexivity | exact H].
Qed.

(** ** The module summary *)

Lemma write_stdout_nil w : write_stdout [] w = w.
Proof. apply World_eq; simpl; try reflexivity. apply app_nil_r. Qed.

Lemma write_stdout_app t u w :
  write_stdout u (write_stdout t w) = write_stdout (t ++ u) w.
Proof. apply World_eq; simpl; try reflexivity. symmetry. apply app_assoc. Qed.

Lemma modules_loop_runs modules todo i w :
  modules_loop modules todo i w =
  Returned tt
    (write_stdout (List.concat (map module_line (modules_from modules todo i)))
       w).
Proof.
  revert i w. induction todo as [|todo IH]; intros i w.
  - cbn. now rewrite write_stdout_nil.
  - cbn [modules_loop]. unfold modules_from. cbn [seq flat_map].
    destruct (GetModuleAtIndex modules i) as [module|].
    + rewrite (bind_Returned _ _ _ _ _ (printf_step _ _)), IH.
      rewrite write_stdout_app. reflexivity.
    + unfold bind, ret. now rewrite IH.
Qed.

Lemma modules_from_all_present modules todo i :
  (forall j, (i <= j < i + todo)%nat -> GetModuleAtIndex modules j <> None) ->
  map Some (modules_from modules todo i) =
  map (GetModuleAtIndex modules) (seq i todo).
Proof.
  revert i. induction todo as [|todo IH]; intros i H; [reflexivity|].
  unfold modules_from. cbn [seq flat_map map].
  destruct (GetModuleAtIndex modules i) as [module|] eqn:E.
  - cbn [app map]. f_equal. apply IH. intros j Hj. apply H. lia.
  - exfalso. apply (H i); [lia | exact E].
Qed.

Lemma split_on_free sep t : free_of sep t = true -> split_on sep t = [t].
Proof.
  induction t as [|c t IH]; [reflexivity|]. cbn [free_of forallb split_on].
  intros H. apply andb_prop in H as [Hc Ht]. apply negb_true_iff in Hc.
  rewrite Hc. fold (free_of sep t) in Ht. now rewrite (IH Ht).
Qed.

Lemma split_on_app sep p q :
  free_of sep p = true ->
  split_on sep (p ++ sep :: q) = p :: split_on sep q.
Proof.
  induction p as [|c p IH]; cbn [free_of forallb split_on app].
  - intros _. now rewrite Ascii.eqb_refl.
  - intros H. apply andb_prop in H as [Hc Hp]. apply negb_true_iff in Hc.
    rewrite Hc. fold (free_of sep p) in Hp. now rewrite (IH Hp).
Qed.

(** A module line is one line, and its pieces between semicolons are the
    four fields, when no field has a semicolon or a line break in it. *)
Lemma module_line_fields module :
  let fields := [c_string (code_file module);
                 c_string (code_identifier module);
                 c_string (debug_file module);
                 c_string (debug_identifier module)] in
  forallb (free_of ";") fields = true ->
  forallb (free_of LF) fields = true ->
  exists line,
    module_line module = line ++ [LF] /\
    free_of LF line = true /\
    split_on ";" line = fields.
Proof.
  intros fields Hsemi Hlf. subst fields. cbn [forallb] in Hsemi, Hlf.
  repeat match goal with
         | H : _ && _ = true |- _ => apply andb_prop in H as [? H]
         end.
  exists (c_string (code_file module) ++ ";"%char ::
          c_string (code_identifier module) ++ ";"%char ::
          c_string (debug_file module) ++ ";"%char ::
          c_string (debug_identifier module)).
  split; [|split].
  - unfold module_line. cbn [chars list_ascii_of_string].
    cbn [app]. repeat (rewrite <- app_assoc; cbn [app]). reflexivity.
  - unfold free_of in *. repeat (rewrite forallb_app; cbn [forallb]).
    repeat match goal with
           | H : forallb _ _ = true |- _ => rewrite H; clear H
           end.
    reflexivity.
  - rewrite !split_on_app by assumption. now rewrite split_on_free.
Qed.

(** Lines that have no line break inside are the pieces of their
    concatenation between line breaks. *)
Lemma split_on_lines (lines : list text) :
  forallb (free_of LF) lines = true ->
  split_on LF (List.concat (map (fun line => line ++ [LF]) lines)) =
  lines ++ [[]].
Proof.
  induction lines as [|line lines IH]; [reflexivity|].
  cbn [forallb map List.concat app]. intros H.
  apply andb_prop in H as [Hl Hls].
  rewrite <- app_assoc. cbn [app].
  now rewrite (split_on_app _ _ _ Hl), (IH Hls).
Qed.

Lemma module_lines_read_back (ms : list MinidumpModule) :
  forallb plain_fields ms = true ->
  exists lines,
    map module_line ms = map (fun line => line ++ [LF]) lines /\
    forallb (free_of LF) lines = true /\
    map (split_on ";") lines = map module_fields ms.
Proof.
  induction ms as [|m ms IH]; intros H.
  - exists []. repeat split; reflexivity.
  - cbn [forallb] in H. apply andb_prop in H as [Hm Hms].
    destruct (IH Hms) as (lines & E1 & E2 & E3).
    unfold plain_fields in Hm. apply andb_prop in Hm as [Hsemi Hlf].
    destruct (module_line_fields m Hsemi Hlf) as (line & L1 & L2 & L3).
    exists (line :: lines). cbn [map forallb].
    rewrite L1, L2, L3, E1, E2, E3. repeat split; reflexivity.
Qed.

Lemma module_fields_length module :
  List.length (module_fields module) = 4%nat.
Proof. reflexivity. Qed.

(** C2, as stated, fails: the one module of this list has a semicolon and
    a line break in its file name, and the module summary prints two
    lines for it, the first of two fields between semicolons. *)
Lemma C2_separators_in_a_field_change_the_counts :
  List.length (modules_in semicolon_modules) = 1%nat /\
  exists w',
    PrintMinidumpDump (fun _ _ => semicolon_minidump)
      (set_modules_debug_info Options_new) initial_world =
      Returned true w' /\
    removelast (split_on LF (stdout w')) =
      [chars "/opt/my;app"; chars "v2/bin/app;5f3c;app;A1B2C3D40"] /\
    map (fun line => List.length (split_on ";" line))
        (removelast (split_on LF (stdout w'))) = [2; 4]%nat.
Proof.
  split; [reflexivity|].
  exists (final_world
            (PrintMinidumpDump (fun _ _ => semicolon_minidump)
               (set_modules_debug_info Options_new) initial_world)).
  split; [|split]; vm_compute; reflexivity.
Qed.

(** C2, amended: in module-summary mode the run fails when there is no
    module list. Otherwise, on a container that was read, it succeeds,
    for an empty list too, and prints the lines of the modules of the
    list, in the order of the list, and nothing for an empty list. When
    no field of a module has a semicolon or a line break in it, these are
    exactly as many lines as the list has modules, each of exactly four
    fields between semicolons: the code file, code identifier, debug file
    and debug identifier of its module; and they are [module_count] lines
    when every index has a module. *)
Theorem C2_module_summary_prints_one_line_of_four_fields_per_module
    Minidump_new options w :
  modules_debug_info options = true ->
  let md := Minidump_new (minidumpPath options) (hexdump options) in
  (GetModuleList md (max_modules w) = None ->
   exists w',
     PrintMinidumpDump Minidump_new options w = Returned false w' /\
     stdout w' = stdout w) /\
  (forall modules,
     Minidump_Read md = true ->
     GetModuleList md (max_modules w) = Some modules ->
     exists w' out,
       PrintMinidumpDump Minidump_new options w = Returned true w' /\
       stdout w' = stdout w ++ out /\
       out = List.concat (map module_line (modules_in modules)) /\
       (module_count modules = O -> out = []) /\
       (forallb plain_fields (modules_in modules) = true ->
        let lines := removelast (split_on LF out) in
        List.length lines = List.length (modules_in modules) /\
        map (split_on ";") lines = map module_fields (modules_in modules) /\
        Forall (fun line => List.length (split_on ";" line) = 4%nat) lines /\
        ((forall j, (j < module_count modules)%nat ->
                    GetModuleAtIndex modules j <> None) ->
         List.length lines = module_count modules))).
Proof.
  intros HM md. split.
  - intros HL. unfold PrintMinidumpDump. cbv zeta. fold md.
    rewrite (bind_Returned _ _ _ _ _ (call_step _ _)).
    destruct (Minidump_Read md).
    + cbn [negb]. rewrite HM. unfold module_summary.
      rewrite (bind_Returned _ _ _ _ _ (call_step _ _)).
      rewrite (bind_Returned _ _ _ _ _ (GetModuleList_step _ _)).
      cbn [max_modules record_call]. rewrite HL.
      eexists. split; reflexivity.
    + cbn [negb]. eexists. split; reflexivity.
  - intros modules HR HL. unfold PrintMinidumpDump. cbv zeta. fold md.
    rewrite (bind_Returned _ _ _ _ _ (call_step _ _)), HR.
    cbn [negb]. rewrite HM. unfold module_summary.
    rewrite (bind_Returned _ _ _ _ _ (call_step _ _)).
    rewrite (bind_Returned _ _ _ _ _ (GetModuleList_step _ _)).
    cbn [max_modules record_call]. rewrite HL. cbv zeta.
    rewrite (bind_Returned _ _ _ _ _ (modules_loop_runs _ _ _ _)).
    eexists _, _. split; [reflexivity|]. split; [reflexivity|].
    fold (modules_in modules). split; [reflexivity|]. split.
    + intros H0. unfold modules_in, modules_from. rewrite H0. reflexivity.
    + intros Hplain.
      destruct (module_lines_read_back _ Hplain) as (lines & E1 & E2 & E3).
      rewrite E1, (split_on_lines _ E2), removelast_last.
      assert (Hlen : List.length lines =
                     List.length (modules_in modules)).
      { pose proof (f_equal (@List.length _) E3) as H.
        now rewrite !length_map in H. }
      split; [exact Hlen|]. split; [exact E3|]. split.
      * apply Forall_forall. intros line Hin.
        apply (in_map (split_on ";")) in Hin. rewrite E3 in Hin.
        apply in_map_iff in Hin as (module & <- & _).
        apply module_fields_length.
      * intros Hall. etransitivity; [exact Hlen|].
        assert (E : map Some (modules_in modules) =
                    map (GetModuleAtIndex modules)
                        (seq 0 (module_count modules))).
        { apply modules_from_all_present. intros j Hj. apply Hall. lia. }
        rewrite <- (length_map Some), E, length_map, length_seq.
        reflexivity.
Qed.

(** ** The platform summary *)

Lemma decimal_step n :
  decimal n = if Z_lt_dec n 10 then [digit n]
              else decimal (n / 10) ++ [digit (n mod 10)].
Proof.
  rewrite decimal_equation_1. destruct (Z_lt_dec n 10); reflexivity.
Qed.

(** A number below [10 ^ k] has at most [k] digits. *)
Lemma decimal_length (k : nat) : forall n,
  (1 <= k)%nat -> n < 10 ^ Z.of_nat k ->
  (1 <= List.length (decimal n) <= k)%nat.
Proof.
  induction k as [|k IH]; intros n Hk Hn; [lia|].
  rewrite decimal_step. destruct (Z_lt_dec n 10) as [Hlt|Hge].
  - cbn [List.length]. lia.
  - rewrite length_app. cbn [List.length].
    destruct k as [|k]; [simpl in Hn; lia|].
    assert (Hd : n / 10 < 10 ^ Z.of_nat (S k)).
    { apply Z.div_lt_upper_bound; [lia|].
      rewrite Nat2Z.inj_succ, Z.pow_succ_r in Hn by lia. lia. }
    specialize (IH (n / 10) ltac:(lia) Hd). lia.
Qed.

Lemma fmt_u_length n : (1 <= List.length (fmt_u n) <= 10)%nat.
Proof.
  unfold fmt_u. apply decimal_length; [lia|].
  pose proof (to_uint32_range n). unfold UINT32_MODULUS in *.
  change (10 ^ Z.of_nat 10) with 10000000000. lia.
Qed.

Lemma digit_spec d :
  0 <= d < 10 ->
  is_digit (digit d) = true /\ Z.of_nat (nat_of_ascii (digit d)) - 48 = d.
Proof.
  intros H. unfold is_digit, digit.
  rewrite nat_ascii_embedding by lia.
  split; [|lia].
  apply andb_true_intro. split; apply Nat.leb_le; lia.
Qed.

(** [decimal] writes digits only, and the digits of its argument. *)
Lemma decimal_spec n :
  0 <= n -> forallb is_digit (decimal n) = true /\ decimal_value (decimal n) = n.
Proof.
  funelim (decimal n); intros Hn.
  - destruct (digit_spec n ltac:(lia)) as [Hd Hv].
    unfold decimal_value. cbn [forallb fold_left]. rewrite Hd, Hv.
    split; [reflexivity | lia].
  - destruct H as [Hds Hval]; [apply Z.div_pos; lia|].
    destruct (digit_spec (n mod 10) (Z.mod_pos_bound n 10 eq_refl))
      as [Hd Hv].
    rewrite forallb_app, Hds. cbn [forallb]. rewrite Hd.
    split; [reflexivity|].
    unfold decimal_value in *. rewrite fold_left_app. cbn [fold_left].
    rewrite Hval, Hv. symmetry. apply Z.div_mod. lia.
Qed.

Lemma fmt_u_spec n :
  forallb is_digit (fmt_u n) = true /\
  decimal_value (fmt_u n) = to_uint32 n.
Proof. apply decimal_spec. apply to_uint32_range. Qed.

Lemma is_digit_not_nul c : is_digit c = true -> is_nul c = false.
Proof.
  unfold is_digit, is_nul. intros H. apply andb_prop in H as [H _].
  apply Nat.leb_le in H. apply Ascii.eqb_neq. intros ->.
  change (nat_of_ascii NUL) with O in H. lia.
Qed.

Lemma digits_no_nul t : forallb is_digit t = true -> has_nul t = false.
Proof.
  unfold has_nul.
  induction t as [|c t IH]; [reflexivity|]. cbn [forallb existsb].
  intros H. apply andb_prop in H as [Hc Ht].
  now rewrite (is_digit_not_nul _ Hc), IH.
Qed.

Lemma format_version_no_nul raw : has_nul (format_version raw) = false.
Proof.
  unfold format_version. rewrite !has_nul_app.
  rewrite !(digits_no_nul _ (proj1 (fmt_u_spec _))). reflexivity.
Qed.

(** The version text has at most 32 bytes: one more than [sys_ver] has
    room for besides the NUL. *)
Lemma format_version_length raw :
  (5 <= List.length (format_version raw) <= 32)%nat.
Proof.
  unfold format_version. rewrite !length_app. cbn [chars list_ascii_of_string List.length].
  pose proof (fmt_u_length (major_version raw)).
  pose proof (fmt_u_length (minor_version raw)).
  pose proof (fmt_u_length (build_number raw)).
  lia.
Qed.

(** [sprintf] into [sys_ver] when the text fits. *)
Lemma sprintf_fits (t : text) w :
  (List.length t < SYS_VER_SIZE)%nat -> has_nul t = false ->
  exists buffer,
    sprintf (repeat NUL SYS_VER_SIZE) t w = Returned buffer w /\
    c_string buffer = t.
Proof.
  intros Hlen Hnul. unfold sprintf. rewrite repeat_length.
  destruct (Z.leb_spec (Z.of_nat (List.length t) + 1) (Z.of_nat SYS_VER_SIZE));
    [|lia].
  eexists. split; [reflexivity|].
  cbn [app]. now apply c_string_app_nul.
Qed.

(** The platform line when there is no raw record, or one whose version
    fits into [sys_ver]: the three fields with semicolons between them,
    the version being the three numbers in decimal with dots between
    them, or empty. *)
Lemma platform_summary_line md sys_info w :
  GetSystemInfo md = Some sys_info ->
  match system_info sys_info with
  | Some raw => (List.length (format_version raw) < SYS_VER_SIZE)%nat
  | None => True
  end ->
  platform_summary md w =
  Returned true
    (write_stdout
       (c_string (GetOS sys_info) ++ chars ";" ++
        match system_info sys_info with
        | Some raw => format_version raw
        | None => []
        end ++ chars ";" ++ c_string (GetCPU sys_info) ++ [LF])
       (record_call (CallGet SystemInfo) w)).
Proof.
  intros HS Hfit. unfold platform_summary.
  rewrite (bind_Returned _ _ _ _ _ (call_step _ _)), HS. cbv zeta.
  destruct (system_info sys_info) as [raw|].
  - destruct (sprintf_fits (format_version raw)
                (record_call (CallGet SystemInfo) w) Hfit
                (format_version_no_nul raw)) as (buffer & E & Hb).
    rewrite (bind_Returned _ _ _ _ _ E).
    rewrite (bind_Returned _ _ _ _ _ (printf_step _ _)).
    unfold platform_line. now rewrite Hb.
  - unfold bind, ret, printf, modify, platform_line. reflexivity.
Qed.

Lemma platform_summary_absent md w :
  GetSystemInfo md = None ->
  platform_summary md w = Returned false (record_call (CallGet SystemInfo) w).
Proof.
  intros HS. unfold platform_summary.
  now rewrite (bind_Returned _ _ _ _ _ (call_step _ _)), HS.
Qed.

(** *** A version of three ten-digit numbers *)

(** C9, at the version 4294967295.4294967295.4294967295: the text has 32
    bytes and needs 33 with its NUL, one more than [sys_ver] has, so the
    [sprintf] stores behind the end of the array. *)
Theorem C9_sprintf_of_three_ten_digit_numbers_needs_33_bytes :
  format_version max_version = chars "4294967295.4294967295.4294967295" /\
  (List.length (format_version max_version) + 1 = 33)%nat /\
  SYS_VER_SIZE = 32%nat /\
  sprintf (repeat NUL SYS_VER_SIZE) (format_version max_version)
    initial_world = Undefined initial_world.
Proof. repeat split; vm_compute; reflexivity. Qed.

(** C5, at a system information record with that version: the platform
    summary does not get to print its line, the [sprintf] before it being
    undefined. *)
Theorem C5_platform_summary_undefined_for_three_ten_digit_numbers :
  PrintMinidumpDump (fun _ _ => max_version_minidump)
    (set_platform_info Options_new) initial_world =
  Undefined
    (record_call (CallGet SystemInfo) (record_call CallRead initial_world)).
Proof. vm_compute. reflexivity. Qed.

(** ** The command line *)

Lemma SetupOptions_loop_step BaseName argv st options w :
  SetupOptions_loop BaseName argv st options w =
  match getopt argv optstring_xMPh st with
  | (None, st', _) => Returned (options, st') w
  | (Some ch, st', diagnostic) =>
      match SetupOptions_switch BaseName argv ch options
              (write_stderr diagnostic w) with
      | Returned options' w' => SetupOptions_loop BaseName argv st' options' w'
      | Exited code w' => Exited code w'
      | Undefined w' => Undefined w'
      end
  end.
Proof.
  rewrite SetupOptions_loop_equation_1. unfold inspect.
  generalize (@eq_refl _ (getopt argv optstring_xMPh st)).
  generalize (getopt argv optstring_xMPh st) at 2 4 5.
  intros [[[ch|] st'] diagnostic] e; cbn; [|reflexivity].
  destruct (SetupOptions_switch BaseName argv ch options
              (write_stderr diagnostic w)); reflexivity.
Qed.

Lemma is_flag_cases c :
  is_flag c = true -> c = "x"%char \/ c = "M"%char \/ c = "P"%char.
Proof.
  unfold is_flag. intros H.
  apply orb_prop in H as [H|H]; [apply orb_prop in H as [H|H]|];
    apply Ascii.eqb_eq in H; auto.
Qed.

Lemma switch_flag BaseName argv c o w :
  is_flag c = true ->
  SetupOptions_switch BaseName argv c o w = Returned (apply_flag c o) w.
Proof.
  intros H. destruct (is_flag_cases c H) as [ -> | [ -> | -> ] ]; reflexivity.
Qed.

Lemma getopt_take_flag argv st c cs :
  is_flag c = true ->
  getopt_take argv optstring_xMPh st c cs =
  (Some c,
   match cs with
   | [] => {| optind := S (optind st); nextchar := [] |}
   | _ => {| optind := optind st; nextchar := cs |}
   end, []).
Proof.
  intros H. destruct (is_flag_cases c H) as [ -> | [ -> | -> ] ]; reflexivity.
Qed.

Section CommandLine.

Variable BaseName : text -> text.
Variable argv : list text.

Lemma loop_flag n c cs o w :
  is_flag c = true ->
  SetupOptions_loop BaseName argv {| optind := n; nextchar := c :: cs |} o w =
  SetupOptions_loop BaseName argv
    match cs with
    | [] => {| optind := S n; nextchar := [] |}
    | _ => {| optind := n; nextchar := cs |}
    end (apply_flag c o) w.
Proof.
  intros H. rewrite SetupOptions_loop_step at 1.
  unfold getopt. cbn [nextchar]. rewrite (getopt_take_flag _ _ _ _ H).
  rewrite write_stderr_nil, (switch_flag _ _ _ _ _ H). reflexivity.
Qed.


(** A cluster of flags, to its end. *)
Lemma loop_flags_all cs : forall n o w,
  forallb is_flag cs = true -> cs <> [] ->
  SetupOptions_loop BaseName argv {| optind := n; nextchar := cs |} o w =
  SetupOptions_loop BaseName argv
    {| optind := S n; nextchar := [] |} (apply_flags cs o) w.
Proof.
  induction cs as [|c cs IH]; intros n o w Hcs Hne; [contradiction|].
  cbn [forallb] in Hcs. apply andb_prop in Hcs as [Hc Hcs].
  rewrite (loop_flag _ _ _ _ _ Hc). destruct cs as [|c' cs].
  - reflexivity.
  - now rewrite IH.
Qed.

(** [getopt] enters the cluster of the argument at [optind], unless the
    argument is ["--"]. *)
Lemma loop_enter_cluster n cluster o w :
  nth_error argv n = Some ("-"%char :: cluster) ->
  cluster <> [] -> cluster <> ["-"%char] ->
  SetupOptions_loop BaseName argv {| optind := n; nextchar := [] |} o w =
  SetupOptions_loop BaseName argv {| optind := n; nextchar := cluster |} o w.
Proof.
  intros Ha Hne Hdd. destruct cluster as [|c cs]; [contradiction|].
  assert (E : (Ascii.eqb c "-" &&
               match cs with [] => true | _ => false end) = false).
  { destruct (Ascii.eqb_spec c "-") as [->|]; [|reflexivity].
    destruct cs; [contradiction | reflexivity]. }
  rewrite SetupOptions_loop_step at 1.
  rewrite (SetupOptions_loop_step _ _ {| optind := n; nextchar := c :: cs |}).
  unfold getopt. cbn [nextchar optind]. rewrite Ha.
  cbn [Ascii.eqb Bool.eqb]. rewrite E.
  unfold getopt_take. cbn [optind]. reflexivity.
Qed.

Lemma flags_not_dash cluster :
  forallb is_flag cluster = true -> cluster <> ["-"%char].
Proof. intros H ->. discriminate. Qed.

Lemma flag_cluster_shape a :
  is_flag_cluster a = true ->
  exists cluster,
    a = "-"%char :: cluster /\ forallb is_flag cluster = true /\
    cluster <> [].
Proof.
  destruct a as [|dash [|c cs]]; try discriminate.
  unfold is_flag_cluster. intros H. apply andb_prop in H as [Hd Hf].
  apply Ascii.eqb_eq in Hd. subst dash. exists (c :: cs).
  split; [reflexivity|]. split; [exact Hf | discriminate].
Qed.

(** A run of flag clusters among the arguments is scanned to its end. *)
Lemma loop_flag_clusters flags : forall n o w,
  (forall i a, nth_error flags i = Some a ->
               nth_error argv (n + i) = Some a) ->
  forallb is_flag_cluster flags = true ->
  SetupOptions_loop BaseName argv {| optind := n; nextchar := [] |} o w =
  SetupOptions_loop BaseName argv
    {| optind := n + List.length flags; nextchar := [] |}
    (apply_clusters flags o) w.
Proof.
  induction flags as [|a flags IH]; intros n o w Hargv Hflags.
  - cbn [List.length apply_clusters fold_left]. now rewrite Nat.add_0_r.
  - cbn [forallb] in Hflags. apply andb_prop in Hflags as [Ha Hflags].
    destruct (flag_cluster_shape a Ha) as (cluster & -> & Hf & Hne).
    pose proof (Hargv O _ eq_refl) as Hn. rewrite Nat.add_0_r in Hn.
    rewrite (loop_enter_cluster _ _ _ _ Hn Hne (flags_not_dash _ Hf)).
    rewrite (loop_flags_all _ _ _ _ Hf Hne).
    rewrite (IH (S n));
      [ | intros i b Hb; specialize (Hargv (S i) b Hb);
          now rewrite Nat.add_succ_r in Hargv
        | exact Hflags ].
    cbn [List.length apply_clusters fold_left tl].
    now rewrite Nat.add_succ_r.
Qed.

(** The scan ends where there is no argument left. *)
Lemma loop_end n o w :
  nth_error argv n = None ->
  SetupOptions_loop BaseName argv {| optind := n; nextchar := [] |} o w =
  Returned (o, {| optind := n; nextchar := [] |}) w.
Proof.
  intros H. rewrite SetupOptions_loop_step. unfold getopt.
  cbn [nextchar optind]. now rewrite H.
Qed.

End CommandLine.


Lemma nth_error_flags (argv0 : text) flags tail i a :
  nth_error flags i = Some a ->
  nth_error (argv0 :: flags ++ tail) (1 + i) = Some a.
Proof.
  intros H. cbn [Nat.add nth_error].
  rewrite nth_error_app1; [exact H|].
  apply nth_error_Some. congruence.
Qed.

Lemma nth_error_after_flags (argv0 : text) flags tail :
  nth_error (argv0 :: flags ++ tail) (1 + List.length flags) =
  nth_error tail 0.
Proof.
  cbn [Nat.add nth_error]. rewrite nth_error_app2 by lia.
  now rewrite Nat.sub_diag.
Qed.

(** The flag clusters before the first other argument are scanned, and
    set their options. *)
Lemma loop_through_flags BaseName argv0 flags tail o w :
  forallb is_flag_cluster flags = true ->
  SetupOptions_loop BaseName (argv0 :: flags ++ tail) Getopt_initial o w =
  SetupOptions_loop BaseName (argv0 :: flags ++ tail)
    {| optind := 1 + List.length flags; nextchar := [] |}
    (apply_clusters flags o) w.
Proof.
  intros H. unfold Getopt_initial.
  apply loop_flag_clusters; [|exact H].
  intros i a Ha. now apply nth_error_flags.
Qed.

(** With flag clusters only, there is no file to dump. *)
Lemma SetupOptions_missing_file BaseName argv0 flags o w :
  forallb is_flag_cluster flags = true ->
  SetupOptions BaseName (argv0 :: flags) o w =
  Exited 1
    (write_stderr (c_string argv0 ++ chars ": Missing minidump file" ++ [LF])
       w).
Proof.
  intros H. unfold SetupOptions. cbv zeta.
  pose proof (loop_through_flags BaseName argv0 flags [] o w H) as E.
  rewrite app_nil_r in E.
  rewrite loop_end in E
    by (apply nth_error_None; cbn [List.length]; lia).
  rewrite (bind_Returned _ _ _ _ _ E). cbn [optind List.length].
  replace (Z.of_nat (S (List.length flags)) -
           Z.of_nat (1 + List.length flags) =? 1) with false
    by (symmetry; apply Z.eqb_neq; lia).
  reflexivity.
Qed.




(** Whenever the scan of the options ends with other than one argument
    left, there is no file to dump. *)
Lemma SetupOptions_not_one_file BaseName argv o w options st w1 :
  SetupOptions_loop BaseName argv Getopt_initial o w =
    Returned (options, st) w1 ->
  Z.of_nat (List.length argv) - Z.of_nat (optind st) <> 1 ->
  SetupOptions BaseName argv o w =
  Exited 1
    (write_stderr
       (c_string (arg argv 0) ++ chars ": Missing minidump file" ++ [LF]) w1).
Proof.
  intros E H. unfold SetupOptions. cbv zeta.
  rewrite (bind_Returned _ _ _ _ _ E). apply Z.eqb_neq in H.
  now rewrite H.
Qed.

Lemma Options_eq (o o' : Options) :
  minidumpPath o = minidumpPath o' -> hexdump o = hexdump o' ->
  hexdump_width o = hexdump_width o' ->
  modules_debug_info o = modules_debug_info o' ->
  platform_info o = platform_info o' -> o = o'.
Proof. destruct o, o'; cbn; intros; subst; reflexivity. Qed.

Lemma apply_flag_fields c o :
  minidumpPath (apply_flag c o) = minidumpPath o /\
  hexdump_width (apply_flag c o) = hexdump_width o /\
  hexdump (apply_flag c o) = hexdump o || Ascii.eqb "x" c /\
  modules_debug_info (apply_flag c o) =
    modules_debug_info o || Ascii.eqb "M" c /\
  platform_info (apply_flag c o) = platform_info o || Ascii.eqb "P" c.
Proof.
  unfold apply_flag. rewrite !(Ascii.eqb_sym _ c).
  destruct (Ascii.eqb_spec c "x") as [->|];
    [cbn; rewrite ?orb_true_r, ?orb_false_r; repeat split; reflexivity|].
  destruct (Ascii.eqb_spec c "M") as [->|];
    [cbn; rewrite ?orb_true_r, ?orb_false_r; repeat split; reflexivity|].
  destruct (Ascii.eqb_spec c "P") as [->|];
    cbn; rewrite ?orb_true_r, ?orb_false_r; repeat split; reflexivity.
Qed.

Lemma apply_flags_fields cs : forall o,
  minidumpPath (apply_flags cs o) = minidumpPath o /\
  hexdump_width (apply_flags cs o) = hexdump_width o /\
  hexdump (apply_flags cs o) = hexdump o || existsb (Ascii.eqb "x") cs /\
  modules_debug_info (apply_flags cs o) =
    modules_debug_info o || existsb (Ascii.eqb "M") cs /\
  platform_info (apply_flags cs o) =
    platform_info o || existsb (Ascii.eqb "P") cs.
Proof.
  induction cs as [|c cs IH]; intros o.
  - cbn. rewrite !orb_false_r. repeat split; reflexivity.
  - unfold apply_flags in *. cbn [fold_left existsb].
    destruct (IH (apply_flag c o)) as (I1 & I2 & I3 & I4 & I5).
    destruct (apply_flag_fields c o) as (F1 & F2 & F3 & F4 & F5).
    rewrite I1, I2, I3, I4, I5, F1, F2, F3, F4, F5, !orb_assoc.
    repeat split; reflexivity.
Qed.

Lemma apply_clusters_fields flags : forall o,
  minidumpPath (apply_clusters flags o) = minidumpPath o /\
  hexdump_width (apply_clusters flags o) = hexdump_width o /\
  hexdump (apply_clusters flags o) = hexdump o || mentions "x" flags /\
  modules_debug_info (apply_clusters flags o) =
    modules_debug_info o || mentions "M" flags /\
  platform_info (apply_clusters flags o) =
    platform_info o || mentions "P" flags.
Proof.
  induction flags as [|a flags IH]; intros o.
  - cbn. rewrite !orb_false_r. repeat split; reflexivity.
  - unfold apply_clusters, mentions in *. cbn [fold_left existsb].
    destruct (IH (apply_flags (tl a) o)) as (I1 & I2 & I3 & I4 & I5).
    destruct (apply_flags_fields (tl a) o) as (F1 & F2 & F3 & F4 & F5).
    rewrite I1, I2, I3, I4, I5, F1, F2, F3, F4, F5, !orb_assoc.
    repeat split; reflexivity.
Qed.

Lemma options_of_flags flags file :
  set_minidumpPath file (apply_clusters flags Options_new) =
  options_of flags file.
Proof.
  destruct (apply_clusters_fields flags Options_new)
    as (_ & F2 & F3 & F4 & F5).
  apply Options_eq;
    cbn [set_minidumpPath options_of minidumpPath hexdump hexdump_width
         modules_debug_info platform_info];
    rewrite ?F2, ?F3, ?F4, ?F5; reflexivity.
Qed.

(** The scan ends at an argument that is not an option cluster, and leaves
    it where it is. *)
Lemma loop_operand BaseName argv n a o w :
  nth_error argv n = Some a -> is_operand a = true ->
  SetupOptions_loop BaseName argv {| optind := n; nextchar := [] |} o w =
  Returned (o, {| optind := n; nextchar := [] |}) w.
Proof.
  intros Ha Hop. rewrite SetupOptions_loop_step. unfold getopt.
  cbn [nextchar optind]. rewrite Ha.
  destruct a as [|dash [|c cs]]; try reflexivity.
  cbn [is_operand] in Hop. apply negb_true_iff in Hop. now rewrite Hop.
Qed.

(** The scan ends at the double dash, and steps over it. *)
Lemma loop_double_dash BaseName argv n o w :
  nth_error argv n = Some (chars "--") ->
  SetupOptions_loop BaseName argv {| optind := n; nextchar := [] |} o w =
  Returned (o, {| optind := S n; nextchar := [] |}) w.
Proof.
  intros Ha. rewrite SetupOptions_loop_step. unfold getopt.
  cbn [nextchar optind]. now rewrite Ha.
Qed.

Lemma arg_after_flags (argv0 : text) flags tail k :
  arg (argv0 :: flags ++ tail) (1 + List.length flags + k) = arg tail k.
Proof.
  unfold arg. cbn [Nat.add nth]. rewrite app_nth2 by lia.
  f_equal. lia.
Qed.

(** Flag clusters and then arguments of which the first is no option
    cluster: the one file is taken, and any other number of them is
    refused. *)
Lemma SetupOptions_operands BaseName argv0 flags files o w :
  forallb is_flag_cluster flags = true ->
  match files with
  | file :: _ => is_operand file = true
  | [] => True
  end ->
  SetupOptions BaseName (argv0 :: flags ++ files) o w =
  match files with
  | [file] => Returned (set_minidumpPath file (apply_clusters flags o)) w
  | _ => Exited 1 (write_stderr (missing_file_message argv0) w)
  end.
Proof.
  intros Hflags Hop.
  destruct files as [|file files].
  - rewrite app_nil_r. now apply SetupOptions_missing_file.
  - pose proof (loop_through_flags BaseName argv0 flags (file :: files) o w
                  Hflags) as E.
    rewrite (loop_operand _ _ _ file) in E;
      [ | now rewrite nth_error_after_flags | exact Hop ].
    destruct files as [|file' files].
    + unfold SetupOptions. cbv zeta.
      rewrite (bind_Returned _ _ _ _ _ E). cbn [optind].
      replace (Z.of_nat (List.length (argv0 :: flags ++ [file])) -
               Z.of_nat (1 + List.length flags) =? 1) with true
        by (symmetry; apply Z.eqb_eq; cbn [List.length];
            rewrite length_app; cbn [List.length]; lia).
      cbn [negb]. unfold ret.
      rewrite <- (Nat.add_0_r (1 + List.length flags)), arg_after_flags.
      reflexivity.
    + apply (SetupOptions_not_one_file _ _ _ _ _ _ _ E).
      cbn [optind List.length]. rewrite length_app. cbn [List.length]. lia.
Qed.

Lemma SetupOptions_double_dash BaseName argv0 flags file o w :
  forallb is_flag_cluster flags = true ->
  SetupOptions BaseName (argv0 :: flags ++ chars "--" :: [file]) o w =
  Returned (set_minidumpPath file (apply_clusters flags o)) w.
Proof.
  intros Hflags.
  pose proof (loop_through_flags BaseName argv0 flags
                (chars "--" :: [file]) o w Hflags) as E.
  rewrite loop_double_dash in E by now rewrite nth_error_after_flags.
  unfold SetupOptions. cbv zeta.
  rewrite (bind_Returned _ _ _ _ _ E). cbn [optind].
  replace (Z.of_nat (List.length (argv0 :: flags ++ chars "--" :: [file])) -
           Z.of_nat (S (1 + List.length flags)) =? 1) with true
    by (symmetry; apply Z.eqb_eq; cbn [List.length];
        rewrite length_app; cbn [List.length]; lia).
  cbn [negb]. unfold ret.
  replace (S (1 + List.length flags)) with (1 + List.length flags + 1)%nat
    by lia.
  rewrite arg_after_flags. reflexivity.
Qed.

(** [PrintMinidumpDump] returns, or is undefined: it does not exit. *)
Lemma sprintf_outcome buffer t w :
  (exists b, sprintf buffer t w = Returned b w) \/
  sprintf buffer t w = Undefined w.
Proof.
  unfold sprintf.
  destruct (Z.of_nat (List.length t) + 1 <=? Z.of_nat (List.length buffer));
    [left; eexists; reflexivity | right; reflexivity].
Qed.

Lemma platform_summary_outcome md w :
  (exists ok w', platform_summary md w = Returned ok w') \/
  (exists w', platform_summary md w = Undefined w').
Proof.
  unfold platform_summary.
  rewrite (bind_Returned _ _ _ _ _ (call_step _ _)).
  destruct (GetSystemInfo md) as [sys_info|];
    [|left; eexists _, _; reflexivity].
  cbv zeta. destruct (system_info sys_info) as [raw|].
  - destruct (sprintf_outcome (repeat NUL SYS_VER_SIZE) (format_version raw)
                (record_call (CallGet SystemInfo) w)) as [[b E]|E].
    + left. rewrite (bind_Returned _ _ _ _ _ E). eexists _, _. reflexivity.
    + right. unfold bind. rewrite E. eexists. reflexivity.
  - left. eexists _, _. reflexivity.
Qed.

Lemma module_summary_outcome md w :
  exists ok w',
    module_summary md w = Returned ok w' /\
    (calls w' = calls w ++ [CallGet ModuleList]).
Proof.
  unfold module_summary.
  rewrite (bind_Returned _ _ _ _ _ (call_step _ _)).
  rewrite (bind_Returned _ _ _ _ _ (GetModuleList_step _ _)).
  destruct (GetModuleList md _) as [modules|].
  - cbv zeta. rewrite (bind_Returned _ _ _ _ _ (modules_loop_runs _ _ _ _)).
    eexists _, _. split; reflexivity.
  - eexists _, _. split; reflexivity.
Qed.

Lemma PrintMinidumpDump_outcome Minidump_new options w :
  (exists ok w', PrintMinidumpDump Minidump_new options w = Returned ok w') \/
  (exists w', PrintMinidumpDump Minidump_new options w = Undefined w').
Proof.
  unfold PrintMinidumpDump. cbv zeta.
  rewrite (bind_Returned _ _ _ _ _ (call_step _ _)).
  destruct (Minidump_Read _); cbn [negb];
    [|left; eexists _, _; reflexivity].
  destruct (modules_debug_info options).
  - destruct (module_summary_outcome
                (Minidump_new (minidumpPath options) (hexdump options))
                (record_call CallRead w)) as (ok & w' & E & _).
    left. eauto.
  - destruct (platform_info options).
    + apply platform_summary_outcome.
    + left. rewrite (bind_Returned _ _ _ _ _ (full_dump_runs _ _)).
      eexists _, _. reflexivity.
Qed.


(** ** The modes *)

Lemma PrintMinidumpDump_mode Minidump_new options w :
  Minidump_Read (Minidump_new (minidumpPath options) (hexdump options)) = true ->
  PrintMinidumpDump Minidump_new options w =
  run_mode (active_mode options)
    (Minidump_new (minidumpPath options) (hexdump options))
    (record_call CallRead w).
Proof.
  intros HR. unfold PrintMinidumpDump, active_mode. cbv zeta.
  rewrite (bind_Returned _ _ _ _ _ (call_step _ _)), HR. cbn [negb].
  destruct (modules_debug_info options); [reflexivity|].
  destruct (platform_info options); reflexivity.
Qed.

(** C6, as stated, fails: the command line with [-M] and [-P] is taken,
    and gives options with both flags set. *)
Lemma C6_both_mode_flags_are_accepted :
  SetupOptions (fun path => path) both_flags_argv Options_new initial_world =
  Returned both_flags_options initial_world /\
  modules_debug_info both_flags_options = true /\
  platform_info both_flags_options = true.
Proof. repeat split; vm_compute; reflexivity. Qed.

(** C6, amended: for the options a command line gives, at most one mode
    is run, and exactly one on a container that can be read: the module
    summary when its flag is set, whatever the platform flag; the
    platform summary when the platform flag alone is set; the full dump
    when neither is. The container is read first, and when it cannot be
    read no mode is run and the result is failure. *)
Theorem C6_one_mode_runs_module_summary_first
    Minidump_new BaseName argv w options w1 :
  SetupOptions BaseName argv Options_new w = Returned options w1 ->
  let md := Minidump_new (minidumpPath options) (hexdump options) in
  let run := PrintMinidumpDump Minidump_new options w1 in
  let w2 := record_call CallRead w1 in
  (Minidump_Read md = false ->
   run = Returned false
           (write_log ERROR (chars "minidump.Read() failed") w2)) /\
  (Minidump_Read md = true ->
   (modules_debug_info options = true -> run = module_summary md w2) /\
   (modules_debug_info options = false -> platform_info options = true ->
    run = platform_summary md w2) /\
   (modules_debug_info options = false -> platform_info options = false ->
    run = bind (full_dump md) (fun errors => ret (errors =? 0)) w2)).
Proof.
  intros _ md run w2. subst run w2. split.
  - intros HR. now apply PrintMinidumpDump_unreadable.
  - intros HR. rewrite (PrintMinidumpDump_mode _ _ _ HR). fold md.
    unfold active_mode.
    split; [|split]; [intros HM | intros HM HP | intros HM HP];
      rewrite HM; try rewrite HP; reflexivity.
Qed.

(** In module-summary mode the platform flag is not looked at. *)
Lemma PrintMinidumpDump_module_mode Minidump_new options w :
  modules_debug_info options = true ->
  PrintMinidumpDump Minidump_new options w =
  PrintMinidumpDump Minidump_new (clear_platform_info options) w.
Proof.
  intros HM. unfold PrintMinidumpDump. cbv zeta.
  cbn [clear_platform_info minidumpPath hexdump modules_debug_info].
  now rewrite HM.
Qed.

Lemma PrintMinidumpDump_module_mode_outcome Minidump_new options w :
  modules_debug_info options = true ->
  let md := Minidump_new (minidumpPath options) (hexdump options) in
  exists ok w',
    PrintMinidumpDump Minidump_new options w = Returned ok w' /\
    existsb retrieves_system_info (new_calls w w') = false /\
    (stdout w' = stdout w \/
     exists modules,
       GetModuleList md (max_modules w) = Some modules /\
       stdout w' =
         stdout w ++ List.concat (map module_line (modules_in modules))).
Proof.
  intros HM md. unfold PrintMinidumpDump. cbv zeta. fold md.
  rewrite (bind_Returned _ _ _ _ _ (call_step _ _)).
  destruct (Minidump_Read md); cbn [negb].
  - rewrite HM. unfold module_summary.
    rewrite (bind_Returned _ _ _ _ _ (call_step _ _)).
    rewrite (bind_Returned _ _ _ _ _ (GetModuleList_step _ _)).
    cbn [max_modules record_call].
    destruct (GetModuleList md (max_modules w)) as [modules|] eqn:HL.
    + cbv zeta.
      rewrite (bind_Returned _ _ _ _ _ (modules_loop_runs _ _ _ _)).
      eexists _, _. split; [reflexivity|]. split.
      * rewrite (new_calls_app _ _ [CallRead; CallGet ModuleList]);
          [reflexivity|].
        cbn [calls write_stdout record_call]. now rewrite <- app_assoc.
      * right. exists modules. split; reflexivity.
    + eexists _, _. split; [reflexivity|]. split.
      * rewrite (new_calls_app _ _ [CallRead; CallGet ModuleList]);
          [reflexivity|].
        cbn [calls write_stdout record_call]. now rewrite <- app_assoc.
      * left. reflexivity.
  - eexists _, _. split; [reflexivity|]. split.
    + rewrite (new_calls_app _ _ [CallRead]); reflexivity.
    + left. reflexivity.
Qed.

(** C10: a command line that sets both mode flags runs as one that sets
    the module summary flag alone (and is otherwise the same): [main]
    ends in the same way, with the same status and the same output; the
    system information is not retrieved, and what is printed is the module
    lines or nothing. *)
Theorem C10_both_flags_run_as_module_summary
    Minidump_new BaseName argv argvM w options w1 :
  SetupOptions BaseName argv Options_new w = Returned options w1 ->
  modules_debug_info options = true ->
  platform_info options = true ->
  SetupOptions BaseName argvM Options_new w =
    Returned (clear_platform_info options) w1 ->
  let md := Minidump_new (minidumpPath options) (hexdump options) in
  main Minidump_new BaseName argv w = main Minidump_new BaseName argvM w /\
  exists (ok : bool) w',
    main Minidump_new BaseName argv w = Returned (if ok then 0 else 1) w' /\
    PrintMinidumpDump Minidump_new (clear_platform_info options) w1 =
      Returned ok w' /\
    existsb retrieves_system_info (new_calls w1 w') = false /\
    (stdout w' = stdout w1 \/
     exists modules,
       GetModuleList md (max_modules w1) = Some modules /\
       stdout w' =
         stdout w1 ++ List.concat (map module_line (modules_in modules))).
Proof.
  intros HS HM HP HSM md.
  destruct (PrintMinidumpDump_module_mode_outcome Minidump_new options w1 HM)
    as (ok & w' & E & Hcalls & Hout).
  assert (Hmain : main Minidump_new BaseName argv w =
                  Returned (if ok then 0 else 1) w').
  { unfold main. cbv zeta. rewrite (bind_Returned _ _ _ _ _ HS).
    now rewrite (bind_Returned _ _ _ _ _ E). }
  assert (E' : PrintMinidumpDump Minidump_new (clear_platform_info options)
                 w1 = Returned ok w').
  { now rewrite <- (PrintMinidumpDump_module_mode _ _ _ HM). }
  split.
  - rewrite Hmain. unfold main. cbv zeta.
    rewrite (bind_Returned _ _ _ _ _ HSM).
    now rewrite (bind_Returned _ _ _ _ _ E').
  - exists ok, w'. split; [exact Hmain|]. split; [exact E'|].
    split; assumption.
Qed.

(** ** Instances *)

Lemma C2_witness :
  modules_debug_info (set_modules_debug_info Options_new) = true /\
  Minidump_Read sample_minidump = true /\
  GetModuleList sample_minidump (max_modules initial_world) =
    Some sample_modules /\
  forallb plain_fields (modules_in sample_modules) = true /\
  exists w',
    PrintMinidumpDump (fun _ _ => sample_minidump)
      (set_modules_debug_info Options_new) initial_world = Returned true w' /\
    stdout w' =
      chars "/usr/bin/app;5f3c;app;A1B2C3D40" ++ [LF] ++
      chars "/lib/libc.so.6;77aa;libc.so.6;0F0E0D0C0" ++ [LF] /\
    List.length (removelast (split_on LF (stdout w'))) = 2%nat.
Proof.
  split; [reflexivity|]. split; [reflexivity|]. split; [reflexivity|].
  split; [reflexivity|].
  destruct (C2_module_summary_prints_one_line_of_four_fields_per_module
              (fun _ _ => sample_minidump)
              (set_modules_debug_info Options_new) initial_world eq_refl)
    as [_ H].
  destruct (H sample_modules eq_refl eq_refl)
    as (w' & out & E & Hout & Hlines & _ & Hplain).
  destruct (Hplain eq_refl) as (Hlen & _).
  exists w'. split; [exact E|].
  assert (Hw : stdout w' = out) by exact Hout.
  rewrite Hw. split; [exact Hlines | exact Hlen].
Defined.

Lemma C4_witness :
  SeekToStreamType unreadable_status_minidump MD_LINUX_PROC_STATUS = Some 40 /\
  ReadBytes unreadable_status_minidump MD_LINUX_PROC_STATUS 40 = None /\
  exists w',
    DumpRawStream unreadable_status_minidump MD_LINUX_PROC_STATUS
      (chars "MD_LINUX_PROC_STATUS") 0 initial_world = Returned 1 w' /\
    log w' = [(ERROR, chars "minidump.ReadBytes failed")].
Proof.
  split; [reflexivity|]. split; [reflexivity|].
  destruct (C4_raw_stream_absence_is_silent_read_failure_counts
              unreadable_status_minidump MD_LINUX_PROC_STATUS
              (chars "MD_LINUX_PROC_STATUS") 0 initial_world)
    as (errors' & w' & E & _ & Hfail & _ & Hread).
  destruct (Hfail (Hread 40 eq_refl ltac:(discriminate) eq_refl))
    as (_ & He & Hlog).
  exists w'. split; [now rewrite E, He | exact Hlog].
Defined.

Lemma C6_witness :
  SetupOptions (fun path => path) both_flags_argv Options_new initial_world =
    Returned both_flags_options initial_world /\
  Minidump_Read sample_minidump = true /\
  modules_debug_info both_flags_options = true /\
  PrintMinidumpDump (fun _ _ => sample_minidump) both_flags_options
    initial_world =
  module_summary sample_minidump (record_call CallRead initial_world).
Proof.
  assert (E : SetupOptions (fun path => path) both_flags_argv Options_new
                initial_world = Returned both_flags_options initial_world)
    by (vm_compute; reflexivity).
  split; [exact E|]. split; [reflexivity|]. split; [reflexivity|].
  exact (proj1 (proj2 (C6_one_mode_runs_module_summary_first
                         (fun _ _ => sample_minidump) (fun path => path)
                         both_flags_argv initial_world both_flags_options
                         initial_world E) eq_refl) eq_refl).
Defined.

Lemma C7_witness :
  SeekToStreamType sample_minidump MD_LINUX_CMD_LINE = Some 0 /\
  exists w',
    DumpRawStream sample_minidump MD_LINUX_CMD_LINE
      (chars "MD_LINUX_CMD_LINE") 0 initial_world = Returned 0 w' /\
    stdout w' = chars "Stream MD_LINUX_CMD_LINE:" ++ [LF; LF] /\
    calls w' = [CallSeekToStreamType MD_LINUX_CMD_LINE].
Proof.
  split; [reflexivity|].
  destruct (C7_zero_length_stream_prints_header_and_blank_line
              sample_minidump MD_LINUX_CMD_LINE (chars "MD_LINUX_CMD_LINE")
              0 initial_world eq_refl)
    as (w' & E & Hout & Hcalls & _).
  exists w'. split; [exact E|]. split; [exact Hout | exact Hcalls].
Defined.


Lemma C10_witness :
  SetupOptions (fun path => path) both_flags_argv Options_new initial_world =
    Returned both_flags_options initial_world /\
  SetupOptions (fun path => path) module_flag_argv Options_new initial_world =
    Returned (clear_platform_info both_flags_options) initial_world /\
  main (fun _ _ => sample_minidump) (fun path => path) both_flags_argv
    initial_world =
  main (fun _ _ => sample_minidump) (fun path => path) module_flag_argv
    initial_world.
Proof.
  assert (E : SetupOptions (fun path => path) both_flags_argv Options_new
                initial_world = Returned both_flags_options initial_world)
    by (vm_compute; reflexivity).
  assert (EM : SetupOptions (fun path => path) module_flag_argv Options_new
                 initial_world =
               Returned (clear_platform_info both_flags_options)
                 initial_world)
    by (vm_compute; reflexivity).
  split; [exact E|]. split; [exact EM|].
  exact (proj1 (C10_both_flags_run_as_module_summary
                  (fun _ _ => sample_minidump) (fun path => path)
                  both_flags_argv module_flag_argv initial_world
                  both_flags_options initial_world E eq_refl eq_refl EM)).
Defined.

(** * Further properties *)

(** ** DumpRawStream: what is printed, and what is read *)

(** X1: a raw stream of at most [INT_MAX] bytes that is read is printed
    byte by byte between its header and two line breaks, every byte as it
    is and in order, except that each NUL is printed as the terminator
    marker; a stream without NUL is so printed as it is. Nothing is
    logged, the error count is as before, and nothing behind the buffer is
    read. *)
Theorem X1_raw_stream_is_printed_byte_by_byte
    md ty name errors w l (data : text) :
  SeekToStreamType md ty = Some l ->
  0 < l <= INT_MAX ->
  ReadBytes md ty l = Some data ->
  Z.of_nat (List.length data) = l ->
  exists w',
    DumpRawStream md ty name errors w = Returned errors w' /\
    stdout w' = stdout w ++ stream_header name ++ render data ++ [LF; LF] /\
    (has_nul data = false ->
     stdout w' = stdout w ++ stream_header name ++ data ++ [LF; LF]) /\
    stderr w' = stderr w /\ log w' = log w /\
    overread w' = overread w.
Proof.
  intros Hseek Hl Hread Hlen.
  assert (E : to_uint32 l = l)
    by (apply to_uint32_small; unfold INT_MAX, UINT32_MODULUS in *; lia).
  destruct (DumpRawStream_rendered md ty name errors w l data Hseek)
    as (w' & scans & Hrun & [A1 A2 A3 _] & _ & Hin);
    [rewrite E; lia | now rewrite E |].
  rewrite E in *. rewrite (vector_after_read_exact _ _ Hlen) in A1.
  exists w'. split; [exact Hrun|]. split; [exact A1|].
  split; [intros Hnul; now rewrite A1, (render_no_nul _ Hnul)|].
  rewrite A2, A3, !app_nil_r. repeat split. apply Hin. lia.
Qed.

(** X2: a NUL in a stream and the three bytes of the terminator marker
    are printed alike, whatever comes before and after: two streams that
    differ in this way give the same output. *)
Theorem X2_nul_and_terminator_marker_print_alike
    md1 md2 ty name errors w l1 l2 (p q : text) :
  SeekToStreamType md1 ty = Some l1 ->
  SeekToStreamType md2 ty = Some l2 ->
  ReadBytes md1 ty l1 = Some (p ++ NUL :: q) ->
  ReadBytes md2 ty l2 = Some (p ++ terminator_marker ++ q) ->
  Z.of_nat (List.length (p ++ NUL :: q)) = l1 ->
  Z.of_nat (List.length (p ++ terminator_marker ++ q)) = l2 ->
  l2 <= INT_MAX ->
  exists w1 w2,
    DumpRawStream md1 ty name errors w = Returned errors w1 /\
    DumpRawStream md2 ty name errors w = Returned errors w2 /\
    stdout w1 = stdout w2.
Proof.
  intros S1 S2 R1 R2 L1 L2 Hmax.
  assert (H12 : l2 = l1 + 2).
  { rewrite <- L1, <- L2. unfold terminator_marker.
    rewrite !length_app. cbn [List.length chars list_ascii_of_string]. lia. }
  assert (Hl1 : 0 < l1).
  { rewrite <- L1, length_app. cbn [List.length]. lia. }
  assert (E1 : to_uint32 l1 = l1)
    by (apply to_uint32_small; unfold INT_MAX, UINT32_MODULUS in *; lia).
  assert (E2 : to_uint32 l2 = l2)
    by (apply to_uint32_small; unfold INT_MAX, UINT32_MODULUS in *; lia).
  destruct (DumpRawStream_rendered md1 ty name errors w l1 (p ++ NUL :: q) S1)
    as (w1 & scans1 & Hrun1 & [A1 _ _ _] & _);
    [rewrite E1; lia | rewrite E1; exact R1 |].
  destruct (DumpRawStream_rendered md2 ty name errors w l2
              (p ++ terminator_marker ++ q) S2)
    as (w2 & scans2 & Hrun2 & [B1 _ _ _] & _);
    [rewrite E2; lia | rewrite E2; exact R2 |].
  exists w1, w2. split; [exact Hrun1|]. split; [exact Hrun2|].
  rewrite A1, B1, E1, E2.
  rewrite (vector_after_read_exact _ _ L1), (vector_after_read_exact _ _ L2).
  rewrite !render_app, render_nul. reflexivity.
Qed.

(** X3: for a raw stream that is read, [printf] is made to read behind the
    buffer exactly when the bytes after the last NUL of the stream (the
    whole stream when it has none) are more than [INT_MAX]. *)
Theorem X3_reads_behind_buffer_iff_last_span_exceeds_INT_MAX
    md ty name errors w l (data : text) :
  SeekToStreamType md ty = Some l ->
  0 < l < UINT32_MODULUS ->
  ReadBytes md ty l = Some data ->
  Z.of_nat (List.length data) = l ->
  exists w',
    DumpRawStream md ty name errors w = Returned errors w' /\
    overread w' =
      overread w || (INT_MAX <? Z.of_nat (List.length (last_span data))).
Proof.
  intros Hseek Hl Hread Hlen.
  assert (E : to_uint32 l = l) by (apply to_uint32_small; lia).
  assert (Hne : to_uint32 l <> 0) by lia.
  rewrite <- E in Hread.
  rewrite (DumpRawStream_read _ _ _ _ _ _ _ Hseek Hne Hread).
  eexists. split; [reflexivity|]. cbn [overread write_stdout].
  rewrite E, (vector_after_read_exact _ _ Hlen).
  rewrite (DumpRawStream_loop_overread data l 0) by (assumption || lia).
  reflexivity.
Qed.

Lemma X1_witness :
  SeekToStreamType sample_minidump MD_LINUX_ENVIRON = Some 8 /\
  exists w',
    DumpRawStream sample_minidump MD_LINUX_ENVIRON (chars "MD_LINUX_ENVIRON")
      0 initial_world = Returned 0 w' /\
    stdout w' =
      chars "Stream MD_LINUX_ENVIRON:" ++ [LF] ++
      chars "A=1\0" ++ [LF] ++ chars "B=2\0" ++ [LF] ++ [LF; LF].
Proof.
  split; [reflexivity|].
  destruct (X1_raw_stream_is_printed_byte_by_byte sample_minidump
              MD_LINUX_ENVIRON (chars "MD_LINUX_ENVIRON") 0 initial_world 8
              (chars "A=1" ++ [NUL] ++ chars "B=2" ++ [NUL])
              eq_refl ltac:(unfold INT_MAX; lia) eq_refl eq_refl)
    as (w' & E & Hout & _).
  exists w'. split; [exact E | exact Hout].
Defined.

Lemma X2_witness :
  exists w1 w2,
    DumpRawStream (stream_minidump (chars "a" ++ NUL :: chars "b"))
      MD_LINUX_CMD_LINE (chars "MD_LINUX_CMD_LINE") 0 initial_world =
      Returned 0 w1 /\
    DumpRawStream (stream_minidump (chars "a" ++ terminator_marker ++ chars "b"))
      MD_LINUX_CMD_LINE (chars "MD_LINUX_CMD_LINE") 0 initial_world =
      Returned 0 w2 /\
    stdout w1 = stdout w2.
Proof.
  exact (X2_nul_and_terminator_marker_print_alike
           (stream_minidump (chars "a" ++ NUL :: chars "b"))
           (stream_minidump (chars "a" ++ terminator_marker ++ chars "b"))
           MD_LINUX_CMD_LINE (chars "MD_LINUX_CMD_LINE") 0 initial_world
           3 5 (chars "a") (chars "b")
           eq_refl eq_refl eq_refl eq_refl eq_refl eq_refl
           ltac:(unfold INT_MAX; lia)).
Defined.

Lemma X3_witness :
  exists w',
    DumpRawStream (stream_minidump (chars "a" ++ NUL :: chars "b"))
      MD_LINUX_CMD_LINE (chars "MD_LINUX_CMD_LINE") 0 initial_world =
      Returned 0 w' /\
    overread w' = false.
Proof.
  exact (X3_reads_behind_buffer_iff_last_span_exceeds_INT_MAX
           (stream_minidump (chars "a" ++ NUL :: chars "b"))
           MD_LINUX_CMD_LINE (chars "MD_LINUX_CMD_LINE") 0 initial_world
           3 (chars "a" ++ NUL :: chars "b")
           eq_refl ltac:(unfold UINT32_MODULUS; lia) eq_refl eq_refl).
Defined.

(** ** The platform summary: when the line is printed, and what it holds *)

Lemma decimal_nonempty n : (1 <= List.length (decimal n))%nat.
Proof.
  rewrite decimal_step. destruct (Z_lt_dec n 10).
  - cbn [List.length]. lia.
  - rewrite length_app. cbn [List.length]. lia.
Qed.

(** A number from [10 ^ k] on has more than [k] digits. *)
Lemma decimal_length_lower (k : nat) : forall n,
  10 ^ Z.of_nat k <= n -> (k + 1 <= List.length (decimal n))%nat.
Proof.
  induction k as [|k IH]; intros n Hn.
  - pose proof (decimal_nonempty n). lia.
  - rewrite Nat2Z.inj_succ, Z.pow_succ_r in Hn by lia.
    assert (0 < 10 ^ Z.of_nat k) by (apply Z.pow_pos_nonneg; lia).
    rewrite decimal_step. destruct (Z_lt_dec n 10) as [Hlt|Hge]; [lia|].
    rewrite length_app. cbn [List.length].
    assert (Hd : 10 ^ Z.of_nat k <= n / 10)
      by (apply Z.div_le_lower_bound; lia).
    specialize (IH _ Hd). lia.
Qed.

Lemma fmt_u_ten_digits n :
  TEN_DIGITS <= to_uint32 n -> List.length (fmt_u n) = 10%nat.
Proof.
  intros H. pose proof (fmt_u_length n) as Hu.
  pose proof (decimal_length_lower 9 (to_uint32 n) H) as Hl.
  unfold fmt_u in *. lia.
Qed.

Lemma fmt_u_fewer_digits n :
  to_uint32 n < TEN_DIGITS -> (List.length (fmt_u n) <= 9)%nat.
Proof.
  intros H. unfold fmt_u.
  apply (decimal_length 9 (to_uint32 n)); [lia | exact H].
Qed.

Lemma format_version_fills raw :
  all_ten_digits raw = true -> List.length (format_version raw) = 32%nat.
Proof.
  unfold all_ten_digits, version_fields. cbn [forallb]. intros H.
  apply andb_prop in H as [H1 H]. apply andb_prop in H as [H2 H].
  apply andb_prop in H as [H3 _].
  apply Z.leb_le in H1, H2, H3.
  unfold format_version. rewrite !length_app.
  rewrite (fmt_u_ten_digits _ H1), (fmt_u_ten_digits _ H2),
    (fmt_u_ten_digits _ H3).
  reflexivity.
Qed.

Lemma format_version_fits raw :
  all_ten_digits raw = false ->
  (List.length (format_version raw) < SYS_VER_SIZE)%nat.
Proof.
  unfold all_ten_digits, version_fields. cbn [forallb]. intros H.
  pose proof (fmt_u_length (major_version raw)).
  pose proof (fmt_u_length (minor_version raw)).
  pose proof (fmt_u_length (build_number raw)).
  unfold format_version, SYS_VER_SIZE. rewrite !length_app.
  cbn [chars list_ascii_of_string List.length].
  apply andb_false_iff in H as [H|H];
    [|apply andb_false_iff in H as [H|H];
      [|apply andb_false_iff in H as [H|H]; [|discriminate]]];
    apply Z.leb_gt in H; apply fmt_u_fewer_digits in H; lia.
Qed.

Lemma platform_summary_overflow md sys_info raw w :
  GetSystemInfo md = Some sys_info -> system_info sys_info = Some raw ->
  all_ten_digits raw = true ->
  platform_summary md w = Undefined (record_call (CallGet SystemInfo) w).
Proof.
  intros HS HR H. unfold platform_summary.
  rewrite (bind_Returned _ _ _ _ _ (call_step _ _)), HS. cbv zeta.
  rewrite HR. unfold bind, sprintf.
  rewrite (format_version_fills _ H), repeat_length. reflexivity.
Qed.

Lemma platform_summary_fits md sys_info w :
  GetSystemInfo md = Some sys_info -> version_fits sys_info = true ->
  platform_summary md w =
  Returned true
    (write_stdout
       (c_string (GetOS sys_info) ++ chars ";" ++ version_text sys_info ++
        chars ";" ++ c_string (GetCPU sys_info) ++ [LF])
       (record_call (CallGet SystemInfo) w)).
Proof.
  intros HS Hfit. unfold version_text.
  apply platform_summary_line; [exact HS|].
  unfold version_fits in Hfit. destruct (system_info sys_info) as [raw|];
    [|exact I].
  apply format_version_fits. now apply negb_true_iff.
Qed.

(** X4: in platform-summary mode, on a container that was read and has a
    system information record whose version does not fill [sys_ver] (no
    raw record, or one of the three numbers below 1000000000), the run
    succeeds and prints one line: the operating system, the version and
    the processor with semicolons between them. The only record retrieved
    is the system information; nothing is logged. *)
Theorem X4_platform_summary_prints_os_version_cpu
    Minidump_new options w sys_info :
  modules_debug_info options = false ->
  platform_info options = true ->
  let md := Minidump_new (minidumpPath options) (hexdump options) in
  Minidump_Read md = true ->
  GetSystemInfo md = Some sys_info ->
  version_fits sys_info = true ->
  exists w',
    PrintMinidumpDump Minidump_new options w = Returned true w' /\
    stdout w' =
      stdout w ++ c_string (GetOS sys_info) ++ chars ";" ++
      version_text sys_info ++ chars ";" ++ c_string (GetCPU sys_info) ++
      [LF] /\
    calls w' = calls w ++ [CallRead; CallGet SystemInfo] /\
    log w' = log w /\ stderr w' = stderr w /\
    max_modules w' = max_modules w.
Proof.
  intros HM HP md HR HS Hfit.
  rewrite (PrintMinidumpDump_mode _ _ _ HR). unfold active_mode.
  rewrite HM, HP. cbn [run_mode]. fold md.
  rewrite (platform_summary_fits md sys_info _ HS Hfit).
  eexists. split; [reflexivity|].
  cbn [stdout stderr log calls max_modules write_stdout record_call].
  rewrite <- app_assoc. repeat split; reflexivity.
Qed.

(** X5: the platform summary is undefined exactly when there is a raw
    system information record all of whose three version numbers, taken
    as [unsigned int], are 1000000000 or more: then, and only then, the
    [sprintf] stores behind the end of [sys_ver]. In every other case it
    returns. *)
Theorem X5_platform_summary_undefined_iff_three_ten_digit_numbers md w :
  ((exists w', platform_summary md w = Undefined w') <->
   (exists sys_info raw,
      GetSystemInfo md = Some sys_info /\
      system_info sys_info = Some raw /\
      TEN_DIGITS <= to_uint32 (major_version raw) /\
      TEN_DIGITS <= to_uint32 (minor_version raw) /\
      TEN_DIGITS <= to_uint32 (build_number raw))) /\
  ((exists ok w', platform_summary md w = Returned ok w') \/
   (exists w', platform_summary md w = Undefined w')).
Proof.
  split; [|apply platform_summary_outcome].
  split.
  - intros (w' & E).
    destruct (GetSystemInfo md) as [sys_info|] eqn:HS;
      [|rewrite (platform_summary_absent _ _ HS) in E; discriminate].
    destruct (version_fits sys_info) eqn:Hfit;
      [rewrite (platform_summary_fits _ _ _ HS Hfit) in E; discriminate|].
    unfold version_fits in Hfit.
    destruct (system_info sys_info) as [raw|] eqn:HR; [|discriminate].
    apply negb_false_iff in Hfit.
    exists sys_info, raw. split; [reflexivity|]. split; [exact HR|].
    unfold all_ten_digits, version_fields in Hfit. cbn [forallb] in Hfit.
    apply andb_prop in Hfit as [H1 H]. apply andb_prop in H as [H2 H].
    apply andb_prop in H as [H3 _].
    apply Z.leb_le in H1, H2, H3. auto.
  - intros (sys_info & raw & HS & HR & H1 & H2 & H3).
    eexists. apply (platform_summary_overflow md sys_info raw); try assumption.
    unfold all_ten_digits, version_fields. cbn [forallb].
    apply Z.leb_le in H1, H2, H3. now rewrite H1, H2, H3.
Qed.

Lemma digits_free_of_dot t :
  forallb is_digit t = true -> free_of "." t = true.
Proof.
  unfold free_of. induction t as [|c t IH]; [reflexivity|].
  cbn [forallb]. intros H. apply andb_prop in H as [Hc Ht].
  rewrite (IH Ht), andb_true_r. apply negb_true_iff, Ascii.eqb_neq.
  intros ->. discriminate.
Qed.

(** X6: the version text can be read back. Cut at its dots it gives three
    pieces, each of decimal digits only and of one to ten of them, and the
    numbers they stand for are the three version numbers taken as
    [unsigned int]. *)
Theorem X6_version_text_reads_back_as_the_three_numbers raw :
  split_on "." (format_version raw) =
    [fmt_u (major_version raw); fmt_u (minor_version raw);
     fmt_u (build_number raw)] /\
  map decimal_value (split_on "." (format_version raw)) = version_fields raw /\
  Forall (fun piece =>
            forallb is_digit piece = true /\
            (1 <= List.length piece <= 10)%nat)
         (split_on "." (format_version raw)).
Proof.
  assert (E : split_on "." (format_version raw) =
              [fmt_u (major_version raw); fmt_u (minor_version raw);
               fmt_u (build_number raw)]).
  { unfold format_version. cbn [chars list_ascii_of_string app].
    rewrite !split_on_app
      by (apply digits_free_of_dot; apply fmt_u_spec).
    rewrite split_on_free by (apply digits_free_of_dot; apply fmt_u_spec).
    reflexivity. }
  rewrite E. split; [reflexivity|]. split.
  - cbn [map]. unfold version_fields.
    now rewrite !(proj2 (fmt_u_spec _)).
  - repeat (apply Forall_cons;
              [split; [apply fmt_u_spec | apply fmt_u_length]|]).
    apply Forall_nil.
Qed.

Lemma X4_witness :
  exists w',
    PrintMinidumpDump (fun _ _ => sample_minidump)
      (set_platform_info Options_new) initial_world = Returned true w' /\
    stdout w' = chars "linux;5.15.0;amd64" ++ [LF].
Proof.
  destruct (X4_platform_summary_prints_os_version_cpu
              (fun _ _ => sample_minidump) (set_platform_info Options_new)
              initial_world sample_system_info
              eq_refl eq_refl eq_refl eq_refl eq_refl)
    as (w' & E & Hout & _).
  exists w'. split; [exact E | exact Hout].
Defined.

(** ** The full dump: what is printed, what is logged *)

(** X7: in full-dump mode, on a container that was read and has no raw
    stream longer than [INT_MAX], what is printed is a function of the
    container alone: the header, then what each of the eleven records
    prints, in the order of the steps and with nothing for an absent
    record, then the six raw streams in the order of the catalogue (a
    stream whose read fails leaves its header, an absent one nothing).
    Nothing is read behind a buffer. *)
Theorem X7_full_dump_prints_records_then_raw_streams_in_order
    Minidump_new options w :
  modules_debug_info options = false ->
  platform_info options = false ->
  let md := Minidump_new (minidumpPath options) (hexdump options) in
  Minidump_Read md = true ->
  streams_within_INT_MAX md = true ->
  exists ok w',
    PrintMinidumpDump Minidump_new options w = Returned ok w' /\
    stdout w' = stdout w ++ full_dump_output md /\
    overread w' = overread w.
Proof.
  intros HM HP md HR Hmax.
  rewrite (PrintMinidumpDump_full_dump _ _ _ HM HP HR). fold md.
  rewrite (bind_Returned _ _ _ _ _ (full_dump_runs _ _)).
  eexists _, _. split; [reflexivity|].
  rewrite full_dump_world_stdout.
  split; [reflexivity|].
  rewrite full_dump_world_overread
    by now apply streams_within_INT_MAX_spec.
  reflexivity.
Qed.

(** X8: in full-dump mode, on a container without a raw stream longer
    than [INT_MAX], the run fails exactly when it logged an entry of
    severity ERROR: every error counted is logged once, and the entries
    of severity INFO (an absent exception, assertion or Breakpad
    information record) count for nothing. At most twelve errors are
    logged. On a container that was read the entries are those of the
    absent records and failed reads, in the order of the steps, and the
    ceiling on the number of modules is left at [UINT32_MAX]. Nothing is
    read behind a buffer. *)
Theorem X8_full_dump_fails_iff_an_error_is_logged Minidump_new options w :
  modules_debug_info options = false ->
  platform_info options = false ->
  let md := Minidump_new (minidumpPath options) (hexdump options) in
  streams_within_INT_MAX md = true ->
  exists ok w' lg,
    PrintMinidumpDump Minidump_new options w = Returned ok w' /\
    overread w' = overread w /\
    log w' = log w ++ lg /\
    ok = negb (existsb is_error lg) /\
    0 <= error_entries lg <= 12 /\
    (Minidump_Read md = true ->
     lg = full_dump_log md /\
     error_entries lg = required_missing md + raw_failures md /\
     max_modules w' = UINT32_MAX).
Proof.
  intros HM HP md Hmax. destruct (Minidump_Read md) eqn:HR.
  - rewrite (PrintMinidumpDump_full_dump _ _ _ HM HP HR). fold md.
    rewrite (bind_Returned _ _ _ _ _ (full_dump_runs _ _)).
    eexists _, _, (full_dump_log md). split; [reflexivity|].
    rewrite full_dump_world_log, full_dump_world_max_modules.
    rewrite full_dump_world_overread
      by now apply streams_within_INT_MAX_spec.
    split; [reflexivity|]. split; [reflexivity|].
    rewrite <- error_entries_zero, error_entries_full_dump_log.
    split; [reflexivity|].
    pose proof (required_missing_range md).
    pose proof (raw_failures_range md).
    pose proof (required_missing_upper md).
    pose proof (raw_failures_upper md).
    split; [lia|]. intros _. repeat split; reflexivity.
  - rewrite (PrintMinidumpDump_unreadable _ _ _ HR).
    eexists _, _, [(ERROR, chars "minidump.Read() failed")].
    split; [reflexivity|]. split; [reflexivity|]. split; [reflexivity|].
    split; [reflexivity|]. split; [cbn; lia | discriminate].
Qed.

(** X9: the whole run on a command line of flag clusters and one file
    whose container cannot be read. Whichever of the flags are given, and
    so whichever mode they select, [main] returns status 1; one entry of
    severity ERROR is logged; nothing is printed; [Read()] is the one
    call made on the container, no record or stream being looked up; and
    the ceiling on the number of modules is left as it was. *)
Theorem X9_unreadable_container_gives_status_1_in_every_mode
    Minidump_new BaseName argv0 flags file w :
  forallb is_flag_cluster flags = true ->
  is_operand file = true ->
  Minidump_Read (Minidump_new file (mentions "x" flags)) = false ->
  exists w',
    main Minidump_new BaseName (argv0 :: flags ++ [file]) w =
      Returned 1 w' /\
    log w' = log w ++ [(ERROR, chars "minidump.Read() failed")] /\
    stdout w' = stdout w /\
    calls w' = calls w ++ [CallRead] /\
    max_modules w' = max_modules w.
Proof.
  intros Hflags Hfile HR. unfold main. cbv zeta.
  rewrite (bind_Returned _ _ _ _ _
             (SetupOptions_operands BaseName argv0 flags [file]
                Options_new w Hflags Hfile)).
  rewrite options_of_flags.
  rewrite (bind_Returned _ _ _ _ _
             (PrintMinidumpDump_unreadable Minidump_new
                (options_of flags file) w HR)).
  eexists. split; [reflexivity|]. repeat split; reflexivity.
Qed.

(** X10: the two summary modes, on a container that was read, retrieve
    one record and nothing else, and are silent about it: however the run
    ends, nothing is logged or written to the error stream, also when the
    record is absent and the result is failure; and the ceiling on the
    number of modules is not touched. The run does not exit. *)
Theorem X10_summary_modes_retrieve_one_record_and_log_nothing
    Minidump_new options w :
  active_mode options <> FullDump ->
  let md := Minidump_new (minidumpPath options) (hexdump options) in
  Minidump_Read md = true ->
  let outcome := PrintMinidumpDump Minidump_new options w in
  calls (final_world outcome) = calls w ++ summary_calls (active_mode options) /\
  log (final_world outcome) = log w /\
  stderr (final_world outcome) = stderr w /\
  max_modules (final_world outcome) = max_modules w /\
  (forall code w', outcome <> Exited code w').
Proof.
  intros Hmode md HR outcome. subst outcome.
  rewrite (PrintMinidumpDump_mode _ _ _ HR). fold md.
  destruct (active_mode options); [| |contradiction]; cbn [run_mode].
  - unfold module_summary.
    rewrite (bind_Returned _ _ _ _ _ (call_step _ _)).
    rewrite (bind_Returned _ _ _ _ _ (GetModuleList_step _ _)).
    destruct (GetModuleList md _) as [modules|].
    + cbv zeta.
      rewrite (bind_Returned _ _ _ _ _ (modules_loop_runs _ _ _ _)).
      cbn [ret final_world calls log stderr max_modules write_stdout
           record_call summary_calls].
      rewrite <- app_assoc. repeat split; try reflexivity. discriminate.
    + cbn [ret final_world calls log stderr max_modules write_stdout
           record_call summary_calls].
      rewrite <- app_assoc. repeat split; try reflexivity. discriminate.
  - destruct (GetSystemInfo md) as [sys_info|] eqn:HS.
    + destruct (version_fits sys_info) eqn:Hfit.
      * rewrite (platform_summary_fits _ _ _ HS Hfit).
        cbn [final_world calls log stderr max_modules write_stdout
             record_call summary_calls].
        rewrite <- app_assoc. repeat split; try reflexivity. discriminate.
      * unfold version_fits in Hfit.
        destruct (system_info sys_info) as [raw|] eqn:Hraw; [|discriminate].
        apply negb_false_iff in Hfit.
        rewrite (platform_summary_overflow _ _ _ _ HS Hraw Hfit).
        cbn [final_world calls log stderr max_modules record_call
             summary_calls].
        rewrite <- app_assoc. repeat split; try reflexivity. discriminate.
    + rewrite (platform_summary_absent _ _ HS).
      cbn [final_world calls log stderr max_modules record_call
           summary_calls].
      rewrite <- app_assoc. repeat split; try reflexivity. discriminate.
Qed.

(** X11: the module summary can be read back. When no field of a module
    has a semicolon or a line break in it, the lines of what was printed
    are as many as the modules of the list, and each line, cut at its
    semicolons, gives the four fields of its module: code file, code
    identifier, debug file and debug identifier. *)
Theorem X11_module_summary_reads_back_as_the_fields
    Minidump_new options w modules :
  modules_debug_info options = true ->
  let md := Minidump_new (minidumpPath options) (hexdump options) in
  Minidump_Read md = true ->
  GetModuleList md (max_modules w) = Some modules ->
  forallb plain_fields (modules_in modules) = true ->
  exists w' out,
    PrintMinidumpDump Minidump_new options w = Returned true w' /\
    stdout w' = stdout w ++ out /\
    map (split_on ";") (removelast (split_on LF out)) =
      map module_fields (modules_in modules).
Proof.
  intros HM md HR HL Hplain.
  rewrite (PrintMinidumpDump_mode _ _ _ HR). unfold active_mode.
  rewrite HM. cbn [run_mode]. fold md. unfold module_summary.
  rewrite (bind_Returned _ _ _ _ _ (call_step _ _)).
  rewrite (bind_Returned _ _ _ _ _ (GetModuleList_step _ _)).
  cbn [max_modules record_call]. rewrite HL. cbv zeta.
  rewrite (bind_Returned _ _ _ _ _ (modules_loop_runs _ _ _ _)).
  eexists _, _. split; [reflexivity|]. split; [reflexivity|].
  fold (modules_in modules).
  destruct (module_lines_read_back _ Hplain) as (lines & E1 & E2 & E3).
  rewrite E1, (split_on_lines _ E2), removelast_last. exact E3.
Qed.

Lemma X7_witness :
  exists ok w',
    PrintMinidumpDump (fun _ _ => sample_minidump) Options_new initial_world =
      Returned ok w' /\
    stdout w' =
      chars "MDRawHeader" ++ [LF] ++
      chars "MinidumpThreadList" ++ [LF] ++
      chars "MinidumpModuleList" ++ [LF] ++
      chars "MinidumpMemoryList" ++ [LF] ++
      chars "MDRawSystemInfo" ++ [LF] ++
      chars "MDRawMiscInfo" ++ [LF] ++
      chars "MinidumpMemoryInfoList" ++ [LF] ++
      chars "Stream MD_LINUX_CMD_LINE:" ++ [LF; LF] ++
      chars "Stream MD_LINUX_ENVIRON:" ++ [LF] ++
      chars "A=1\0" ++ [LF] ++ chars "B=2\0" ++ [LF] ++ [LF; LF].
Proof.
  destruct (X7_full_dump_prints_records_then_raw_streams_in_order
              (fun _ _ => sample_minidump) Options_new initial_world
              eq_refl eq_refl eq_refl eq_refl)
    as (ok & w' & E & Hout & _).
  exists ok, w'. split; [exact E | exact Hout].
Defined.

Lemma X8_witness :
  exists w',
    PrintMinidumpDump (fun _ _ => unreadable_status_minidump) Options_new
      initial_world = Returned false w' /\
    filter is_error (log w') = [(ERROR, chars "minidump.ReadBytes failed")].
Proof.
  destruct (X8_full_dump_fails_iff_an_error_is_logged
              (fun _ _ => unreadable_status_minidump) Options_new
              initial_world eq_refl eq_refl eq_refl)
    as (ok & w' & lg & E & _ & Hlog & Hok & _ & H).
  destruct (H eq_refl) as (Hlg & _).
  exists w'. rewrite Hlog, Hlg. rewrite E, Hok, Hlg.
  split; reflexivity.
Defined.

Lemma X9_witness :
  exists w',
    main (fun _ _ => unreadable_minidump) (fun path => path)
      (map chars ["minidump_dump"; "-xM"; "-P"; "crash.dmp"]%string)
      initial_world = Returned 1 w' /\
    stdout w' = [] /\ calls w' = [CallRead].
Proof.
  destruct (X9_unreadable_container_gives_status_1_in_every_mode
              (fun _ _ => unreadable_minidump) (fun path => path)
              (chars "minidump_dump") (map chars ["-xM"; "-P"]%string)
              (chars "crash.dmp") initial_world eq_refl eq_refl eq_refl)
    as (w' & E & _ & Hout & Hcalls & _).
  exists w'. split; [exact E|]. split; [exact Hout | exact Hcalls].
Defined.

Lemma X10_witness :
  log (final_world
         (PrintMinidumpDump (fun _ _ => max_version_minidump)
            (set_modules_debug_info Options_new) initial_world)) = [] /\
  log (final_world
         (PrintMinidumpDump (fun _ _ => max_version_minidump)
            (set_platform_info Options_new) initial_world)) = [].
Proof.
  split.
  - exact (proj1 (proj2
             (X10_summary_modes_retrieve_one_record_and_log_nothing
                (fun _ _ => max_version_minidump)
                (set_modules_debug_info Options_new) initial_world
                ltac:(discriminate) eq_refl))).
  - exact (proj1 (proj2
             (X10_summary_modes_retrieve_one_record_and_log_nothing
                (fun _ _ => max_version_minidump)
                (set_platform_info Options_new) initial_world
                ltac:(discriminate) eq_refl))).
Defined.

Lemma X11_witness :
  exists w' out,
    PrintMinidumpDump (fun _ _ => sample_minidump)
      (set_modules_debug_info Options_new) initial_world = Returned true w' /\
    stdout w' = out /\
    map (split_on ";") (removelast (split_on LF out)) =
      [map chars ["/usr/bin/app"; "5f3c"; "app"; "A1B2C3D40"]%string;
       map chars ["/lib/libc.so.6"; "77aa"; "libc.so.6"; "0F0E0D0C0"]%string].
Proof.
  destruct (X11_module_summary_reads_back_as_the_fields
              (fun _ _ => sample_minidump)
              (set_modules_debug_info Options_new) initial_world
              sample_modules eq_refl eq_refl eq_refl eq_refl)
    as (w' & out & E & Hout & Hfields).
  exists w', out. split; [exact E|]. split; [exact Hout | exact Hfields].
Defined.

(** ** The command line: flags, files and the double dash *)

(** X12: a command line of flag clusters followed by arguments that are
    no option clusters. With exactly one such argument the options are set
    up, nothing being written: the path is that argument, each of the
    three flags is set exactly when its letter occurs in some cluster
    (in whatever order, and however often), and the hexdump width is 16.
    With none, or with more than one, the run ends with status 1 and the
    complaint about the missing file on the error stream. *)
Theorem X12_flags_then_exactly_one_file_set_the_options
    BaseName argv0 flags files w :
  forallb is_flag_cluster flags = true ->
  forallb is_operand files = true ->
  SetupOptions BaseName (argv0 :: flags ++ files) Options_new w =
  match files with
  | [file] => Returned (options_of flags file) w
  | _ => Exited 1 (write_stderr (missing_file_message argv0) w)
  end.
Proof.
  intros Hflags Hfiles.
  rewrite (SetupOptions_operands _ _ _ _ _ _ Hflags).
  - destruct files as [|file [|file' files]]; try reflexivity.
    now rewrite options_of_flags.
  - destruct files as [|file files]; [exact I|].
    cbn [forallb] in Hfiles. now apply andb_prop in Hfiles as [H _].
Qed.

(** X13: after the double dash the one argument left is the file,
    whatever it looks like: also one that begins with a dash is taken for
    the path, and none of its letters for an option. *)
Theorem X13_double_dash_ends_the_options BaseName argv0 flags file w :
  forallb is_flag_cluster flags = true ->
  SetupOptions BaseName (argv0 :: flags ++ chars "--" :: [file])
    Options_new w =
  Returned (options_of flags file) w.
Proof.
  intros Hflags. rewrite (SetupOptions_double_dash _ _ _ _ _ _ Hflags).
  now rewrite options_of_flags.
Qed.

Lemma X12_witness :
  SetupOptions (fun path => path)
    (map chars ["minidump_dump"; "-xP"; "-x"; "crash.dmp"]%string)
    Options_new initial_world =
  Returned
    {| minidumpPath := chars "crash.dmp"; hexdump := true;
       hexdump_width := 16; modules_debug_info := false;
       platform_info := true |} initial_world /\
  SetupOptions (fun path => path)
    (map chars ["minidump_dump"; "-M"; "a.dmp"; "b.dmp"]%string)
    Options_new initial_world =
  Exited 1
    (write_stderr (chars "minidump_dump: Missing minidump file" ++ [LF])
       initial_world).
Proof.
  split.
  - exact (X12_flags_then_exactly_one_file_set_the_options
             (fun path => path) (chars "minidump_dump")
             (map chars ["-xP"; "-x"]%string) [chars "crash.dmp"]
             initial_world eq_refl eq_refl).
  - exact (X12_flags_then_exactly_one_file_set_the_options
             (fun path => path) (chars "minidump_dump")
             [chars "-M"] (map chars ["a.dmp"; "b.dmp"]%string)
             initial_world eq_refl eq_refl).
Defined.

Lemma X13_witness :
  SetupOptions (fun path => path)
    (map chars ["minidump_dump"; "-x"; "--"; "-M.dmp"]%string)
    Options_new initial_world =
  Returned
    {| minidumpPath := chars "-M.dmp"; hexdump := true;
       hexdump_width := 16; modules_debug_info := false;
       platform_info := false |} initial_world.
Proof.
  exact (X13_double_dash_ends_the_options
           (fun path => path) (chars "minidump_dump") [chars "-x"]
           (chars "-M.dmp") initial_world eq_refl).
Defined.

(** ** The command line, with the options first *)

Lemma getopt_take_result argv optstring st c cs r st' d :
  getopt_take argv optstring st c cs = (r, st', d) ->
  (r = Some c /\ in_optstring c optstring = true /\ d = []) \/
  (r = Some "?"%char /\ in_optstring c optstring = false /\
   d = getopt_diagnostic argv c).
Proof.
  unfold getopt_take. destruct (in_optstring c optstring);
    intros H; inversion H; subst; auto.
Qed.

(** What [getopt] gives when it gives an option: a character of the
    option string, or the question mark and a diagnostic. *)
Lemma getopt_result argv optstring st ch st' d :
  getopt argv optstring st = (Some ch, st', d) ->
  (in_optstring ch optstring = true /\ d = []) \/
  (ch = "?"%char /\ exists c, d = getopt_diagnostic argv c).
Proof.
  unfold getopt. intros H.
  assert (Htake : forall c cs,
            getopt_take argv optstring st c cs = (Some ch, st', d) ->
            (in_optstring ch optstring = true /\ d = []) \/
            (ch = "?"%char /\ exists c, d = getopt_diagnostic argv c)).
  { intros c cs E. apply getopt_take_result in E.
    destruct E as [(E1 & E2 & E3)|(E1 & E2 & E3)]; inversion E1; subst.
    - left. auto.
    - right. eauto. }
  destruct (nextchar st) as [|c cs]; [|now apply (Htake c cs)].
  destruct (nth_error argv (optind st)) as [[|dash [|c cs]]|];
    try discriminate.
  destruct (Ascii.eqb dash "-"); try discriminate.
  destruct (Ascii.eqb c "-" && _); try discriminate.
  now apply (Htake c cs).
Qed.

Lemma in_optstring_xMPh ch :
  in_optstring ch optstring_xMPh = true ->
  is_flag ch = true \/ ch = "h"%char.
Proof.
  unfold in_optstring, optstring_xMPh, is_flag.
  cbn [chars list_ascii_of_string existsb]. rewrite orb_false_r.
  intros H. apply orb_prop in H as [H|H]; [left; now rewrite H|].
  apply orb_prop in H as [H|H];
    [left; rewrite H; now rewrite orb_true_r|].
  apply orb_prop in H as [H|H]; [left; rewrite H; now rewrite !orb_true_r|].
  right. now apply Ascii.eqb_eq.
Qed.

(** [getopt] never moves [optind] back. *)
Lemma getopt_optind argv optstring st r st' d :
  getopt argv optstring st = (r, st', d) -> (optind st <= optind st')%nat.
Proof.
  unfold getopt, getopt_take. cbv zeta. intros H.
  repeat match type of H with
         | context [match ?x with _ => _ end] => destruct x
         end;
    inversion H; subst; cbn [optind]; lia.
Qed.

Lemma write_stderr_app t u w :
  write_stderr u (write_stderr t w) = write_stderr (t ++ u) w.
Proof. apply World_eq; simpl; try reflexivity. symmetry. apply app_assoc. Qed.

Lemma usage_text_nonempty program : usage_text program <> [].
Proof. unfold usage_text. discriminate. Qed.

(** The scan of the options, from any state: it ends with the world as it
    was, or at [-h] with the usage text on the standard output, or at a
    character that is no option with the diagnostic and the usage text on
    the error stream. The options it sets leave the width alone, and
    [optind] does not go back. *)
Lemma SetupOptions_loop_outcome BaseName argv (n : nat) : forall st o w,
  (getopt_measure argv st < n)%nat ->
  match SetupOptions_loop BaseName argv st o w with
  | Returned (o', st') w' =>
      w' = w /\ hexdump_width o' = hexdump_width o /\
      (optind st <= optind st')%nat
  | Exited code w' =>
      (code = 0 /\
       w' = write_stdout (usage_text (BaseName (arg argv 0))) w) \/
      (code = 1 /\
       exists c,
         w' = write_stderr (usage_text (BaseName (arg argv 0)))
                (write_stderr (getopt_diagnostic argv c) w))
  | Undefined _ => False
  end.
Proof.
  induction n as [|n IH]; intros st o w Hn; [lia|].
  rewrite SetupOptions_loop_step.
  destruct (getopt argv optstring_xMPh st) as [[[ch|] st'] d] eqn:G;
    [|split; [reflexivity|]; split; [reflexivity|];
      now apply getopt_optind in G].
  pose proof (getopt_measure_decreases _ _ _ _ _ _ G) as Hdec.
  pose proof (getopt_optind _ _ _ _ _ _ G) as Hind.
  destruct (getopt_result _ _ _ _ _ _ G) as [[Hin ->]|[-> [c ->]]].
  - rewrite write_stderr_nil.
    destruct (in_optstring_xMPh _ Hin) as [Hflag| ->].
    + rewrite (switch_flag _ _ _ _ _ Hflag).
      specialize (IH st' (apply_flag ch o) w ltac:(lia)).
      destruct (SetupOptions_loop BaseName argv st' (apply_flag ch o) w)
        as [[o' st''] w'|code w'|w']; [|exact IH|exact IH].
      destruct IH as (-> & Hw & Hst).
      destruct (apply_flag_fields ch o) as (_ & F2 & _).
      rewrite Hw, F2. split; [reflexivity|]. split; [reflexivity | lia].
    + left. split; reflexivity.
  - right. split; [reflexivity|]. exists c. reflexivity.
Qed.

Lemma arg_in_tail (argv : list text) (k : nat) :
  (1 <= k < List.length argv)%nat -> In (arg argv k) (tl argv).
Proof.
  intros H. unfold arg. destruct argv as [|a argv]; [cbn in H; lia|].
  destruct k as [|k]; [lia|]. cbn [nth tl].
  apply nth_In. cbn [List.length] in H. lia.
Qed.

(** [SetupOptions] under this scan, on any arguments. *)
Lemma SetupOptions_outcome BaseName argv o w :
  match SetupOptions BaseName argv o w with
  | Returned o' w' =>
      w' = w /\ In (minidumpPath o') (tl argv) /\
      hexdump_width o' = hexdump_width o
  | Exited code w' =>
      (code = 0 /\
       w' = write_stdout (usage_text (BaseName (arg argv 0))) w) \/
      (code = 1 /\ exists msg, msg <> [] /\ w' = write_stderr msg w)
  | Undefined _ => False
  end.
Proof.
  unfold SetupOptions. cbv zeta. unfold bind at 1.
  pose proof (SetupOptions_loop_outcome BaseName argv _ Getopt_initial o w
                (Nat.lt_succ_diag_r _)) as H.
  destruct (SetupOptions_loop BaseName argv Getopt_initial o w)
    as [[o' st] w'|code w'|w']; [| |exact H].
  - destruct H as (-> & Hw & Hst). cbn [Getopt_initial optind] in Hst.
    destruct (Z.eqb_spec (Z.of_nat (List.length argv) -
                          Z.of_nat (optind st)) 1) as [E|E]; cbn [negb].
    + unfold ret. split; [reflexivity|].
      cbn [set_minidumpPath minidumpPath hexdump_width].
      split; [apply arg_in_tail; lia | exact Hw].
    + right. split; [reflexivity|]. eexists. split; [|reflexivity].
      intros E'. apply app_eq_nil in E' as [_ E'].
      apply app_eq_nil in E' as [E' _]. discriminate.
  - destruct H as [[-> ->]|[-> [c ->]]]; [left; split; reflexivity|].
    right. split; [reflexivity|]. rewrite write_stderr_app.
    eexists. split; [|reflexivity].
    intros E. apply app_eq_nil in E as [_ E].
    now apply usage_text_nonempty in E.
Qed.

(** X14: [SetupOptions] on a command line whose options come first,
    whatever they are. It returns with nothing written and one of the
    arguments after the program name as the path, the hexdump width
    being as it was; or it ends the run with status 0 after the usage
    text on the standard output and nothing on the error stream; or it
    ends the run with status 1 after a message on the error stream and
    nothing on the standard output. In no case is the container touched
    or anything logged, and no other status is possible. *)
Theorem X14_command_line_is_settled_before_the_container_is_touched
    BaseName argv0 args o w :
  options_first args = true ->
  match SetupOptions BaseName (argv0 :: args) o w with
  | Returned o' w' =>
      w' = w /\ In (minidumpPath o') args /\
      hexdump_width o' = hexdump_width o
  | Exited code w' =>
      calls w' = calls w /\ log w' = log w /\
      max_modules w' = max_modules w /\
      ((code = 0 /\
        stdout w' = stdout w ++ usage_text (BaseName argv0) /\
        stderr w' = stderr w) \/
       (code = 1 /\ stdout w' = stdout w /\
        exists msg, msg <> [] /\ stderr w' = stderr w ++ msg))
  | Undefined _ => False
  end.
Proof.
  intros _.
  pose proof (SetupOptions_outcome BaseName (argv0 :: args) o w) as H.
  destruct (SetupOptions BaseName (argv0 :: args) o w)
    as [o' w'|code w'|w']; [exact H| |exact H].
  destruct H as [[-> ->]|[-> (msg & Hmsg & ->)]].
  - repeat split; try reflexivity. left. repeat split; reflexivity.
  - repeat split; try reflexivity. right.
    split; [reflexivity|]. split; [reflexivity|]. now exists msg.
Qed.

Lemma X14_witness :
  options_first (map chars ["-x"; "-h"; "crash.dmp"]%string) = true /\
  match SetupOptions (fun path => path)
          (map chars ["minidump_dump"; "-x"; "-h"; "crash.dmp"]%string)
          Options_new initial_world with
  | Returned o' w' =>
      w' = initial_world /\
      In (minidumpPath o') (map chars ["-x"; "-h"; "crash.dmp"]%string) /\
      hexdump_width o' = 16
  | Exited code w' =>
      calls w' = [] /\ log w' = [] /\ max_modules w' = 2048 /\
      ((code = 0 /\
        stdout w' = [] ++ usage_text (chars "minidump_dump") /\
        stderr w' = []) \/
       (code = 1 /\ stdout w' = [] /\
        exists msg, msg <> [] /\ stderr w' = [] ++ msg))
  | Undefined _ => False
  end.
Proof.
  split; [reflexivity|].
  exact (X14_command_line_is_settled_before_the_container_is_touched
           (fun path => path) (chars "minidump_dump")
           (map chars ["-x"; "-h"; "crash.dmp"]%string)
           Options_new initial_world eq_refl).
Defined.

Lemma PrintMinidumpDump_undefined Minidump_new options w w' :
  PrintMinidumpDump Minidump_new options w = Undefined w' ->
  let md := Minidump_new (minidumpPath options) (hexdump options) in
  active_mode options = PlatformSummary /\ Minidump_Read md = true /\
  exists sys_info raw,
    GetSystemInfo md = Some sys_info /\ system_info sys_info = Some raw /\
    all_ten_digits raw = true.
Proof.
  intros E md.
  destruct (Minidump_Read md) eqn:HR;
    [|rewrite (PrintMinidumpDump_unreadable _ _ _ HR) in E; discriminate].
  rewrite (PrintMinidumpDump_mode _ _ _ HR) in E. fold md in E.
  destruct (active_mode options) eqn:Hmode; cbn [run_mode] in E.
  - destruct (module_summary_outcome md (record_call CallRead w))
      as (ok & w2 & E2 & _).
    rewrite E2 in E. discriminate.
  - split; [reflexivity|]. split; [reflexivity|].
    destruct (GetSystemInfo md) as [sys_info|] eqn:HS;
      [|rewrite (platform_summary_absent _ _ HS) in E; discriminate].
    destruct (version_fits sys_info) eqn:Hfit;
      [rewrite (platform_summary_fits _ _ _ HS Hfit) in E; discriminate|].
    unfold version_fits in Hfit.
    destruct (system_info sys_info) as [raw|] eqn:Hraw; [|discriminate].
    apply negb_false_iff in Hfit. exists sys_info, raw. auto.
  - rewrite (bind_Returned _ _ _ _ _ (full_dump_runs _ _)) in E.
    discriminate.
Qed.

(** Where [PrintMinidumpDump] returns with the flag set, the flag was set
    before, or the full dump came to a stream that [reads_behind] tells. *)
Lemma PrintMinidumpDump_overread Minidump_new options w ok w' :
  PrintMinidumpDump Minidump_new options w = Returned ok w' ->
  overread w' =
  overread w ||
  (match active_mode options with FullDump => true | _ => false end &&
   Minidump_Read (Minidump_new (minidumpPath options) (hexdump options)) &&
   existsb (reads_behind
              (Minidump_new (minidumpPath options) (hexdump options)))
           catalogue).
Proof.
  set (md := Minidump_new (minidumpPath options) (hexdump options)).
  intros E. destruct (Minidump_Read md) eqn:HR.
  - rewrite (PrintMinidumpDump_mode _ _ _ HR) in E. fold md in E.
    destruct (active_mode options); cbn [run_mode andb] in E |- *.
    + unfold module_summary in E.
      rewrite (bind_Returned _ _ _ _ _ (call_step _ _)) in E.
      rewrite (bind_Returned _ _ _ _ _ (GetModuleList_step _ _)) in E.
      destruct (GetModuleList md _) as [modules|].
      * cbv zeta in E.
        rewrite (bind_Returned _ _ _ _ _ (modules_loop_runs _ _ _ _)) in E.
        inversion E; subst. cbn. now rewrite orb_false_r.
      * inversion E; subst. cbn. now rewrite orb_false_r.
    + unfold platform_summary in E.
      rewrite (bind_Returned _ _ _ _ _ (call_step _ _)) in E.
      destruct (GetSystemInfo md) as [sys_info|];
        [|inversion E; subst; cbn; now rewrite orb_false_r].
      cbv zeta in E.
      destruct (system_info sys_info) as [raw|].
      * destruct (sprintf_outcome (repeat NUL SYS_VER_SIZE)
                    (format_version raw)
                    (record_call (CallGet SystemInfo)
                       (record_call CallRead w))) as [[b Es]|Es].
        -- rewrite (bind_Returned _ _ _ _ _ Es) in E.
           inversion E; subst. cbn. now rewrite orb_false_r.
        -- unfold bind at 1 in E. rewrite Es in E. discriminate.
      * inversion E; subst. cbn. now rewrite orb_false_r.
    + rewrite (bind_Returned _ _ _ _ _ (full_dump_runs _ _)) in E.
      inversion E; subst. rewrite full_dump_world_reads_behind.
      reflexivity.
  - rewrite (PrintMinidumpDump_unreadable _ _ _ HR) in E.
    inversion E; subst. cbn. now rewrite andb_false_r, orb_false_r.
Qed.

(** X15: the status of the process is 0 or 1, on every command line
    whose options come first and on every container, whether [main]
    returns it or the set-up of the options ends the run, as long as the
    run stays within what the language defines. It leaves that in two
    ways only: the [sprintf] of the
    platform summary stores behind [sys_ver], for a readable container
    whose three version numbers all have ten digits; or the [printf] of
    the full dump reads behind a buffer, for a readable container with a
    raw stream that [reads_behind] tells. *)
Theorem X15_status_is_0_or_1_when_the_options_come_first
    Minidump_new BaseName argv0 args w :
  options_first args = true ->
  overread w = false ->
  match main Minidump_new BaseName (argv0 :: args) w with
  | Returned code w' =>
      (overread w' = false -> code = 0 \/ code = 1) /\
      (overread w' = true ->
       exists options,
         SetupOptions BaseName (argv0 :: args) Options_new w =
           Returned options w /\
         active_mode options = FullDump /\
         Minidump_Read
           (Minidump_new (minidumpPath options) (hexdump options)) = true /\
         existsb (reads_behind
                    (Minidump_new (minidumpPath options) (hexdump options)))
                 catalogue = true)
  | Exited code w' => (code = 0 \/ code = 1) /\ overread w' = false
  | Undefined _ =>
      exists options sys_info raw,
        SetupOptions BaseName (argv0 :: args) Options_new w =
          Returned options w /\
        active_mode options = PlatformSummary /\
        Minidump_Read
          (Minidump_new (minidumpPath options) (hexdump options)) = true /\
        GetSystemInfo (Minidump_new (minidumpPath options) (hexdump options))
          = Some sys_info /\
        system_info sys_info = Some raw /\
        all_ten_digits raw = true
  end.
Proof.
  intros _ Hw. unfold main. cbv zeta. unfold bind at 1.
  pose proof (SetupOptions_outcome BaseName (argv0 :: args) Options_new w)
    as H.
  destruct (SetupOptions BaseName (argv0 :: args) Options_new w)
    as [options w1|code w1|w1] eqn:HS; [| |contradiction].
  - destruct H as (-> & _).
    destruct (PrintMinidumpDump_outcome Minidump_new options w)
      as [(ok & w2 & E)|(w2 & E)].
    + rewrite (bind_Returned _ _ _ _ _ E). unfold ret.
      split; [intros _; destruct ok; auto|].
      intros Hover. rewrite (PrintMinidumpDump_overread _ _ _ _ _ E) in Hover.
      rewrite Hw in Hover. cbn [orb] in Hover.
      apply andb_prop in Hover as [Hover Hstreams].
      apply andb_prop in Hover as [Hmode HR].
      exists options. split; [reflexivity|].
      destruct (active_mode options); try discriminate.
      repeat split; assumption.
    + unfold bind. rewrite E.
      destruct (PrintMinidumpDump_undefined _ _ _ _ E)
        as (Hmode & HR & sys_info & raw & H1 & H2 & H3).
      exists options, sys_info, raw.
      repeat split; assumption || reflexivity.
  - destruct H as [[-> ->]|[-> (msg & _ & ->)]]; split; auto.
Qed.

Lemma X15_witness :
  options_first (map chars ["-M"; "--"; "-crash.dmp"]%string) = true /\
  overread initial_world = false /\
  exists code w',
    main (fun _ _ => sample_minidump) (fun path => path)
      (map chars ["minidump_dump"; "-M"; "--"; "-crash.dmp"]%string)
      initial_world = Returned code w' /\
    (overread w' = false -> code = 0 \/ code = 1).
Proof.
  split; [reflexivity|]. split; [reflexivity|].
  pose proof (X15_status_is_0_or_1_when_the_options_come_first
                (fun _ _ => sample_minidump) (fun path => path)
                (chars "minidump_dump")
                (map chars ["-M"; "--"; "-crash.dmp"]%string)
                initial_world eq_refl eq_refl) as H.
  destruct (main (fun _ _ => sample_minidump) (fun path => path)
              (chars "minidump_dump" ::
               map chars ["-M"; "--"; "-crash.dmp"]%string)
              initial_world) as [code w'|code w'|w'] eqn:E.
  - exists code, w'. split; [exact E | exact (proj1 H)].
  - vm_compute in E. discriminate.
  - vm_compute in E. discriminate.
Defined.

(** X16: the whole run on a command line of flag clusters and one file.
    The container is the one the file stands for, opened with the hexdump
    flag as [-x] says; it is read first; and when it can be read the one
    mode the flags select is run on it (the module summary if [M] occurs,
    else the platform summary if [P] occurs, else the full dump), its
    success giving status 0 and its failure status 1. *)
Theorem X16_flags_and_file_run_one_mode_on_the_container
    Minidump_new BaseName argv0 flags file w :
  forallb is_flag_cluster flags = true ->
  is_operand file = true ->
  let md := Minidump_new file (mentions "x" flags) in
  let mode := if mentions "M" flags then ModuleSummary
              else if mentions "P" flags then PlatformSummary
              else FullDump in
  Minidump_Read md = true ->
  main Minidump_new BaseName (argv0 :: flags ++ [file]) w =
    bind (run_mode mode md) (fun ok : bool => ret (if ok then 0 else 1))
      (record_call CallRead w) /\
  (forall ok w',
     run_mode mode md (record_call CallRead w) = Returned ok w' ->
     main Minidump_new BaseName (argv0 :: flags ++ [file]) w =
     Returned (if ok then 0 else 1) w').
Proof.
  intros Hflags Hfile md mode HR.
  assert (E : main Minidump_new BaseName (argv0 :: flags ++ [file]) w =
              bind (run_mode mode md)
                (fun ok : bool => ret (if ok then 0 else 1))
                (record_call CallRead w)).
  { unfold main. cbv zeta.
    rewrite (bind_Returned _ _ _ _ _
               (SetupOptions_operands BaseName argv0 flags [file]
                  Options_new w Hflags Hfile)).
    rewrite options_of_flags. unfold bind at 1.
    rewrite (PrintMinidumpDump_mode Minidump_new (options_of flags file) w HR).
    reflexivity. }
  split; [exact E|].
  intros ok w' Hrun. rewrite E. now rewrite (bind_Returned _ _ _ _ _ Hrun).
Qed.

Lemma X16_witness :
  main (fun _ _ => sample_minidump) (fun path => path)
    (map chars ["minidump_dump"; "-xP"; "crash.dmp"]%string) initial_world =
  Returned 0
    (write_stdout (chars "linux;5.15.0;amd64" ++ [LF])
       (record_call (CallGet SystemInfo)
          (record_call CallRead initial_world))).
Proof.
  exact (proj2 (X16_flags_and_file_run_one_mode_on_the_container
                  (fun _ _ => sample_minidump) (fun path => path)
                  (chars "minidump_dump") [chars "-xP"] (chars "crash.dmp")
                  initial_world eq_refl eq_refl eq_refl)
           true _ eq_refl).
Defined.

(** ** The usage text, the option string and the switch *)

Lemma usage_text_lines (program : text) :
  free_of LF (c_string program) = true ->
  split_on LF (usage_text program) =
  (chars "Usage: " ++ c_string program ++ chars " [options...] <minidump>") ::
  split_on LF
    (chars "Dump data in a minidump." ++ [LF] ++
     [LF] ++
     chars "Options:" ++ [LF] ++
     chars "  <minidump> should be a minidump." ++ [LF] ++
     chars "  -x:" ++ [TAB] ++
       chars " Display memory in a hexdump like format" ++ [LF] ++
     chars "  -M:" ++ [TAB] ++
       chars " Display modules and debug information" ++ [LF] ++
     chars "  -P:" ++ [TAB] ++ chars " Display platform information" ++ [LF] ++
     chars "  -h:" ++ [TAB] ++ chars " Usage" ++ [LF]).
Proof.
  intros Hfree. unfold usage_text.
  rewrite <- split_on_app.
  - rewrite <- !app_assoc. reflexivity.
  - unfold free_of in *. rewrite !forallb_app, Hfree. reflexivity.
Qed.

(** X17: the usage text, the option string given to [getopt] and the
    [switch] of [SetupOptions] agree. The usage text has a line for a
    character exactly when the character is in the option string (the
    program name having no line break in it), and the characters of the
    option string are x, M, P and h. Each has a case of its own in the
    [switch]: x sets the hexdump flag, M the module summary flag and P the
    platform summary flag, each leaving the rest of the options and the
    world as they are, and h prints the usage text on the standard output
    and ends the run with status 0. Every other character falls to the
    default case, which prints the usage text on the error stream and
    ends the run with status 1. *)
Theorem X17_usage_text_option_string_and_switch_agree
    BaseName argv0 rest (program : text) o w :
  free_of LF (c_string program) = true ->
  let argv := argv0 :: rest in
  (forall c, documents program c = in_optstring c optstring_xMPh) /\
  (forall c,
     in_optstring c optstring_xMPh = true <->
     c = "x"%char \/ c = "M"%char \/ c = "P"%char \/ c = "h"%char) /\
  SetupOptions_switch BaseName argv "x" o w = Returned (set_hexdump o) w /\
  SetupOptions_switch BaseName argv "M" o w =
    Returned (set_modules_debug_info o) w /\
  SetupOptions_switch BaseName argv "P" o w =
    Returned (set_platform_info o) w /\
  SetupOptions_switch BaseName argv "h" o w =
    Exited 0 (write_stdout (usage_text (BaseName argv0)) w) /\
  (forall c,
     in_optstring c optstring_xMPh = false ->
     SetupOptions_switch BaseName argv c o w =
     Exited 1 (write_stderr (usage_text (BaseName argv0)) w)).
Proof.
  intros Hfree argv. subst argv.
  split; [|split; [|split; [|split; [|split; [|split]]]]];
    try reflexivity.
  - intros c. unfold documents. rewrite (usage_text_lines _ Hfree).
    cbn [existsb].
    replace (starts_with (chars "  -" ++ [c] ++ chars ":")
               (chars "Usage: " ++ c_string program ++
                chars " [options...] <minidump>")) with false
      by reflexivity.
    cbn [orb].
    destruct c as [[] [] [] [] [] [] [] []]; vm_compute; reflexivity.
  - intros c. split.
    + intros Hin. destruct (in_optstring_xMPh _ Hin) as [Hflag| ->];
        [|auto].
      destruct (is_flag_cases _ Hflag) as [ -> | [ -> | -> ] ]; auto.
    + intros [ -> | [ -> | [ -> | -> ] ] ]; reflexivity.
  - intros c Hout.
    unfold in_optstring, optstring_xMPh in Hout.
    cbn [chars list_ascii_of_string existsb] in Hout.
    rewrite orb_false_r in Hout.
    apply orb_false_iff in Hout as [Hx Hout].
    apply orb_false_iff in Hout as [HM Hout].
    apply orb_false_iff in Hout as [HP Hh].
    unfold SetupOptions_switch. now rewrite Hx, HM, HP, Hh.
Qed.

Lemma X17_witness :
  free_of LF (c_string (chars "minidump_dump")) = true /\
  documents (chars "minidump_dump") "M" = true /\
  documents (chars "minidump_dump") "q" = false /\
  SetupOptions_switch (fun path => path) [chars "minidump_dump"] "q"
    Options_new initial_world =
  Exited 1 (write_stderr (usage_text (chars "minidump_dump")) initial_world).
Proof.
  split; [reflexivity|].
  destruct (X17_usage_text_option_string_and_switch_agree
              (fun path => path) (chars "minidump_dump") []
              (chars "minidump_dump") Options_new initial_world eq_refl)
    as (Hdoc & _ & _ & _ & _ & _ & Hdefault).
  split; [exact (Hdoc "M"%char)|]. split; [exact (Hdoc "q"%char)|].
  exact (Hdefault "q"%char eq_refl).
Defined.

(** ** The scans of DumpRawStream stay inside the buffer *)

Lemma print_span_calls r p w : calls (print_span r p w) = calls w.
Proof. unfold print_span. now destruct (printf_prec_s _ _). Qed.

Lemma DumpRawStream_loop_scans contents len off w :
  0 <= off ->
  exists scans,
    calls (DumpRawStream_loop contents len off w) = calls w ++ scans /\
    forallb (scan_in_buffer len) scans = true /\
    (off < len -> scans <> []).
Proof.
  funelim (DumpRawStream_loop contents len off w); intros Hoff.
  - exists []. rewrite app_nil_r. repeat split. intros H. contradiction.
  - destruct (H ltac:(lia)) as (scans & E & Hs & _).
    exists (CallMemchr current_offset (len - current_offset) :: scans).
    rewrite E. cbn [calls write_stdout record_call].
    rewrite print_span_calls, <- app_assoc.
    split; [reflexivity|]. split; [|discriminate].
    cbn [forallb scan_in_buffer]. rewrite Hs, andb_true_r.
    apply andb_true_intro. split; [apply andb_true_intro; split|].
    + apply Z.leb_le. lia.
    + apply Z.ltb_lt. lia.
    + apply Z.eqb_eq. lia.
  - exists [CallMemchr current_offset (len - current_offset)].
    cbn [calls record_call]. rewrite print_span_calls.
    split; [reflexivity|]. split; [|discriminate].
    cbn [forallb scan_in_buffer]. rewrite andb_true_r.
    apply andb_true_intro. split; [apply andb_true_intro; split|].
    + apply Z.leb_le. lia.
    + apply Z.ltb_lt. lia.
    + apply Z.eqb_eq. lia.
Qed.

(** X18: the calls of [DumpRawStream] on a located stream of at most
    [INT_MAX] bytes. The stream is looked up once. A stream of length
    zero gives no other call. Otherwise [ReadBytes] is called once, for
    [length] bytes, and when it fails nothing follows; when it succeeds
    the scans for the next NUL follow, at least one, and each of them
    starts inside the vector of [length] bytes, covers at least one byte
    and ends at the vector's end. Nothing is read behind the buffer. *)
Theorem X18_scans_for_NUL_stay_inside_the_buffer md ty name errors w l :
  SeekToStreamType md ty = Some l ->
  to_uint32 l <= INT_MAX ->
  exists errors' w' scans,
    DumpRawStream md ty name errors w = Returned errors' w' /\
    overread w' = overread w /\
    calls w' =
      calls w ++
      CallSeekToStreamType ty ::
      (if to_uint32 l =? 0 then []
       else match ReadBytes md ty (to_uint32 l) with
            | None => [CallReadBytes (to_uint32 l) false]
            | Some _ => CallReadBytes (to_uint32 l) true :: scans
            end) /\
    (to_uint32 l <> 0 -> ReadBytes md ty (to_uint32 l) <> None ->
     scans <> []) /\
    (forall c,
       In c scans ->
       exists offset remaining,
         c = CallMemchr offset remaining /\
         0 <= offset /\ 0 < remaining /\
         offset + remaining = to_uint32 l).
Proof.
  intros Hseek Hmax.
  destruct (Z.eq_dec (to_uint32 l) 0) as [H0|H0].
  - rewrite (DumpRawStream_empty _ _ _ _ _ l Hseek H0), H0.
    eexists _, _, []. split; [reflexivity|]. split; [reflexivity|].
    split; [reflexivity|]. split; [contradiction | intros ? []].
  - replace (to_uint32 l =? 0) with false
      by (symmetry; now apply Z.eqb_neq).
    destruct (ReadBytes md ty (to_uint32 l)) as [data|] eqn:Hread.
    + rewrite (DumpRawStream_read _ _ _ _ _ _ _ Hseek H0 Hread).
      set (w1 := record_call _ (write_stdout _ (record_call _ w))).
      pose proof (to_uint32_range l) as Hr.
      pose proof (vector_after_read_length (to_uint32 l) data ltac:(lia))
        as Hv.
      destruct (DumpRawStream_loop_scans
                  (vector_after_read (to_uint32 l) data) (to_uint32 l) 0 w1
                  ltac:(lia)) as (scans & E & Hs & Hne).
      eexists _, _, scans. split; [reflexivity|]. split; [|split; [|split]].
      * cbn [overread write_stdout].
        now rewrite (DumpRawStream_loop_in_bounds _ _ 0 w1 Hv Hmax
                       ltac:(lia)).
      * cbn [calls write_stdout]. rewrite E. subst w1.
        cbn [calls write_stdout record_call]. now rewrite <- !app_assoc.
      * intros _ _. apply Hne. lia.
      * intros c Hin. rewrite forallb_forall in Hs. specialize (Hs _ Hin).
        destruct c; try discriminate. cbn [scan_in_buffer] in Hs.
        apply andb_prop in Hs as [Hs H3]. apply andb_prop in Hs as [H1 H2].
        apply Z.leb_le in H1. apply Z.ltb_lt in H2. apply Z.eqb_eq in H3.
        eauto 6.
    + rewrite (DumpRawStream_read_failure _ _ _ _ _ l Hseek H0 Hread).
      eexists _, _, []. split; [reflexivity|]. split; [reflexivity|].
      split; [|split].
      * cbn [calls write_log write_stdout record_call].
        now rewrite <- !app_assoc.
      * intros _ H. now contradiction H.
      * intros ? [].
Qed.

Lemma X18_witness :
  SeekToStreamType sample_minidump MD_LINUX_ENVIRON = Some 8 /\
  to_uint32 8 <= INT_MAX /\
  exists errors' w' scans,
    DumpRawStream sample_minidump MD_LINUX_ENVIRON (chars "MD_LINUX_ENVIRON")
      0 initial_world = Returned errors' w' /\
    calls w' =
      CallSeekToStreamType MD_LINUX_ENVIRON :: CallReadBytes 8 true :: scans /\
    forall c,
      In c scans ->
      exists offset remaining,
        c = CallMemchr offset remaining /\ offset + remaining = 8.
Proof.
  split; [reflexivity|]. split; [discriminate|].
  destruct (X18_scans_for_NUL_stay_inside_the_buffer
              sample_minidump MD_LINUX_ENVIRON (chars "MD_LINUX_ENVIRON")
              0 initial_world 8 eq_refl ltac:(discriminate))
    as (errors' & w' & scans & E & _ & Hcalls & _ & Hscans).
  exists errors', w', scans. split; [exact E|]. split; [exact Hcalls|].
  intros c Hin. destruct (Hscans c Hin) as (off & rem & -> & _ & _ & H).
  exists off, rem. split; [reflexivity | exact H].
Defined.

(** ** The ceiling on the number of modules *)

Lemma logged_other {A} s (r : option A) msg entry :
  In entry (logged s r msg) -> entry = (s, chars msg).
Proof.
  destruct r; cbn; [intros [] | intros [H|[]]; now symmetry].
Qed.

Lemma raw_logged_other md ty entry :
  In entry (raw_logged md ty) ->
  entry = (ERROR, chars "minidump.ReadBytes failed").
Proof.
  unfold raw_logged.
  destruct (read_fails md ty); cbn; [intros [H|[]]; now symmetry | intros []].
Qed.

(** X19: the full dump raises the ceiling on the number of modules before
    it retrieves the module list, the module summary does not. So for a
    container that was read, has no raw stream longer than [INT_MAX], and
    whose module list is refused under the ceiling in force but given
    under [UINT32_MAX], the module summary fails, printing and logging
    nothing, while the full dump prints the list, right after the header,
    the thread list and the thread names and right before the memory
    list, and logs no module list error. *)
Theorem X19_full_dump_sees_the_module_list_the_summary_is_refused
    Minidump_new options w modules :
  modules_debug_info options = false ->
  platform_info options = false ->
  let md := Minidump_new (minidumpPath options) (hexdump options) in
  Minidump_Read md = true ->
  streams_within_INT_MAX md = true ->
  GetModuleList md (max_modules w) = None ->
  GetModuleList md UINT32_MAX = Some modules ->
  (exists w1,
     PrintMinidumpDump Minidump_new (set_modules_debug_info options) w =
       Returned false w1 /\
     stdout w1 = stdout w /\ log w1 = log w) /\
  (exists ok w2 after lg,
     PrintMinidumpDump Minidump_new options w = Returned ok w2 /\
     overread w2 = overread w /\
     stdout w2 =
       stdout w ++
       (Minidump_Print md ++ shown (GetThreadList md) Print_text ++
        shown (GetThreadNameList md) Print_text) ++
       ModuleList_Print modules ++
       shown (GetMemoryList md) Print_text ++ after /\
     log w2 = log w ++ lg /\
     ~ In (ERROR, chars "minidump.GetModuleList() failed") lg /\
     error_entries lg =
       missing (GetThreadList md) + missing (GetMemoryList md) +
       missing (GetSystemInfo md) + missing (GetMiscInfo md) +
       missing (GetMemoryInfoList md) + raw_failures md).
Proof.
  intros HM HP md HR Hmax Hlow Hhigh. split.
  - rewrite (PrintMinidumpDump_mode Minidump_new
               (set_modules_debug_info options) w HR).
    cbn [active_mode set_modules_debug_info modules_debug_info run_mode
         minidumpPath hexdump].
    fold md. unfold module_summary.
    rewrite (bind_Returned _ _ _ _ _ (call_step _ _)).
    rewrite (bind_Returned _ _ _ _ _ (GetModuleList_step _ _)).
    cbn [max_modules record_call]. rewrite Hlow.
    eexists. repeat split; reflexivity.
  - rewrite (PrintMinidumpDump_full_dump _ _ _ HM HP HR). fold md.
    rewrite (bind_Returned _ _ _ _ _ (full_dump_runs _ _)).
    eexists _, _, _, (full_dump_log md).
    split; [reflexivity|].
    rewrite full_dump_world_stdout, full_dump_world_log.
    rewrite full_dump_world_overread
      by now apply streams_within_INT_MAX_spec.
    split; [reflexivity|].
    split; [|split; [reflexivity|split]].
    + cbn [stdout record_call]. unfold full_dump_output.
      rewrite Hhigh. cbn [shown]. rewrite <- !app_assoc. reflexivity.
    + unfold full_dump_log. rewrite Hhigh. cbn [logged app].
      intros Hin.
      repeat (apply in_app_or in Hin as [Hin|Hin];
              [first [apply logged_other in Hin
                     |apply raw_logged_other in Hin]; discriminate|]).
      apply raw_logged_other in Hin. discriminate.
    + rewrite error_entries_full_dump_log. unfold required_missing.
      rewrite Hhigh. cbn [missing]. lia.
Qed.

Lemma X19_witness :
  (exists w1,
     PrintMinidumpDump (fun _ _ => crowded_minidump)
       (set_modules_debug_info Options_new) initial_world =
       Returned false w1 /\
     stdout w1 = []) /\
  (exists ok w2 after,
     PrintMinidumpDump (fun _ _ => crowded_minidump) Options_new
       initial_world = Returned ok w2 /\
     stdout w2 =
       (chars "MDRawHeader" ++ [LF] ++ chars "MinidumpThreadList" ++ [LF]) ++
       (chars "MinidumpModuleList" ++ [LF]) ++
       (chars "MinidumpMemoryList" ++ [LF]) ++ after).
Proof.
  destruct (X19_full_dump_sees_the_module_list_the_summary_is_refused
              (fun _ _ => crowded_minidump) Options_new initial_world
              sample_modules eq_refl eq_refl eq_refl eq_refl eq_refl
              eq_refl)
    as [(w1 & E1 & Hout1 & _)
        (ok & w2 & after & lg & E2 & _ & Hout2 & _)].
  split.
  - exists w1. split; [exact E1 | exact Hout1].
  - exists ok, w2, after. split; [exact E2 | exact Hout2].
Defined.

(** ** The steps of the full dump, for streams that [printf] can take *)

(** X20: in full-dump mode, on a container that was read and has no raw
    stream longer than [INT_MAX], every one of the thirteen steps is run,
    in order, whatever the steps before it found (the retrievals of the
    twelve first steps and the six look-ups of the raw stream pass are
    all made), and nothing is read behind a buffer; the result is success
    exactly when the error count is zero at the end; the count is the
    number of absent required records plus that of raw streams whose read
    fails. So one absent required record makes the run fail, and with all
    six required records there and no failing read the run succeeds,
    whichever optional records are absent. *)
Theorem X20_full_dump_runs_every_step_and_succeeds_iff_no_error
    Minidump_new options w :
  modules_debug_info options = false ->
  platform_info options = false ->
  let md := Minidump_new (minidumpPath options) (hexdump options) in
  Minidump_Read md = true ->
  streams_within_INT_MAX md = true ->
  exists errors w',
    full_dump md (record_call CallRead w) = Returned errors w' /\
    PrintMinidumpDump Minidump_new options w = Returned (errors =? 0) w' /\
    overread w' = overread w /\
    steps w' = steps w ++ full_dump_steps /\
    errors = required_missing md + raw_failures md /\
    (GetThreadList md = None \/ GetModuleList md UINT32_MAX = None \/
     GetMemoryList md = None \/ GetSystemInfo md = None \/
     GetMiscInfo md = None \/ GetMemoryInfoList md = None ->
     1 <= errors /\ (errors =? 0) = false) /\
    (GetThreadList md <> None -> GetModuleList md UINT32_MAX <> None ->
     GetMemoryList md <> None -> GetSystemInfo md <> None ->
     GetMiscInfo md <> None -> GetMemoryInfoList md <> None ->
     (forall ty, read_fails md ty = false) ->
     errors = 0 /\ (errors =? 0) = true).
Proof.
  intros HM HP md HR Hmax.
  exists (required_missing md + raw_failures md),
         (full_dump_world md (record_call CallRead w)).
  split; [apply full_dump_runs|].
  split; [|split; [|split; [|split; [|split]]]].
  - rewrite (PrintMinidumpDump_full_dump _ _ _ HM HP HR).
    now rewrite (bind_Returned _ _ _ _ _ (full_dump_runs _ _)).
  - rewrite full_dump_world_overread
      by now apply streams_within_INT_MAX_spec.
    reflexivity.
  - rewrite steps_full_dump_world, steps_record_call. cbn [step_call].
    now rewrite app_nil_r.
  - reflexivity.
  - intros H. apply required_missing_positive in H.
    pose proof (raw_failures_range md).
    split; [lia | apply Z.eqb_neq; lia].
  - intros H1 H2 H3 H4 H5 H6 Hraw.
    assert (E : required_missing md + raw_failures md = 0).
    { unfold required_missing, raw_failures, raw_failure.
      rewrite !Hraw, !missing_Some by assumption. reflexivity. }
    rewrite E. split; reflexivity.
Qed.

Lemma X20_witness :
  modules_debug_info Options_new = false /\
  platform_info Options_new = false /\
  Minidump_Read sample_minidump = true /\
  streams_within_INT_MAX sample_minidump = true /\
  exists errors w',
    PrintMinidumpDump (fun _ _ => sample_minidump) Options_new initial_world =
      Returned (errors =? 0) w' /\
    steps w' = full_dump_steps /\
    errors = 0.
Proof.
  split; [reflexivity|]. split; [reflexivity|]. split; [reflexivity|].
  split; [reflexivity|].
  destruct (X20_full_dump_runs_every_step_and_succeeds_iff_no_error
              (fun _ _ => sample_minidump) Options_new initial_world
              eq_refl eq_refl eq_refl eq_refl)
    as (errors & w' & _ & E & _ & Hsteps & _ & _ & H).
  exists errors, w'. split; [exact E|]. split; [exact Hsteps|].
  apply H; try discriminate. intros []; reflexivity.
Defined.
